(** * p4unity: the changelist validation of [main.go], embedded and verified

    The development follows [src/main.go] (the [app] function and its
    helpers) and the [tomlConfig] declaration of the configuration file.

    Go strings are byte sequences: they are modelled by [string], whose
    characters ([ascii]) are exactly the 256 byte values.  Library functions
    of Go ([strings], [path/filepath], [regexp]) are written out on bytes.
    [strings.TrimSpace] trims the white space of [unicode.IsSpace], read
    off the UTF-8 encoding of the runes.  [strings.ToLower] is written out
    for strings of ASCII bytes; for any other string it is
    [strings.Map(unicode.ToLower, s)], which consults the Unicode tables:
    that mapping is a variable of the development and nothing is assumed
    about it.  [path/filepath] is the
    Unix build (the only separator is [/]).  Calls to the [zap] logger are
    left out: they write to a log sink and never influence the control
    flow. *)

From Stdlib Require Import String Ascii List ZArith Lia Bool Permutation.
From stdpp Require Import base strings gmap list pretty sets.

Local Open Scope string_scope.
Local Open Scope list_scope.

(** ** Bytes and character classes *)

Definition LF : ascii := "010"%char.
Definition CR : ascii := "013"%char.
Definition nl : string := String LF "".

Definition byteIn (lo hi c : ascii) : bool :=
  (nat_of_ascii lo <=? nat_of_ascii c)%nat && (nat_of_ascii c <=? nat_of_ascii hi)%nat.

(** [\d] of Go's regexp syntax: ASCII digits only. *)
Definition isDigit (c : ascii) : bool := byteIn "0" "9" c.

(** [\w] of Go's regexp syntax: [0-9A-Za-z_]. *)
Definition isWord (c : ascii) : bool :=
  isDigit c || byteIn "a" "z" c || byteIn "A" "Z" c || Ascii.eqb c "_".

(** The class [[\w\/]] of both regular expressions. *)
Definition isOpChar (c : ascii) : bool := isWord c || Ascii.eqb c "/".

(** [\s] of Go's regexp syntax: [\t\n\f\r ]. *)
Definition isReSpace (c : ascii) : bool :=
  Ascii.eqb c "009" || Ascii.eqb c "010" || Ascii.eqb c "012"
  || Ascii.eqb c "013" || Ascii.eqb c " ".

(** The [asciiSpace] table of package [strings]: [\t \n \v \f \r] and space. *)
Definition asciiSpace (c : ascii) : bool :=
  Ascii.eqb c "009" || Ascii.eqb c "010" || Ascii.eqb c "011"
  || Ascii.eqb c "012" || Ascii.eqb c "013" || Ascii.eqb c " ".

(** [os.IsPathSeparator] on Unix. *)
Definition IsPathSeparator (c : ascii) : bool := Ascii.eqb c "/".

(** ** Package [strings] *)

Fixpoint HasPrefix (s prefix : string) : bool :=
  match prefix, s with
  | "", _ => true
  | String p ps, String c cs => Ascii.eqb c p && HasPrefix cs ps
  | String _ _, "" => false
  end.

Fixpoint Contains (s substr : string) : bool :=
  HasPrefix s substr ||
  match s with
  | "" => false
  | String _ t => Contains t substr
  end.

Definition lowerByte (c : ascii) : ascii :=
  if byteIn "A" "Z" c then ascii_of_nat (nat_of_ascii c + 32) else c.

(** Every byte of [s] is below [utf8.RuneSelf]. *)
Fixpoint isASCII (s : string) : bool :=
  match s with
  | "" => true
  | String c t => (nat_of_ascii c <? 128)%nat && isASCII t
  end.

(** [strings.ToLower] on a string of ASCII bytes: [A] to [Z] are
    lower-cased byte by byte. *)
Fixpoint asciiToLower (s : string) : string :=
  match s with
  | "" => ""
  | String c t => String (lowerByte c) (asciiToLower t)
  end.

(** *** [strings.TrimSpace]

    [TrimSpace] drops the runes [r] with [unicode.IsSpace(r)] from both ends
    of the string: [TrimFunc(s, unicode.IsSpace)], that is
    [TrimRightFunc(TrimLeftFunc(s, f), f)].  A byte sequence decodes to a
    white-space rune exactly when it is the UTF-8 encoding of one; bytes
    that are not valid UTF-8 decode to [utf8.RuneError], which is not white
    space. *)

(** [unicode.IsSpace] beyond ASCII, on the UTF-8 encoding of the rune.
    Two bytes: U+0085 (C2 85) and U+00A0 (C2 A0). *)
Definition isSpace2 (a b : ascii) : bool :=
  Ascii.eqb a "194" && (Ascii.eqb b "133" || Ascii.eqb b "160").

(** Three bytes: U+1680 (E1 9A 80), U+2000 to U+200A (E2 80 80 to E2 80 8A),
    U+2028 and U+2029 (E2 80 A8, E2 80 A9), U+202F (E2 80 AF),
    U+205F (E2 81 9F) and U+3000 (E3 80 80). *)
Definition isSpace3 (a b c : ascii) : bool :=
  (Ascii.eqb a "225" && Ascii.eqb b "154" && Ascii.eqb c "128")
  || (Ascii.eqb a "226" && Ascii.eqb b "128"
      && (byteIn "128" "138" c || Ascii.eqb c "168" || Ascii.eqb c "169" || Ascii.eqb c "175"))
  || (Ascii.eqb a "226" && Ascii.eqb b "129" && Ascii.eqb c "159")
  || (Ascii.eqb a "227" && Ascii.eqb b "128" && Ascii.eqb c "128").

(** [s] is the encoding of one white-space rune. *)
Definition isSpaceRune (s : string) : bool :=
  match s with
  | String a "" => asciiSpace a
  | String a (String b "") => isSpace2 a b
  | String a (String b (String c "")) => isSpace3 a b c
  | _ => false
  end.

(** [s] starts with a white-space rune. *)
Definition startsWithSpace (s : string) : bool :=
  match s with
  | String a t =>
      asciiSpace a
      || match t with
         | String b t' =>
             isSpace2 a b
             || match t' with
                | String c _ => isSpace3 a b c
                | "" => false
                end
         | "" => false
         end
  | "" => false
  end.

(** [strings.TrimLeftFunc(s, unicode.IsSpace)]: the white-space runes at
    the start of [s] are dropped, one rune at a time. *)
Fixpoint TrimLeft (s : string) : string :=
  match s with
  | String a t =>
      if asciiSpace a then TrimLeft t
      else
        match t with
        | String b t' =>
            if isSpace2 a b then TrimLeft t'
            else
              match t' with
              | String c t'' => if isSpace3 a b c then TrimLeft t'' else s
              | "" => s
              end
        | "" => s
        end
  | "" => ""
  end.

(** [strings.TrimRightFunc(s, unicode.IsSpace)]: the white-space runes at
    the end of [s] are dropped.  What is left of [String c t] is [c] followed
    by what is left of [t], unless that is one white-space rune; by
    [TrimRight_spec] below this drops the longest run of white-space runes
    at the end, and nothing else. *)
Fixpoint TrimRight (s : string) : string :=
  match s with
  | "" => ""
  | String c t =>
      let r := String c (TrimRight t) in
      if isSpaceRune r then "" else r
  end.

Definition TrimSpace (s : string) : string := TrimRight (TrimLeft s).

(** A run of white-space runes. *)
Inductive whiteSpace : string -> Prop :=
  | whiteSpace_nil : whiteSpace ""
  | whiteSpace_cons r s : isSpaceRune r = true -> whiteSpace s -> whiteSpace (r +:+ s).

(** [s[n:]] *)
Fixpoint sliceFrom (n : nat) (s : string) : string :=
  match n, s with
  | O, _ => s
  | S n', String _ t => sliceFrom n' t
  | S _, "" => ""
  end.

(** [s[0:n]] *)
Fixpoint sliceTo (n : nat) (s : string) : string :=
  match n, s with
  | S n', String c t => String c (sliceTo n' t)
  | _, _ => ""
  end.

(** [strings.Split(s, "\r\n")]: the pieces between the non-overlapping
    occurrences of the separator, found left to right; never empty. *)
Fixpoint SplitCRLF (s : string) : list string :=
  match s with
  | "" => [""]
  | String c rest =>
      let glue := match SplitCRLF rest with
                  | h :: t => String c h :: t
                  | [] => [String c ""]
                  end in
      if Ascii.eqb c CR then
        match rest with
        | String d rest' => if Ascii.eqb d LF then "" :: SplitCRLF rest' else glue
        | "" => glue
        end
      else glue
  end.

(** ** Package [path/filepath] *)

(** Both [filepath.Split] and [filepath.Ext] walk the path from its last
    byte towards the first until a byte of interest is met.  [scanRight stop
    s] is that walk: the rightmost byte [c] of [s] with [stop c], together
    with what precedes and what follows it. *)
Fixpoint scanRight (stop : ascii -> bool) (s : string) : option (string * ascii * string) :=
  match s with
  | "" => None
  | String c rest =>
      match scanRight stop rest with
      | Some (b, x, a) => Some (String c b, x, a)
      | None => if stop c then Some ("", c, rest) else None
      end
  end.

(** [for i := len(path)-1; i >= 0 && !os.IsPathSeparator(path[i]); i--]
    returning [path[i:]] at the first dot met. *)
Definition Ext (path : string) : string :=
  match scanRight (fun c => IsPathSeparator c || Ascii.eqb c ".") path with
  | Some (_, c, after) => if IsPathSeparator c then "" else String c after
  | None => ""
  end.

(** [filepath.Split]: the directory up to and including the last separator,
    and the file name after it. *)
Definition Split (path : string) : string * string :=
  match scanRight IsPathSeparator path with
  | Some (b, c, after) => (b +:+ String c "", after)
  | None => ("", path)
  end.

(** ** The two regular expressions *)

(** Longest prefix of [s] whose bytes satisfy [p], and the rest. *)
Fixpoint span (p : ascii -> bool) (s : string) : string * string :=
  match s with
  | "" => ("", "")
  | String c t =>
      if p c then let '(a, b) := span p t in (String c a, b) else ("", s)
  end.

(** A match of [([^#]+)#(\d+) ([\w\/]+)$] (flag [m]) starting at the first
    byte of [s].  Every repetition is followed by a byte outside its class
    ([#], a space, the end of a line), so the greedy choice is the only one
    that can succeed and no backtracking is needed.  With flag [m], [$]
    holds at the end of the text and before a line feed.  The result is the
    slice Go returns: the whole match and the three groups, or [nil]. *)
Definition fileRecordAt (s : string) : list string :=
  let '(path, r1) := span (fun c => negb (Ascii.eqb c "#")) s in
  match path, r1 with
  | String _ _, String _ r2 =>
      let '(rev, r3) := span isDigit r2 in
      match rev, r3 with
      | String _ _, String sp r4 =>
          if Ascii.eqb sp " " then
            let '(op, r5) := span isOpChar r4 in
            let found := [path +:+ "#" +:+ rev +:+ " " +:+ op; path; rev; op] in
            match op, r5 with
            | String _ _, "" => found
            | String _ _, String e _ => if Ascii.eqb e LF then found else []
            | "", _ => []
            end
          else []
      | _, _ => []
      end
  | _, _ => []
  end.

(** [FindStringSubmatch]: the leftmost match, start positions tried from
    left to right. *)
Fixpoint findLeftmost (matchAt : string -> list string) (s : string) : list string :=
  match matchAt s with
  | [] => match s with
          | "" => []
          | String _ t => findLeftmost matchAt t
          end
  | m => m
  end.

(** [reFileRecordUnpack.FindStringSubmatch] *)
Definition reFileRecordUnpack (s : string) : list string := findLeftmost fileRecordAt s.

(** A match of [headAction\s+([\w\/]+)] starting at the first byte of [s]. *)
Definition headActionAt (s : string) : list string :=
  if HasPrefix s "headAction" then
    let '(ws, r1) := span isReSpace (sliceFrom 10 s) in
    let '(op, _) := span isOpChar r1 in
    match ws, op with
    | String _ _, String _ _ => ["headAction" +:+ ws +:+ op; op]
    | _, _ => []
    end
  else [].

(** [reFindHeadActionOp.FindStringSubmatch] *)
Definition reFindHeadActionOp (s : string) : list string := findLeftmost headActionAt s.

(** ** Configuration, exit codes, string sets *)

(** [tomlConfig], as declared next to [LoadConfig]. *)
Record tomlConfig := {
  VerboseLogs : bool;
  PerforceServer : string;
  PerforceUser : string;
  PerforcePass : string;
  BypassKeyphrase : string;
  PathWhitelist : list string
}.

(** The named exit codes of [main.go]; [exitStatus] is the integer each
    constant stands for, which is what [os.Exit] receives. *)
Inductive ExitCode :=
  | p4ExitSuccess
  | p4ExitBypass
  | p4ExitProblems
  | p4ExitErrorException
  | p4ExitErrorEmpty
  | p4ExitErrorUsage.

Definition exitStatus (c : ExitCode) : Z :=
  match c with
  | p4ExitSuccess | p4ExitBypass => 0
  | p4ExitProblems | p4ExitErrorException | p4ExitErrorEmpty | p4ExitErrorUsage => 1
  end.

(** [type stringSet map[string]struct{}] *)
Abbreviation stringSet := (gset string).

Definition add (s : stringSet) (strvalue : string) : stringSet := {[ strvalue ]} ∪ s.
Definition has (s : stringSet) (strvalue : string) : bool := bool_decide (strvalue ∈ s).

Definition opsAdd : stringSet := list_to_set ["move/add"; "add"; "import"].
Definition opsDel : stringSet := list_to_set ["move/delete"; "delete"; "purge"; "archive"].
Definition opsExists : stringSet := list_to_set ["edit"; "move/add"; "add"; "import"].

(** ** Effects

    What a run does besides computing: it prints to standard output and it
    launches [p4 fstat].  [stdout] holds the printed texts, one entry per
    [Printf]/[Println], oldest first; [fstatCalls] holds the depot paths
    handed to [p4 fstat], oldest first.  [allowCommitToContinue] is the
    local variable of that name.  A computation either goes on with a value
    or leaves [app] with an exit code ([return] in the middle of a loop). *)
Record State := {
  stdout : list string;
  fstatCalls : list string;
  allowCommitToContinue : bool
}.

Inductive Flow (A : Type) :=
  | Next (a : A)
  | Return (code : ExitCode).
Arguments Next {A} a.
Arguments Return {A} code.

Definition M (A : Type) : Type := State -> Flow A * State.

Definition ret {A} (a : A) : M A := fun st => (Next a, st).

Definition bind {A B} (m : M A) (f : A -> M B) : M B := fun st =>
  match m st with
  | (Next a, st') => f a st'
  | (Return c, st') => (Return c, st')
  end.

Declare Scope run_scope.
Delimit Scope run_scope with run.
Bind Scope run_scope with M.
Notation "x ← y ; z" := (bind y (fun x => z))
  (at level 20, y at level 100, z at level 200, only parsing) : run_scope.
Notation "' x ← y ; z" := (bind y (fun x => z))
  (at level 20, x pattern, y at level 100, z at level 200, only parsing) : run_scope.
Notation "x ;; z" := (bind x (fun _ => z))
  (at level 100, z at level 200, only parsing, right associativity) : run_scope.
Local Open Scope run_scope.

Definition exit {A} (code : ExitCode) : M A := fun st => (Return code, st).

Definition Printf (text : string) : M unit := fun st =>
  (Next tt, {| stdout := stdout st ++ [text];
               fstatCalls := fstatCalls st;
               allowCommitToContinue := allowCommitToContinue st |}).

Definition setAllowCommitToContinue (b : bool) : M unit := fun st =>
  (Next tt, {| stdout := stdout st;
               fstatCalls := fstatCalls st;
               allowCommitToContinue := b |}).

Definition getAllowCommitToContinue : M bool := fun st => (Next (allowCommitToContinue st), st).

Definition launchedFstat (depotPath : string) : M unit := fun st =>
  (Next tt, {| stdout := stdout st;
               fstatCalls := fstatCalls st ++ [depotPath];
               allowCommitToContinue := allowCommitToContinue st |}).

(** The state in which [app] starts: nothing printed, nothing asked. *)
Definition start : State :=
  {| stdout := []; fstatCalls := []; allowCommitToContinue := true |}.

(** [for _, x := range l { body }]; [continue] is [ret tt]. *)
Fixpoint forEach {A} (l : list A) (body : A -> M unit) : M unit :=
  match l with
  | [] => ret tt
  | x :: t => body x ;; forEach t body
  end.

(** A loop that updates local variables [acc]. *)
Fixpoint forEachWith {A B} (l : list A) (acc : B) (body : B -> A -> M B) : M B :=
  match l with
  | [] => ret acc
  | x :: t => acc' ← body acc x; forEachWith t acc' body
  end.

(** ** [filterStringsByType] *)

Fixpoint filterStringsByType (s : list string) (p4type : string) : list string :=
  match s with
  | [] => []
  | str :: rest =>
      let result := filterStringsByType rest p4type in
      if HasPrefix str p4type then
        let str' := TrimSpace (sliceFrom (String.length p4type) str) in
        if String.eqb str' "" then result else str' :: result
      else result
  end.

(** ** [strings.ToLower]

    [strings.ToLower(s)] lower-cases a string of ASCII bytes byte by byte,
    and returns [strings.Map(unicode.ToLower, s)] for any other string.
    The second case decodes UTF-8 and consults the Unicode tables, which
    are not part of the program: [mapUnicodeToLower] stands for it, and
    everything below holds whatever it is. *)

Section Unicode.

Variable mapUnicodeToLower : string -> string.

Definition ToLower (s : string) : string :=
  if isASCII s then asciiToLower s else mapUnicodeToLower s.

(** The four sets filled by the first loop of [app]. *)
Record Buckets := {
  filesBeingAdded : stringSet;
  filesBeingAddedIgnoringCase : stringSet;
  filesBeingDeleted : stringSet;
  filesBeingDeletedIgnoringCase : stringSet
}.

Definition noFiles : Buckets :=
  {| filesBeingAdded := ∅; filesBeingAddedIgnoringCase := ∅;
     filesBeingDeleted := ∅; filesBeingDeletedIgnoringCase := ∅ |}.

Definition markForAdd (b : Buckets) (filePath : string) : Buckets :=
  {| filesBeingAdded := add (filesBeingAdded b) filePath;
     filesBeingAddedIgnoringCase := add (filesBeingAddedIgnoringCase b) (ToLower filePath);
     filesBeingDeleted := filesBeingDeleted b;
     filesBeingDeletedIgnoringCase := filesBeingDeletedIgnoringCase b |}.

Definition markForDelete (b : Buckets) (filePath : string) : Buckets :=
  {| filesBeingAdded := filesBeingAdded b;
     filesBeingAddedIgnoringCase := filesBeingAddedIgnoringCase b;
     filesBeingDeleted := add (filesBeingDeleted b) filePath;
     filesBeingDeletedIgnoringCase := add (filesBeingDeletedIgnoringCase b) (ToLower filePath) |}.

(** The texts printed by [app]. *)
Definition msgNoChangelist (changelist : Z) : string :=
  "[p4unity] cannot find changelist [" +:+ pretty changelist +:+ "]" +:+ nl +:+ nl.
Definition msgEmptyOutput (changelist : Z) : string :=
  "[p4unity] p4 describe [" +:+ pretty changelist +:+ "] output is empty" +:+ nl +:+ nl.
Definition msgNoFileRecords (changelist : Z) : string :=
  "[p4unity] changelist [" +:+ pretty changelist +:+ "] has no file records?" +:+ nl +:+ nl.
Definition msgBypass : string := "[p4unity] bypassing validation" +:+ nl +:+ nl.
Definition msgParseFailed (item : string) : string :=
  "[p4unity] file parse failed for '" +:+ item +:+ "'" +:+ nl +:+ nl.
Definition msgLaunchFailed (err fstatOut : string) : string :=
  "[p4unity] failed to launch P4; " +:+ err +:+ nl +:+ fstatOut +:+ nl +:+ nl.
Definition msgFstatFailed (file err : string) : string :=
  "[p4unity] fstat failed for '" +:+ file +:+ "'" +:+ nl +:+ "( " +:+ err +:+ " )" +:+ nl.
Definition msgMissingMeta (fadd : string) : string :=
  "Missing .meta file for '" +:+ fadd +:+ "'" +:+ nl.
Definition msgMissingAsset (fadd : string) : string :=
  "Missing asset for .meta file '" +:+ fadd +:+ "'" +:+ nl.
Definition msgOrphanedMeta (fdel : string) : string :=
  "Need to delete the orphaned .meta for '" +:+ fdel +:+ "'" +:+ nl.
Definition msgSuccess : string := "success" +:+ nl.

(** A violation text: one of the three texts that go with
    [allowCommitToContinue = false]. *)
Definition isViolation (text : string) : Prop :=
  exists p, text = msgMissingMeta p \/ text = msgMissingAsset p \/ text = msgOrphanedMeta p.

Section App.

(** [AppConfig], the configuration loaded before [app] runs. *)
Variable AppConfig : tomlConfig.

(** The outside world: [p4fstat depotPath] is what
    [exec.Command("p4", ..., "fstat", depotPath).CombinedOutput()] gives,
    the combined output and the text of the error, if any. *)
Variable p4fstat : string -> string * option string.

(** The order in which [range] walks a Go map is not specified and
    changes from one loop to the next; [rangeOrder s] is the order met in
    this run.  Theorems assume no more than that it lists the elements of
    the set, each once. *)
Variable rangeOrder : stringSet -> list string.

(** [fileExistsInDepot]: the boolean and the error it returns. *)
Definition fileExistsInDepot (depotPath : string) : M (bool * option string) :=
  launchedFstat depotPath ;;
  let '(fstatOut, err) := p4fstat depotPath in
  match err with
  | Some e => Printf (msgLaunchFailed e fstatOut) ;; ret (false, Some e)
  | None =>
      let fstatHeadAction := reFindHeadActionOp fstatOut in
      if (length fstatHeadAction =? 0)%nat then ret (false, None)
      else
        let fstatHeadActionOp := nth 1 fstatHeadAction "" in
        if negb (has opsExists fstatHeadActionOp) then ret (false, None)
        else ret (true, None)
  end.

(** The body of the loop over the file records (main.go:267-341). *)
Definition classifyItem (b : Buckets) (item : string) : M Buckets :=
  let matches := reFileRecordUnpack item in
  if negb (length matches =? 4)%nat then
    Printf (msgParseFailed item) ;; exit p4ExitErrorException
  else
    let filePath := nth 1 matches "" in
    let vcsOperation := nth 3 matches "" in
    let '(itemDirectory, itemFilename) := Split filePath in
    if Contains itemDirectory "~/" then ret b
    else if HasPrefix itemFilename "." then ret b
    else if negb (existsb (fun whitelist => HasPrefix itemDirectory whitelist)
                          (PathWhitelist AppConfig)) then ret b
    else if negb (Contains itemDirectory "/Assets/") then ret b
    else
      let b1 := if has opsAdd vcsOperation then markForAdd b filePath else b in
      let b2 := if has opsDel vcsOperation then markForDelete b1 filePath else b1 in
      ret b2.

(** The body of the loop over [filesBeingAdded] (main.go:347-414). *)
Definition checkAdded (b : Buckets) (fadd : string) : M unit :=
  let fileExtension := Ext fadd in
  if negb (String.eqb fileExtension ".meta") then
    let fileWithMeta := fadd +:+ ".meta" in
    if has (filesBeingAdded b) fileWithMeta then ret tt
    else if has (filesBeingAddedIgnoringCase b) (ToLower fileWithMeta) then ret tt
    else
      '(foundInDepot, err) ← fileExistsInDepot fileWithMeta;
      match err with
      | Some e => Printf (msgFstatFailed fileWithMeta e) ;; exit p4ExitErrorException
      | None =>
          if foundInDepot then ret tt
          else Printf (msgMissingMeta fadd) ;; setAllowCommitToContinue false
      end
  else
    let fileWithoutMeta := sliceTo (String.length fadd - String.length ".meta") fadd in
    let remainingExtension := TrimSpace (Ext fileWithoutMeta) in
    if (String.length remainingExtension =? 0)%nat then ret tt
    else if has (filesBeingAdded b) fileWithoutMeta then ret tt
    else if has (filesBeingAddedIgnoringCase b) (ToLower fileWithoutMeta) then ret tt
    else
      '(foundInDepot, err) ← fileExistsInDepot fileWithoutMeta;
      match err with
      | Some e => Printf (msgFstatFailed fileWithoutMeta e) ;; exit p4ExitErrorException
      | None =>
          if foundInDepot then ret tt
          else Printf (msgMissingAsset fadd) ;; setAllowCommitToContinue false
      end.

(** The body of the loop over [filesBeingDeleted] (main.go:418-455). *)
Definition checkDeleted (b : Buckets) (fdel : string) : M unit :=
  let fileExtension := Ext fdel in
  if negb (String.eqb fileExtension ".meta") then
    let fileWithMeta := fdel +:+ ".meta" in
    if has (filesBeingDeleted b) fileWithMeta then ret tt
    else if has (filesBeingDeletedIgnoringCase b) (ToLower fileWithMeta) then ret tt
    else
      '(foundInDepot, err) ← fileExistsInDepot fileWithMeta;
      match err with
      | Some e => Printf (msgFstatFailed fdel e) ;; exit p4ExitErrorException
      | None =>
          if negb foundInDepot then ret tt
          else Printf (msgOrphanedMeta fdel) ;; setAllowCommitToContinue false
      end
  else ret tt.

Definition addPass (b : Buckets) : M unit :=
  forEach (rangeOrder (filesBeingAdded b)) (checkAdded b).

Definition deletePass (b : Buckets) : M unit :=
  forEach (rangeOrder (filesBeingDeleted b)) (checkDeleted b).

(** The end of [app], once the four sets are filled (main.go:343-462). *)
Definition pairingChecks (b : Buckets) : M ExitCode :=
  setAllowCommitToContinue true ;;
  addPass b ;;
  deletePass b ;;
  allow ← getAllowCommitToContinue;
  if allow then Printf msgSuccess ;; ret p4ExitSuccess
  else ret p4ExitProblems.

(** [app] from the point where [p4 describe] has answered (main.go:204):
    [changelist] is the parsed argument and [p4outString] the output of
    the command.  The argument checks and the launch of [p4 describe]
    before that point only produce these two values or a usage error. *)
Definition appBody (changelist : Z) (p4outString : string) : M ExitCode :=
  let p4lines := SplitCRLF p4outString in
  if Contains (nth 0 p4lines "") "no such changelist" then
    Printf (msgNoChangelist changelist) ;; exit p4ExitErrorUsage
  else
    let p4text := filterStringsByType p4lines "text:" in
    let p4info := filterStringsByType p4lines "info1:" in
    let p4headerLines := length p4text in
    let p4fileCount := length p4info in
    if (p4headerLines =? 0)%nat then
      Printf (msgEmptyOutput changelist) ;; exit p4ExitErrorEmpty
    else if (p4fileCount =? 0)%nat then
      Printf (msgNoFileRecords changelist) ;; exit p4ExitErrorEmpty
    else if existsb (fun line => Contains line (BypassKeyphrase AppConfig)) (skipn 1 p4text) then
      Printf msgBypass ;; exit p4ExitBypass
    else
      b ← forEachWith p4info noFiles classifyItem;
      pairingChecks b.

Definition exitCodeOf (r : Flow ExitCode * State) : ExitCode :=
  match fst r with
  | Next c => c
  | Return c => c
  end.

(** The exit code of [app] and the state it leaves. *)
Definition app (changelist : Z) (p4outString : string) : ExitCode * State :=
  let r := appBody changelist p4outString start in (exitCodeOf r, snd r).

(** What [fileExistsInDepot] returns for a path: the remote existence
    oracle.  [(true, None)]: the file is in the depot with a head action of
    [opsExists]; [(false, None)]: it is not; [(_, Some e)]: the lookup
    itself failed. *)
Definition fstatAnswer (depotPath : string) : bool * option string :=
  match fst (fileExistsInDepot depotPath start) with
  | Next r => r
  | Return _ => (false, None)
  end.

Definition oraclePresent (depotPath : string) : Prop := fstatAnswer depotPath = (true, None).
Definition oracleAbsent (depotPath : string) : Prop := fstatAnswer depotPath = (false, None).
Definition oracleFails (depotPath : string) : Prop := snd (fstatAnswer depotPath) <> None.

(** The common end of the three checks: the partner [path] is not in the
    changelist, so the depot is asked.  [bad] is the answer that makes a
    violation ([false] when adding, [true] when deleting). *)
Definition depotLookup (path reported violation : string) (bad : bool) : Flow unit * State :=
  match fstatAnswer path with
  | (_, Some e) =>
      (Return p4ExitErrorException,
       {| stdout := [msgLaunchFailed e (fst (p4fstat path)); msgFstatFailed reported e];
          fstatCalls := [path];
          allowCommitToContinue := true |})
  | (found, None) =>
      if Bool.eqb found bad then
        (Next tt, {| stdout := [violation]; fstatCalls := [path];
                     allowCommitToContinue := false |})
      else
        (Next tt, {| stdout := []; fstatCalls := [path];
                     allowCommitToContinue := true |})
  end.

(** Every item of either pass is silent, or is a depot lookup whose
    violation text is one of the three. *)
Inductive ItemShape : Flow unit * State -> Prop :=
  | Silent : ItemShape (Next tt, start)
  | Looked path reported violation bad :
      isViolation violation ->
      ItemShape (depotLookup path reported violation bad).

(** Every lookup made so far was answered. *)
Definition allAnswered (st : State) : Prop :=
  forall q, In q (fstatCalls st) -> snd (fstatAnswer q) = None.

(** The last lookup failed, it is the only one that did, and its failure
    is the last text printed. *)
Definition stoppedAtFailure (st : State) : Prop :=
  exists calls out path reported e,
    snd (fstatAnswer path) = Some e
    /\ fstatCalls st = calls ++ [path]
    /\ (forall q, In q calls -> snd (fstatAnswer q) = None)
    /\ stdout st = out ++ [msgFstatFailed reported e].

End App.

(** ** Notions used in the statements *)

(** [p] ends in [suffix]. *)
Definition endsIn (p suffix : string) : Prop := exists base, p = base +:+ suffix.

(** Inside the two passes a step never reads the state: it only appends to
    [stdout] and [fstatCalls] and may clear [allowCommitToContinue].
    [extend st e] is [st] followed by the effects [e] of such a step run
    from [start]; a computation is [framed] when that is all it does. *)
Definition extend (st e : State) : State :=
  {| stdout := stdout st ++ stdout e;
     fstatCalls := fstatCalls st ++ fstatCalls e;
     allowCommitToContinue := allowCommitToContinue st && allowCommitToContinue e |}.

Definition framed {A} (m : M A) : Prop :=
  forall st, m st = (fst (m start), extend st (snd (m start))).

(** What the items of [l] do one after the other when none of them leaves. *)
Fixpoint effects {A} (body : A -> M unit) (l : list A) : State :=
  match l with
  | [] => start
  | x :: t => extend (snd (body x start)) (effects body t)
  end.

(** How a loop ends: either every item was processed, or the loop was left
    at the first item whose body returns from [app]. *)
Inductive LoopEnd {A} (body : A -> M unit) (l : list A) : Flow unit * State -> Prop :=
  | LoopDone :
      (forall x, In x l -> fst (body x start) = Next tt) ->
      LoopEnd body l (Next tt, effects body l)
  | LoopLeft l1 x l2 c :
      l = l1 ++ x :: l2 ->
      (forall y, In y l1 -> fst (body y start) = Next tt) ->
      fst (body x start) = Return c ->
      LoopEnd body l (Return c, extend (effects body l1) (snd (body x start))).

(** The texts printed, and the depot paths looked up, by [m] when it runs
    from [st]. *)
Definition printed {A} (m : M A) (st : State) : list string :=
  skipn (length (stdout st)) (stdout (snd (m st))).

Definition asked {A} (m : M A) (st : State) : list string :=
  skipn (length (fstatCalls st)) (fstatCalls (snd (m st))).

(** The pieces of the report that [app] looks at. *)
Definition p4textOf (p4outString : string) : list string :=
  filterStringsByType (SplitCRLF p4outString) "text:".

Definition p4infoOf (p4outString : string) : list string :=
  filterStringsByType (SplitCRLF p4outString) "info1:".

(** The first line of the output says that the changelist is unknown. *)
Definition notFound (p4outString : string) : bool :=
  Contains (nth 0 (SplitCRLF p4outString) "") "no such changelist".

(** Some header line after the first contains the bypass key-phrase. *)
Definition bypassed (cfg : tomlConfig) (p4outString : string) : bool :=
  existsb (fun line => Contains line (BypassKeyphrase cfg)) (skipn 1 (p4textOf p4outString)).

(** A file record that [reFileRecordUnpack] takes apart. *)
Definition wellFormed (item : string) : Prop := length (reFileRecordUnpack item) = 4%nat.

(** The state of a run that printed [text] and did nothing else. *)
Definition onlyPrinted (text : string) : State :=
  {| stdout := [text]; fstatCalls := []; allowCommitToContinue := true |}.


(** ** Sample configuration, oracles and reports *)

Definition sampleConfig : tomlConfig :=
  {| VerboseLogs := false;
     PerforceServer := "localhost:1666";
     PerforceUser := "p4unity";
     PerforcePass := "";
     BypassKeyphrase := "p4unity-bypass";
     PathWhitelist := ["//"] |}.

Definition noWhitelistConfig : tomlConfig :=
  {| VerboseLogs := false;
     PerforceServer := "localhost:1666";
     PerforceUser := "p4unity";
     PerforcePass := "";
     BypassKeyphrase := "p4unity-bypass";
     PathWhitelist := [] |}.

Definition emptyKeyphraseConfig : tomlConfig :=
  {| VerboseLogs := false;
     PerforceServer := "localhost:1666";
     PerforceUser := "p4unity";
     PerforcePass := "";
     BypassKeyphrase := "";
     PathWhitelist := ["//"] |}.

(** [p4 fstat] when no file is in the depot, when every file is there with
    head action [add], and when the server cannot be reached. *)
Definition fstatNoSuchFile (depotPath : string) : string * option string :=
  ("error: " +:+ depotPath +:+ " - no such file(s).", None).

Definition fstatHeadAdd (depotPath : string) : string * option string :=
  ("info1: depotFile " +:+ depotPath +:+ String CR (String LF "info1: headAction add"), None).

Definition fstatUnreachable (depotPath : string) : string * option string :=
  ("Connect to server failed; check $P4PORT.", Some "exit status 1").

(** The output of [p4 -s describe -s]: the given lines, each ended by CR LF. *)
Fixpoint describeOutput (lines : list string) : string :=
  match lines with
  | [] => ""
  | l :: rest => l +:+ String CR (String LF (describeOutput rest))
  end.

Definition header : list string :=
  ["text: Change 9148 by harry_denholm@harry_pc on 2020/01/01 11:11:11 *pending*";
   "text: "; "text:  Example changelist"; "text: "; "text: Affected files ..."; "text: "].

Definition headerWithBypass : list string :=
  ["text: Change 9148 by harry_denholm@harry_pc on 2020/01/01 11:11:11 *pending*";
   "text: "; "text:  Quick fix p4unity-bypass"; "text: "; "text: Affected files ..."; "text: "].

(** The paths of most sample reports hold ASCII bytes only, so that the runs
    on them never consult the Unicode tables: any mapping does for them. *)
Definition noUnicode (s : string) : string := s.

(** No-break space, and the letter e with an acute accent in upper and lower
    case, in UTF-8. *)
Definition nbsp : string := String "194" (String "160" "").
Definition upperEAcute : string := String "195" (String "137" "").
Definition lowerEAcute : string := String "195" (String "169" "").

(** [strings.Map(unicode.ToLower, s)] on the strings whose only runes
    beyond ASCII are these two letters. *)
Fixpoint mapToLowerEAcute (s : string) : string :=
  match s with
  | String "195" (String "137" t) => String "195" (String "169" (mapToLowerEAcute t))
  | String c t => String (lowerByte c) (mapToLowerEAcute t)
  | "" => ""
  end.

(** Go may walk a map in the reverse of the order another run met. *)
Definition reversed (s : stringSet) : list string := rev (elements s).

(** ** The rest of [main.go] and the configuration file's code *)

(** [func (s stringSet) remove(strvalue string)] *)
Definition remove (s : stringSet) (strvalue : string) : stringSet := s ∖ {[ strvalue ]}.

(** Every byte of [s] satisfies [p]. *)
Fixpoint allBytes (p : ascii -> bool) (s : string) : bool :=
  match s with
  | "" => true
  | String c t => p c && allBytes p t
  end.

Definition notHash (c : ascii) : bool := negb (Ascii.eqb c "#").
Definition notSeparator (c : ascii) : bool := negb (IsPathSeparator c).

(** [strings.Join(pieces, "\r\n")], the inverse of [strings.Split]. *)
Fixpoint JoinCRLF (pieces : list string) : string :=
  match pieces with
  | [] => ""
  | [piece] => piece
  | piece :: rest => piece +:+ String CR (String LF (JoinCRLF rest))
  end.

(** The four tests of the loop over the file records (main.go:297-328), on
    the path of a record: not under a directory whose name ends in a tilde,
    not a dot file, under a whitelisted prefix, under [/Assets/]. *)
Definition passesFilters (cfg : tomlConfig) (filePath : string) : bool :=
  let '(itemDirectory, itemFilename) := Split filePath in
  negb (Contains itemDirectory "~/")
  && negb (HasPrefix itemFilename ".")
  && existsb (fun whitelist => HasPrefix itemDirectory whitelist) (PathWhitelist cfg)
  && Contains itemDirectory "/Assets/".

(** The case-insensitive sets hold the lower-cased form of every path of the
    exact-case sets. *)
Definition mirrored (b : Buckets) : Prop :=
  (forall p, p ∈ filesBeingAdded b -> ToLower p ∈ filesBeingAddedIgnoringCase b)
  /\ (forall p, p ∈ filesBeingDeleted b -> ToLower p ∈ filesBeingDeletedIgnoringCase b).

(** The error of [strconv.ParseBool]:
    [&NumError{Func: "ParseBool", Num: str, Err: ErrSyntax}]. *)
Inductive NumError := syntaxError (fn str : string).

(** [strconv.ParseBool] *)
Definition ParseBool (str : string) : bool * option NumError :=
  if existsb (String.eqb str) ["1"; "t"; "T"; "TRUE"; "true"; "True"] then (true, None)
  else if existsb (String.eqb str) ["0"; "f"; "F"; "FALSE"; "false"; "False"] then (false, None)
  else (false, Some (syntaxError "ParseBool" str)).

(** One turn of the loop of [checkOverrides] on a field of kind [String]
    tagged [env:"envOverride"]: the field after the turn. *)
Definition overrideString (getenv : string -> string) (envOverride : string) (field : string)
  : string :=
  if String.eqb envOverride "" then field
  else
    let overrideFromEnv := getenv envOverride in
    if String.eqb overrideFromEnv "" then field else overrideFromEnv.

(** The same on a field of kind [Bool]: the field after the turn and the
    error returned, if any. *)
Definition overrideBool (getenv : string -> string) (envOverride : string) (field : bool)
  : bool * option NumError :=
  if String.eqb envOverride "" then (field, None)
  else
    let overrideFromEnv := getenv envOverride in
    if String.eqb overrideFromEnv "" then (field, None)
    else
      match ParseBool overrideFromEnv with
      | (bvalue, None) => (bvalue, None)
      | (_, Some err) => (field, Some err)
      end.

(** [checkOverrides(&AppConfig)]: the loop over the fields of [tomlConfig] in
    the order of their declaration, [getenv] being [os.Getenv].  The result
    is the structure as the call leaves it and the error it returns.
    [PathWhitelist] has no [env] tag and its kind is neither of the kinds of
    the [switch] nor [struct]: its turn does nothing.  The [Int32] and
    [Float64] cases and the recursion into fields of kind [struct] meet no
    field of [tomlConfig]. *)
Definition checkOverrides (getenv : string -> string) (configData : tomlConfig)
  : tomlConfig * option NumError :=
  match overrideBool getenv "P4U_VERBOSE" (VerboseLogs configData) with
  | (_, Some err) => (configData, Some err)
  | (verbose, None) =>
      ({| VerboseLogs := verbose;
          PerforceServer := overrideString getenv "P4U_SERVER" (PerforceServer configData);
          PerforceUser := overrideString getenv "P4U_USER" (PerforceUser configData);
          PerforcePass := overrideString getenv "P4U_PASS" (PerforcePass configData);
          BypassKeyphrase := overrideString getenv "P4U_BYPASS" (BypassKeyphrase configData);
          PathWhitelist := PathWhitelist configData |}, None)
  end.

(** How [LoadConfig] ends: with [AppConfig] set, or in one of its three
    [log.Panicf]. *)
Inductive Loaded :=
  | ConfigLoaded (AppConfig : tomlConfig)
  | PanicNotFound (err : string)
  | PanicDecodeFailure (err : string)
  | PanicOverrideFailure (err : NumError).

(** [LoadConfig].  [readFile] is [ioutil.ReadFile] on [p4unity.toml] and
    [decode] is [toml.Decode] onto the zero value of [AppConfig]; each gives
    its result or the text of its error. *)
Definition LoadConfig (readFile : string -> string + string)
    (decode : string -> tomlConfig + string) (getenv : string -> string) : Loaded :=
  match readFile "p4unity.toml" with
  | inr err => PanicNotFound err
  | inl cfgBytes =>
      match decode cfgBytes with
      | inr err => PanicDecodeFailure err
      | inl AppConfig =>
          match checkOverrides getenv AppConfig with
          | (_, Some err) => PanicOverrideFailure err
          | (AppConfig', None) => ConfigLoaded AppConfig'
          end
      end
  end.

(** An environment in which only [P4U_BYPASS] and [P4U_VERBOSE] are set. *)
Definition sampleEnv (name : string) : string :=
  if String.eqb name "P4U_BYPASS" then "skip-meta-check"
  else if String.eqb name "P4U_VERBOSE" then "TRUE"
  else "".

Definition noEnv (name : string) : string := "".

(** ** [app] from its first line, and [main] *)

Definition msgBlank : string := nl +:+ nl.
Definition msgUsage : string := "usage: p4unity <changelist>" +:+ nl +:+ nl.
Definition msgNotANumber (arg err : string) : string :=
  "[p4unity] changelist " +:+ arg +:+ " not a number (" +:+ err +:+ ")" +:+ nl +:+ nl.

(** [app()] from its first line (main.go:168-463).  [argsWithoutProg] is
    [os.Args[1:]], [Atoi] is [strconv.Atoi], giving the number or the text
    of its error, and [p4describe] is [CombinedOutput] of
    [p4 -s describe -s] on a changelist: the output and the error, if any. *)
Definition appFromArgs (AppConfig : tomlConfig)
    (p4fstat : string -> string * option string)
    (rangeOrder : stringSet -> list string)
    (Atoi : string -> Z + string)
    (p4describe : Z -> string * option string)
    (argsWithoutProg : list string) : M ExitCode :=
  Printf msgBlank ;;
  match argsWithoutProg with
  | [] => Printf msgUsage ;; exit p4ExitErrorUsage
  | arg0 :: _ =>
      match Atoi arg0 with
      | inr err => Printf (msgNotANumber arg0 err) ;; exit p4ExitErrorUsage
      | inl changelist =>
          match p4describe changelist with
          | (p4out, Some err) => Printf (msgLaunchFailed err p4out) ;; exit p4ExitErrorUsage
          | (p4out, None) => appBody AppConfig p4fstat rangeOrder changelist p4out
          end
      end
  end.

(** How the process ends: [os.Exit(exitCode)] after what [app] printed and
    asked, a panic of [LoadConfig], or the panic of [main] when the log
    cannot be opened. *)
Inductive Ended :=
  | Exited (exitCode : ExitCode) (st : State)
  | PanickedLoadingConfig (how : Loaded)
  | PanickedOpeningLog (err : string).

(** [main] (main.go:466-494).  The commands [p4 describe] and [p4 fstat]
    are launched with the server, user and password of [AppConfig];
    [VerboseLogger] is the error of the call of that name, if any. *)
Definition main (readFile : string -> string + string)
    (decode : string -> tomlConfig + string) (getenv : string -> string)
    (VerboseLogger : option string)
    (p4fstat : tomlConfig -> string -> string * option string)
    (rangeOrder : stringSet -> list string)
    (Atoi : string -> Z + string)
    (p4describe : tomlConfig -> Z -> string * option string)
    (argsWithoutProg : list string) : Ended :=
  match LoadConfig readFile decode getenv with
  | ConfigLoaded AppConfig =>
      let r := appFromArgs AppConfig (p4fstat AppConfig) rangeOrder Atoi
                 (p4describe AppConfig) argsWithoutProg start in
      if VerboseLogs AppConfig then
        match VerboseLogger with
        | Some err => PanickedOpeningLog err
        | None => Exited (exitCodeOf r) (snd r)
        end
      else Exited (exitCodeOf r) (snd r)
  | how => PanickedLoadingConfig how
  end.

(** ** Notions used to state the further properties *)

(** The text of a file record: [path#rev op]. *)
Definition recordText (path rev op : string) : string :=
  path +:+ "#" +:+ rev +:+ " " +:+ op.

Definition notDotOrSeparator (c : ascii) : bool :=
  negb (IsPathSeparator c || Ascii.eqb c ".").

Definition CRLF : string := String CR (String LF "").

(** [item] is a well-formed record of the path [p], its operation is in
    [ops], and [p] passes the four tests. *)
Definition recordOf (cfg : tomlConfig) (ops : stringSet) (item p : string) : Prop :=
  wellFormed item
  /\ nth 1 (reFileRecordUnpack item) "" = p
  /\ passesFilters cfg p = true
  /\ has ops (nth 3 (reFileRecordUnpack item) "") = true.

(** The sets after one well-formed record. *)
Definition classified (cfg : tomlConfig) (b : Buckets) (filePath vcsOperation : string)
  : Buckets :=
  if passesFilters cfg filePath then
    if has opsAdd vcsOperation then markForAdd b filePath
    else if has opsDel vcsOperation then markForDelete b filePath
    else b
  else b.

(** The spellings [strconv.ParseBool] accepts. *)
Definition boolSpellings : list string :=
  ["1"; "t"; "T"; "TRUE"; "true"; "True"; "0"; "f"; "F"; "FALSE"; "false"; "False"].

(** * Properties *)

(** ** The library functions on sample inputs *)

Example reFileRecordUnpack_ex :
  reFileRecordUnpack "//Depot/UnityProjects/Thing/Assets/Native/Binding.cs.meta#1 add"
  = ["//Depot/UnityProjects/Thing/Assets/Native/Binding.cs.meta#1 add";
     "//Depot/UnityProjects/Thing/Assets/Native/Binding.cs.meta"; "1"; "add"].
Proof. reflexivity. Qed.

Example reFileRecordUnpack_move : reFileRecordUnpack "//d/Assets/a b.png#12 move/add"
  = ["//d/Assets/a b.png#12 move/add"; "//d/Assets/a b.png"; "12"; "move/add"].
Proof. reflexivity. Qed.

(** The expression is not anchored on the left: the match is the leftmost
    one, and its path group starts after the last [#] before it. *)
Example reFileRecordUnpack_leftmost : reFileRecordUnpack "x#y //d/a.png#3 edit"
  = ["y //d/a.png#3 edit"; "y //d/a.png"; "3"; "edit"].
Proof. reflexivity. Qed.

Example reFindHeadActionOp_ex :
  reFindHeadActionOp "info1: headType text info1: headAction move/add info1: headRev 3"
  = ["headAction move/add"; "move/add"]
  /\ reFindHeadActionOp "error: //d/a.png - no such file(s)." = [].
Proof. split; reflexivity. Qed.

Example reFileRecordUnpack_bad : reFileRecordUnpack "//d/Assets/a.png add" = [].
Proof. reflexivity. Qed.

Example Ext_ex : Ext "//d/Assets/a.b/c.png.meta" = ".meta" /\ Ext "//d/a.b/c" = "" /\ Ext "x." = ".".
Proof. repeat split. Qed.

Example Split_ex : Split "//d/Assets/a.png" = ("//d/Assets/", "a.png") /\ Split "a.png" = ("", "a.png").
Proof. repeat split. Qed.

Example SplitCRLF_ex :
  SplitCRLF (String "a" (String CR (String LF (String CR (String CR (String LF "")))))) = ["a"; String CR ""; ""].
Proof. reflexivity. Qed.

Example TrimSpace_ex : TrimSpace "  a b  " = "a b" /\ TrimSpace "   " = "".
Proof. split; reflexivity. Qed.

(** No-break space (C2 A0), next line (C2 85) and ideographic space
    (E3 80 80) are trimmed; a lone continuation byte and a lone leading
    byte are not. *)
Example TrimSpace_unicode :
  TrimSpace (String "194" (String "160" "") +:+ "n" +:+ String "194" (String "160" "")) = "n"
  /\ TrimSpace (String "227" (String "128" (String "128" "")) +:+ " a b"
                +:+ String "194" (String "133" "") +:+ String "227" (String "128" (String "128" "")))
     = "a b"
  /\ TrimSpace (String "194" (String "160" "")) = ""
  /\ TrimSpace (String "160" " a ") = String "160" " a"
  /\ TrimSpace ("a" +:+ String "194" " ") = "a" +:+ String "194" "".
Proof. repeat split. Qed.

(** ** Strings *)

Lemma length_app (s t : string) :
  String.length (s +:+ t) = (String.length s + String.length t)%nat.
Proof. induction s as [|c s IH]; simpl; [reflexivity | f_equal; exact IH]. Qed.

Lemma app_cancel_r (t s1 s2 : string) : s1 +:+ t = s2 +:+ t -> s1 = s2.
Proof.
  revert s2. induction s1 as [|c s1 IH]; intros [|d s2] H.
  - reflexivity.
  - apply (f_equal String.length) in H. rewrite !length_app in H. simpl in H. lia.
  - apply (f_equal String.length) in H. rewrite !length_app in H. simpl in H. lia.
  - change (String c (s1 +:+ t) = String d (s2 +:+ t)) in H.
    injection H as -> H. f_equal. now apply IH.
Qed.

Lemma app_cancel_l (t s1 s2 : string) : t +:+ s1 = t +:+ s2 -> s1 = s2.
Proof. induction t as [|c t IH]; simpl; intros H; [exact H | injection H as H; auto]. Qed.

Lemma sliceTo_app (base t : string) :
  sliceTo (String.length (base +:+ t) - String.length t) (base +:+ t) = base.
Proof.
  rewrite length_app.
  replace (String.length base + String.length t - String.length t)%nat
    with (String.length base) by lia.
  induction base as [|c base IH]; simpl.
  - now destruct t.
  - now rewrite IH.
Qed.

Lemma HasPrefix_empty (s : string) : HasPrefix s "" = true.
Proof. now destruct s. Qed.

Lemma Contains_empty (s : string) : Contains s "" = true.
Proof. destruct s; simpl; now rewrite ?HasPrefix_empty. Qed.

Lemma scanRight_Some stop s b x a :
  scanRight stop s = Some (b, x, a) -> s = b +:+ String x a /\ stop x = true.
Proof.
  revert b. induction s as [|c s IH]; intros b H; simpl in H; [discriminate|].
  destruct (scanRight stop s) as [[[b' x'] a']|] eqn:E.
  - injection H as <- <- <-. destruct (IH b' eq_refl) as [-> Hx]. now split.
  - destruct (stop c) eqn:Hc; [|discriminate]. injection H as <- <- <-. now split.
Qed.

Lemma scanRight_app stop base t b x a :
  scanRight stop t = Some (b, x, a) ->
  scanRight stop (base +:+ t) = Some (base +:+ b, x, a).
Proof. intros H. induction base as [|c base IH]; simpl; [exact H | now rewrite IH]. Qed.

(** [filepath.Ext] answers [.meta] exactly on the paths that end in [.meta]. *)
Lemma Ext_meta_iff (p : string) : Ext p = ".meta" <-> endsIn p ".meta".
Proof.
  unfold Ext, endsIn. split.
  - destruct (scanRight _ p) as [[[b x] a]|] eqn:E; [|discriminate].
    apply scanRight_Some in E as [-> _].
    destruct (IsPathSeparator x); [discriminate|].
    intros H. injection H as -> ->. now exists b.
  - intros [base ->].
    rewrite (scanRight_app _ base ".meta" "" "." "meta"); reflexivity.
Qed.

Lemma Ext_not_meta (p : string) : ~ endsIn p ".meta" -> String.eqb (Ext p) ".meta" = false.
Proof. intros H. apply String.eqb_neq. now rewrite Ext_meta_iff. Qed.

Lemma Ext_is_meta (base : string) : String.eqb (Ext (base +:+ ".meta")) ".meta" = true.
Proof. apply String.eqb_eq, Ext_meta_iff. now exists base. Qed.

(** An extension, when there is one, starts with the dot: trimming white
    space cannot make it empty. *)
Lemma TrimSpace_Ext_empty (s : string) :
  (String.length (TrimSpace (Ext s)) =? 0)%nat = true <-> Ext s = "".
Proof.
  unfold Ext. destruct (scanRight _ s) as [[[b x] a]|] eqn:E; [|easy].
  apply scanRight_Some in E as [_ Hx].
  destruct (IsPathSeparator x) eqn:Hs; [easy|]. simpl in Hx.
  apply Ascii.eqb_eq in Hx as ->.
  split; [|discriminate]. intros H. exfalso.
  assert (Hfix : TrimLeft (String "." a) = String "." a)
    by (destruct a as [|c1 [|c2 t]]; reflexivity).
  unfold TrimSpace in H. rewrite Hfix in H. cbn [TrimRight] in H. cbv zeta in H.
  destruct (TrimRight a) as [|c1 [|c2 [|c3 r]]]; discriminate H.
Qed.

(** ** The printed texts

    The three violation texts differ from each other and from every other
    text within their first nine bytes, and each determines its path. *)

Lemma head_msgMissingMeta p : sliceTo 9 (msgMissingMeta p) = "Missing .".
Proof. reflexivity. Qed.
Lemma head_msgMissingAsset p : sliceTo 9 (msgMissingAsset p) = "Missing a".
Proof. reflexivity. Qed.
Lemma head_msgOrphanedMeta p : sliceTo 9 (msgOrphanedMeta p) = "Need to d".
Proof. reflexivity. Qed.
Lemma head_msgLaunchFailed e o : sliceTo 9 (msgLaunchFailed e o) = "[p4unity]".
Proof. reflexivity. Qed.
Lemma head_msgFstatFailed f e : sliceTo 9 (msgFstatFailed f e) = "[p4unity]".
Proof. reflexivity. Qed.
Lemma head_msgParseFailed i : sliceTo 9 (msgParseFailed i) = "[p4unity]".
Proof. reflexivity. Qed.

Lemma msgMissingMeta_inj p q : msgMissingMeta p = msgMissingMeta q -> p = q.
Proof. intros H. apply app_cancel_l in H. now apply app_cancel_r in H. Qed.
Lemma msgMissingAsset_inj p q : msgMissingAsset p = msgMissingAsset q -> p = q.
Proof. intros H. apply app_cancel_l in H. now apply app_cancel_r in H. Qed.
Lemma msgOrphanedMeta_inj p q : msgOrphanedMeta p = msgOrphanedMeta q -> p = q.
Proof. intros H. apply app_cancel_l in H. now apply app_cancel_r in H. Qed.

(** Two texts with different heads are different. *)
Ltac by_head H :=
  apply (f_equal (sliceTo 9)) in H;
  rewrite ?head_msgMissingMeta, ?head_msgMissingAsset, ?head_msgOrphanedMeta,
    ?head_msgLaunchFailed, ?head_msgFstatFailed, ?head_msgParseFailed in H;
  discriminate H.

(** ** Effects compose

    Inside the two passes a step never reads the state: it only appends to
    [stdout] and [fstatCalls] and may clear [allowCommitToContinue].  What a
    step does from any state is therefore what it does from [start], added
    to that state. *)

Lemma extend_start_r st : extend st start = st.
Proof. destruct st; unfold extend; simpl. now rewrite !app_nil_r, andb_true_r. Qed.

Lemma extend_start_l e : extend start e = e.
Proof. now destruct e. Qed.

Lemma extend_assoc a b c : extend (extend a b) c = extend a (extend b c).
Proof. unfold extend; simpl. now rewrite <- !app_assoc, andb_assoc. Qed.

Lemma framed_ret {A} (a : A) : framed (ret a).
Proof. intros st. unfold ret; simpl. now rewrite extend_start_r. Qed.

Lemma framed_exit {A} c : framed (@exit A c).
Proof. intros st. unfold exit; simpl. now rewrite extend_start_r. Qed.

Lemma framed_Printf text : framed (Printf text).
Proof. intros [o c a]. unfold Printf, extend; simpl. now rewrite app_nil_r, andb_true_r. Qed.

Lemma framed_launchedFstat p : framed (launchedFstat p).
Proof. intros [o c a]. unfold launchedFstat, extend; simpl. now rewrite app_nil_r, andb_true_r. Qed.

Lemma framed_clearAllow : framed (setAllowCommitToContinue false).
Proof. intros [o c a]. unfold setAllowCommitToContinue, extend; simpl. now rewrite !app_nil_r, andb_false_r. Qed.

Lemma framed_bind {A B} (m : M A) (f : A -> M B) :
  framed m -> (forall a, framed (f a)) -> framed (bind m f).
Proof.
  intros Hm Hf st. unfold bind. rewrite (Hm st).
  destruct (m start) as [[a|c] e]; simpl.
  - rewrite (Hf a (extend st e)), (Hf a e). simpl. now rewrite extend_assoc.
  - reflexivity.
Qed.

Lemma framed_forEach {A} (l : list A) (body : A -> M unit) :
  (forall x, framed (body x)) -> framed (forEach l body).
Proof.
  intros Hb. induction l as [|x l IH]; simpl.
  - apply framed_ret.
  - apply framed_bind; auto.
Qed.

Create HintDb framed.
#[local] Hint Resolve framed_ret framed_exit framed_Printf framed_launchedFstat
  framed_clearAllow : framed.

Lemma stdout_effects {A} (body : A -> M unit) l :
  stdout (effects body l) = flat_map (fun x => stdout (snd (body x start))) l.
Proof. induction l as [|x l IH]; simpl; [reflexivity | now rewrite IH]. Qed.

Lemma fstatCalls_effects {A} (body : A -> M unit) l :
  fstatCalls (effects body l) = flat_map (fun x => fstatCalls (snd (body x start))) l.
Proof. induction l as [|x l IH]; simpl; [reflexivity | now rewrite IH]. Qed.

Lemma allow_effects {A} (body : A -> M unit) l :
  allowCommitToContinue (effects body l)
  = forallb (fun x => allowCommitToContinue (snd (body x start))) l.
Proof. induction l as [|x l IH]; simpl; [reflexivity | now rewrite IH]. Qed.

Lemma forEach_start {A} (body : A -> M unit) (l : list A) :
  (forall x, framed (body x)) -> LoopEnd body l (forEach l body start).
Proof.
  intros Hb. induction l as [|x l IH]; simpl.
  - apply LoopDone. intros ? [].
  - unfold bind. destruct (body x start) as [[[]|c] e] eqn:Ex.
    + rewrite (framed_forEach l body Hb e).
      inversion IH as [Hall Heq | l1 y l2 c Hl Hall Hy Heq].
      * simpl. replace (extend e (effects body l)) with (effects body (x :: l))
          by (simpl; now rewrite Ex).
        apply LoopDone. intros z [<-|Hz]; [now rewrite Ex | auto].
      * simpl. rewrite <- extend_assoc.
        replace (extend e (effects body l1)) with (effects body (x :: l1))
          by (simpl; now rewrite Ex).
        apply (LoopLeft body (x :: l) (x :: l1) y l2 c); [now rewrite Hl | | exact Hy].
        intros z [<-|Hz]; [now rewrite Ex | auto].
    + replace e with (extend (effects body []) (snd (body x start)))
        by (rewrite Ex; simpl; apply extend_start_l).
      apply (LoopLeft body (x :: l) [] x l c); [reflexivity | intros ? [] | now rewrite Ex].
Qed.

(** ** One item of a pass *)

Section Checks.

Variable p4fstat : string -> string * option string.

Lemma framed_fileExistsInDepot p : framed (fileExistsInDepot p4fstat p).
Proof.
  unfold fileExistsInDepot. apply framed_bind; [auto with framed|]. intros _.
  destruct (p4fstat p) as [out [e|]].
  - apply framed_bind; auto with framed.
  - repeat match goal with |- framed (if ?c then _ else _) => destruct c end;
      auto with framed.
Qed.

Lemma fileExistsInDepot_start p :
  fileExistsInDepot p4fstat p start
  = (Next (fstatAnswer p4fstat p),
     {| stdout := match snd (fstatAnswer p4fstat p) with
                  | Some e => [msgLaunchFailed e (fst (p4fstat p))]
                  | None => []
                  end;
        fstatCalls := [p];
        allowCommitToContinue := true |}).
Proof.
  unfold fstatAnswer, fileExistsInDepot, bind, launchedFstat, start; simpl.
  destruct (p4fstat p) as [out [e|]]; simpl; [reflexivity|].
  repeat match goal with |- context [if ?c then _ else _] => destruct c end; reflexivity.
Qed.

Ltac run_lookup p :=
  unfold bind; rewrite (fileExistsInDepot_start p); unfold depotLookup;
  destruct (fstatAnswer p4fstat p) as [[|] [e|]]; reflexivity.

Lemma checkAdded_asset b p :
  ~ endsIn p ".meta" ->
  checkAdded p4fstat b p start =
    if has (filesBeingAdded b) (p +:+ ".meta")
       || has (filesBeingAddedIgnoringCase b) (ToLower (p +:+ ".meta"))
    then (Next tt, start)
    else depotLookup p4fstat (p +:+ ".meta") (p +:+ ".meta") (msgMissingMeta p) false.
Proof.
  intros Hp. unfold checkAdded. rewrite (Ext_not_meta p Hp). cbn [negb].
  destruct (has (filesBeingAdded b) _); [reflexivity|].
  destruct (has (filesBeingAddedIgnoringCase b) _); [reflexivity|]. cbn [orb].
  run_lookup (p +:+ ".meta").
Qed.

Lemma checkAdded_meta b base :
  checkAdded p4fstat b (base +:+ ".meta") start =
    if String.eqb (Ext base) "" then (Next tt, start)
    else if has (filesBeingAdded b) base
            || has (filesBeingAddedIgnoringCase b) (ToLower base)
    then (Next tt, start)
    else depotLookup p4fstat base base (msgMissingAsset (base +:+ ".meta")) false.
Proof.
  unfold checkAdded. rewrite (Ext_is_meta base). cbn [negb].
  rewrite (sliceTo_app base ".meta").
  destruct (String.eqb (Ext base) "") eqn:E.
  - apply String.eqb_eq in E. apply TrimSpace_Ext_empty in E. now rewrite E.
  - destruct (String.length (TrimSpace (Ext base)) =? 0)%nat eqn:E'.
    + apply TrimSpace_Ext_empty in E'. apply String.eqb_neq in E. contradiction.
    + destruct (has (filesBeingAdded b) _); [reflexivity|].
      destruct (has (filesBeingAddedIgnoringCase b) _); [reflexivity|]. cbn [orb].
      run_lookup base.
Qed.

Lemma checkDeleted_asset b p :
  ~ endsIn p ".meta" ->
  checkDeleted p4fstat b p start =
    if has (filesBeingDeleted b) (p +:+ ".meta")
       || has (filesBeingDeletedIgnoringCase b) (ToLower (p +:+ ".meta"))
    then (Next tt, start)
    else depotLookup p4fstat (p +:+ ".meta") p (msgOrphanedMeta p) true.
Proof.
  intros Hp. unfold checkDeleted. rewrite (Ext_not_meta p Hp). cbn [negb].
  destruct (has (filesBeingDeleted b) _); [reflexivity|].
  destruct (has (filesBeingDeletedIgnoringCase b) _); [reflexivity|]. cbn [orb].
  run_lookup (p +:+ ".meta").
Qed.

Lemma checkDeleted_meta b base st :
  checkDeleted p4fstat b (base +:+ ".meta") st = (Next tt, st).
Proof. unfold checkDeleted. now rewrite (Ext_is_meta base). Qed.

Ltac framed_step :=
  match goal with
  | |- framed (bind _ _) => apply framed_bind; [|intros]
  | |- framed (fileExistsInDepot _ _) => apply framed_fileExistsInDepot
  | |- framed (if ?c then _ else _) => destruct c
  | |- framed (match ?x with Some _ => _ | None => _ end) => destruct x
  | |- framed (let '(_, _) := ?x in _) => destruct x
  | |- framed _ => solve [auto with framed]
  end.

Lemma framed_checkAdded b x : framed (checkAdded p4fstat b x).
Proof. unfold checkAdded. repeat framed_step. Qed.

Lemma framed_checkDeleted b x : framed (checkDeleted p4fstat b x).
Proof. unfold checkDeleted. repeat framed_step. Qed.

End Checks.

(** ** What a computation prints and asks *)

Lemma skipn_length_app {A} (l k : list A) : skipn (length l) (l ++ k) = k.
Proof. induction l as [|x l IH]; simpl; [reflexivity | exact IH]. Qed.

Lemma printed_framed {A} (m : M A) st : framed m -> printed m st = stdout (snd (m start)).
Proof. intros H. unfold printed. rewrite (H st). simpl. apply skipn_length_app. Qed.

Lemma asked_framed {A} (m : M A) st : framed m -> asked m st = fstatCalls (snd (m start)).
Proof. intros H. unfold asked. rewrite (H st). simpl. apply skipn_length_app. Qed.

Lemma has_true (s : stringSet) x : has s x = true <-> x ∈ s.
Proof. unfold has. apply bool_decide_eq_true. Qed.

Lemma has_false (s : stringSet) x : has s x = false <-> x ∉ s.
Proof. unfold has. apply bool_decide_eq_false. Qed.

Lemma has_either_false (s t : stringSet) x y :
  (has s x || has t y) = false <-> (x ∉ s) /\ (y ∉ t).
Proof. rewrite orb_false_iff, !has_false. reflexivity. Qed.

Section Passes.

Variable p4fstat : string -> string * option string.
Variable rangeOrder : stringSet -> list string.

(** [range] visits every element of the map, once. *)
Hypothesis rangeOrder_lists : forall s, Permutation (rangeOrder s) (elements s).

Lemma In_rangeOrder s x : In x (rangeOrder s) <-> x ∈ s.
Proof.
  split; intros H.
  - apply elem_of_elements, list_elem_of_In.
    eapply Permutation_in; [apply rangeOrder_lists | exact H].
  - apply elem_of_elements, list_elem_of_In in H.
    eapply Permutation_in; [symmetry; apply rangeOrder_lists | exact H].
Qed.

(** *** The depot lookup *)

Lemma depotLookup_prints path reported violation bad text :
  In text (stdout (snd (depotLookup p4fstat path reported violation bad))) ->
  (text = violation /\ fstatAnswer p4fstat path = (bad, None))
  \/ sliceTo 9 text = "[p4unity]".
Proof.
  unfold depotLookup. destruct (fstatAnswer p4fstat path) as [found [e|]]; simpl.
  - intros [<-|[<-|[]]]; right; reflexivity.
  - destruct (Bool.eqb found bad) eqn:E; simpl; [|intros []].
    apply eqb_prop in E as ->. intros [<-|[]]. now left.
Qed.

Lemma depotLookup_violation path reported violation bad :
  sliceTo 9 violation <> "[p4unity]" ->
  In violation (stdout (snd (depotLookup p4fstat path reported violation bad)))
  <-> fstatAnswer p4fstat path = (bad, None).
Proof.
  intros Hv. split.
  - intros H. apply depotLookup_prints in H as [[_ H]|H]; [exact H | contradiction].
  - intros H. unfold depotLookup. rewrite H, eqb_reflx. now left.
Qed.

Lemma depotLookup_asks path reported violation bad :
  fstatCalls (snd (depotLookup p4fstat path reported violation bad)) = [path].
Proof.
  unfold depotLookup. destruct (fstatAnswer p4fstat path) as [found [e|]]; [reflexivity|].
  now destruct (Bool.eqb found bad).
Qed.

Lemma depotLookup_Next path reported violation bad :
  fst (depotLookup p4fstat path reported violation bad) = Next tt
  <-> snd (fstatAnswer p4fstat path) = None.
Proof.
  unfold depotLookup. destruct (fstatAnswer p4fstat path) as [found [e|]]; simpl.
  - split; discriminate.
  - now destruct (Bool.eqb found bad).
Qed.

Lemma depotLookup_Return path reported violation bad c :
  fst (depotLookup p4fstat path reported violation bad) = Return c ->
  c = p4ExitErrorException /\
  exists e, snd (fstatAnswer p4fstat path) = Some e /\
    snd (depotLookup p4fstat path reported violation bad)
    = {| stdout := [msgLaunchFailed e (fst (p4fstat path)); msgFstatFailed reported e];
         fstatCalls := [path];
         allowCommitToContinue := true |}.
Proof.
  unfold depotLookup. destruct (fstatAnswer p4fstat path) as [found [e|]]; simpl.
  - intros H. injection H as <-. split; [reflexivity|]. now exists e.
  - now destruct (Bool.eqb found bad).
Qed.

Lemma depotLookup_allow path reported violation bad :
  allowCommitToContinue (snd (depotLookup p4fstat path reported violation bad)) = false
  <-> fstatAnswer p4fstat path = (bad, None).
Proof.
  unfold depotLookup. destruct (fstatAnswer p4fstat path) as [found [e|]]; simpl.
  - split; discriminate.
  - destruct (Bool.eqb found bad) eqn:E; simpl.
    + apply eqb_prop in E as ->. now split.
    + apply eqb_false_iff in E. split; [discriminate|]. intros H. injection H as H. contradiction.
Qed.

(** *** The shapes of one item *)

Lemma endsIn_dec p : {base | p = base +:+ ".meta"} + {~ endsIn p ".meta"}.
Proof.
  destruct (String.eqb (Ext p) ".meta") eqn:E.
  - left. exists (sliceTo (String.length p - String.length ".meta") p).
    apply String.eqb_eq, Ext_meta_iff in E. destruct E as [base ->].
    now rewrite sliceTo_app.
  - right. apply String.eqb_neq in E. now rewrite <- Ext_meta_iff.
Qed.

Lemma checkAdded_shape b x : ItemShape p4fstat (checkAdded p4fstat b x start).
Proof.
  destruct (endsIn_dec x) as [[base ->]|Hx].
  - rewrite checkAdded_meta.
    destruct (String.eqb (Ext base) ""); [constructor|].
    destruct (_ || _); constructor. exists (base +:+ ".meta"). auto.
  - rewrite checkAdded_asset by assumption.
    destruct (_ || _); constructor. exists x. auto.
Qed.

Lemma checkDeleted_shape b x : ItemShape p4fstat (checkDeleted p4fstat b x start).
Proof.
  destruct (endsIn_dec x) as [[base ->]|Hx].
  - rewrite checkDeleted_meta. constructor.
  - rewrite checkDeleted_asset by assumption.
    destruct (_ || _); constructor. exists x. auto.
Qed.

Lemma isViolation_head text : isViolation text -> sliceTo 9 text <> "[p4unity]".
Proof. intros [p [-> | [-> | ->]]]; discriminate. Qed.

(** An item that goes on asked only paths the oracle answered. *)
Lemma shape_Next r :
  ItemShape p4fstat r -> fst r = Next tt ->
  forall path, In path (fstatCalls (snd r)) -> snd (fstatAnswer p4fstat path) = None.
Proof.
  intros [|path reported violation bad _] Hn q Hq; [destruct Hq|].
  rewrite depotLookup_asks in Hq. destruct Hq as [<-|[]]. now apply depotLookup_Next in Hn.
Qed.

(** An item that leaves [app] does so on a failed lookup, with
    [p4ExitErrorException], having printed the failure last. *)
Lemma shape_Return r c :
  ItemShape p4fstat r -> fst r = Return c ->
  c = p4ExitErrorException /\
  exists path reported e, snd (fstatAnswer p4fstat path) = Some e /\
    snd r = {| stdout := [msgLaunchFailed e (fst (p4fstat path)); msgFstatFailed reported e];
               fstatCalls := [path];
               allowCommitToContinue := true |}.
Proof.
  intros [|path reported violation bad _] Hr; [discriminate|].
  apply depotLookup_Return in Hr as [-> [e [He Hs]]]. split; [reflexivity|].
  now exists path, reported, e.
Qed.

(** The flag is cleared exactly when a violation text is printed. *)
Lemma shape_allow r :
  ItemShape p4fstat r ->
  allowCommitToContinue (snd r) = false <-> exists text, In text (stdout (snd r)) /\ isViolation text.
Proof.
  intros [|path reported violation bad Hv].
  - simpl. split; [discriminate | intros [? [[] _]]].
  - rewrite depotLookup_allow. split.
    + intros H. exists violation. split; [|exact Hv].
      apply depotLookup_violation; [now apply isViolation_head | exact H].
    + intros [text [Hin Ht]]. apply depotLookup_prints in Hin as [[_ H]|H]; [exact H|].
      now apply isViolation_head in Ht.
Qed.

(** *** From one item to the whole loop *)

Lemma LoopEnd_prints {A} (body : A -> M unit) l r text :
  LoopEnd body l r -> In text (stdout (snd r)) ->
  exists x, In x l /\ In text (stdout (snd (body x start))).
Proof.
  intros [Hall | l1 x l2 c -> Hall Hx]; simpl.
  - rewrite stdout_effects, in_flat_map. auto.
  - rewrite stdout_effects, in_app_iff, in_flat_map. intros [[y [Hy Ht]]|Ht].
    + exists y. split; [apply in_or_app; now left | exact Ht].
    + exists x. split; [apply in_or_app; right; now left | exact Ht].
Qed.

Lemma LoopEnd_asks {A} (body : A -> M unit) l r path :
  LoopEnd body l r -> In path (fstatCalls (snd r)) ->
  exists x, In x l /\ In path (fstatCalls (snd (body x start))).
Proof.
  intros [Hall | l1 x l2 c -> Hall Hx]; simpl.
  - rewrite fstatCalls_effects, in_flat_map. auto.
  - rewrite fstatCalls_effects, in_app_iff, in_flat_map. intros [[y [Hy Ht]]|Ht].
    + exists y. split; [apply in_or_app; now left | exact Ht].
    + exists x. split; [apply in_or_app; right; now left | exact Ht].
Qed.

Lemma LoopEnd_done_prints {A} (body : A -> M unit) l r text x :
  LoopEnd body l r -> fst r = Next tt ->
  In x l -> In text (stdout (snd (body x start))) -> In text (stdout (snd r)).
Proof.
  intros [Hall | l1 y l2 c -> Hall Hy]; simpl; [|discriminate].
  intros _ Hx Ht. rewrite stdout_effects, in_flat_map. eauto.
Qed.

Lemma addPass_end b st :
  exists r, LoopEnd (checkAdded p4fstat b) (rangeOrder (filesBeingAdded b)) r
    /\ addPass p4fstat rangeOrder b st = (fst r, extend st (snd r))
    /\ printed (addPass p4fstat rangeOrder b) st = stdout (snd r)
    /\ asked (addPass p4fstat rangeOrder b) st = fstatCalls (snd r).
Proof.
  assert (Hf : framed (addPass p4fstat rangeOrder b))
    by (apply framed_forEach, framed_checkAdded).
  exists (addPass p4fstat rangeOrder b start). repeat split.
  - apply forEach_start, framed_checkAdded.
  - apply Hf.
  - now apply printed_framed.
  - now apply asked_framed.
Qed.

Lemma deletePass_end b st :
  exists r, LoopEnd (checkDeleted p4fstat b) (rangeOrder (filesBeingDeleted b)) r
    /\ deletePass p4fstat rangeOrder b st = (fst r, extend st (snd r))
    /\ printed (deletePass p4fstat rangeOrder b) st = stdout (snd r)
    /\ asked (deletePass p4fstat rangeOrder b) st = fstatCalls (snd r).
Proof.
  assert (Hf : framed (deletePass p4fstat rangeOrder b))
    by (apply framed_forEach, framed_checkDeleted).
  exists (deletePass p4fstat rangeOrder b start). repeat split.
  - apply forEach_start, framed_checkDeleted.
  - apply Hf.
  - now apply printed_framed.
  - now apply asked_framed.
Qed.

(** *** Who prints which violation, who asks for which path *)

Lemma checkAdded_missingMeta b x p :
  In (msgMissingMeta p) (stdout (snd (checkAdded p4fstat b x start))) ->
  x = p /\ ~ endsIn p ".meta"
  /\ ((p +:+ ".meta") ∉ filesBeingAdded b)
  /\ (ToLower (p +:+ ".meta") ∉ filesBeingAddedIgnoringCase b)
  /\ oracleAbsent p4fstat (p +:+ ".meta").
Proof.
  destruct (endsIn_dec x) as [[base ->]|Hx].
  - rewrite checkAdded_meta.
    destruct (String.eqb (Ext base) ""); [intros []|].
    destruct (_ || _); [intros []|].
    intros H. apply depotLookup_prints in H as [[H _]|H]; by_head H.
  - rewrite checkAdded_asset by assumption.
    destruct (_ || _) eqn:E; [intros []|].
    apply has_either_false in E as [E1 E2].
    intros H. apply depotLookup_prints in H as [[H Ha]|H]; [|by_head H].
    apply msgMissingMeta_inj in H as ->. auto.
Qed.

Lemma checkAdded_missingAsset b x p :
  In (msgMissingAsset p) (stdout (snd (checkAdded p4fstat b x start))) ->
  x = p /\ exists base, p = base +:+ ".meta" /\ Ext base <> ""
  /\ (base ∉ filesBeingAdded b)
  /\ (ToLower base ∉ filesBeingAddedIgnoringCase b)
  /\ oracleAbsent p4fstat base.
Proof.
  destruct (endsIn_dec x) as [[base ->]|Hx].
  - rewrite checkAdded_meta.
    destruct (String.eqb (Ext base) "") eqn:Ee; [intros []|].
    apply String.eqb_neq in Ee.
    destruct (_ || _) eqn:E; [intros []|].
    apply has_either_false in E as [E1 E2].
    intros H. apply depotLookup_prints in H as [[H Ha]|H]; [|by_head H].
    apply msgMissingAsset_inj in H as ->. split; [reflexivity|]. exists base. auto.
  - rewrite checkAdded_asset by assumption.
    destruct (_ || _); [intros []|].
    intros H. apply depotLookup_prints in H as [[H _]|H]; by_head H.
Qed.

Lemma checkAdded_asks b x path :
  In path (fstatCalls (snd (checkAdded p4fstat b x start))) ->
  (~ endsIn x ".meta" /\ path = x +:+ ".meta" /\ (path ∉ filesBeingAdded b))
  \/ (x = path +:+ ".meta" /\ Ext path <> "" /\ (path ∉ filesBeingAdded b)).
Proof.
  destruct (endsIn_dec x) as [[base ->]|Hx].
  - rewrite checkAdded_meta.
    destruct (String.eqb (Ext base) "") eqn:Ee; [intros []|].
    apply String.eqb_neq in Ee.
    destruct (_ || _) eqn:E; [intros []|].
    apply has_either_false in E as [E1 E2].
    rewrite depotLookup_asks. intros [<-|[]]. right. auto.
  - rewrite checkAdded_asset by assumption.
    destruct (_ || _) eqn:E; [intros []|].
    apply has_either_false in E as [E1 E2].
    rewrite depotLookup_asks. intros [<-|[]]. left. auto.
Qed.

Lemma checkDeleted_orphanedMeta b x p :
  In (msgOrphanedMeta p) (stdout (snd (checkDeleted p4fstat b x start))) ->
  x = p /\ ~ endsIn p ".meta"
  /\ ((p +:+ ".meta") ∉ filesBeingDeleted b)
  /\ (ToLower (p +:+ ".meta") ∉ filesBeingDeletedIgnoringCase b)
  /\ oraclePresent p4fstat (p +:+ ".meta").
Proof.
  destruct (endsIn_dec x) as [[base ->]|Hx].
  - rewrite checkDeleted_meta. intros [].
  - rewrite checkDeleted_asset by assumption.
    destruct (_ || _) eqn:E; [intros []|].
    apply has_either_false in E as [E1 E2].
    intros H. apply depotLookup_prints in H as [[H Ha]|H]; [|by_head H].
    apply msgOrphanedMeta_inj in H as ->. auto.
Qed.

Lemma checkDeleted_asks b x path :
  In path (fstatCalls (snd (checkDeleted p4fstat b x start))) ->
  ~ endsIn x ".meta" /\ path = x +:+ ".meta" /\ (path ∉ filesBeingDeleted b).
Proof.
  destruct (endsIn_dec x) as [[base ->]|Hx].
  - rewrite checkDeleted_meta. intros [].
  - rewrite checkDeleted_asset by assumption.
    destruct (_ || _) eqn:E; [intros []|].
    apply has_either_false in E as [E1 E2].
    rewrite depotLookup_asks. intros [<-|[]]. auto.
Qed.

Lemma forEach_silent {A} (body : A -> M unit) l st :
  (forall x, In x l -> forall st', body x st' = (Next tt, st')) ->
  forEach l body st = (Next tt, st).
Proof.
  revert st. induction l as [|x l IH]; intros st H; simpl; [reflexivity|].
  unfold bind. rewrite (H x) by now left. apply IH. intros y Hy. apply H. now right.
Qed.

Lemma silent_anywhere {A} (m : M A) a st :
  framed m -> m start = (Next a, start) -> m st = (Next a, st).
Proof. intros Hf H. rewrite (Hf st), H. simpl. now rewrite extend_start_r. Qed.

(** *** The claims about the two passes *)

(** C2. Add-pass, pairing completeness.  For a path [p] of the added set
    that does not end in [.meta]: the step of the add-pass for [p] prints
    the missing-metadata violation for [p] if and only if [p.meta] is not
    in the exact-case added set, its lower-cased form is not in the
    case-insensitive added set, and the oracle reports [p.meta] absent;
    the texts printed by the whole pass, in any iteration order, contain
    that violation only under these three conditions, and under exactly
    these when the pass runs to its end.  Adding [Foo.PNG] and
    [foo.png.meta] together is a satisfied pairing: the pass prints
    nothing, asks nothing and goes on. *)
Theorem add_pass_pairing_complete :
  (forall (b : Buckets) (p : string) (st : State),
      p ∈ filesBeingAdded b -> ~ endsIn p ".meta" ->
      let unpaired :=
        ((p +:+ ".meta") ∉ filesBeingAdded b)
        /\ (ToLower (p +:+ ".meta") ∉ filesBeingAddedIgnoringCase b)
        /\ oracleAbsent p4fstat (p +:+ ".meta") in
      (In (msgMissingMeta p) (printed (checkAdded p4fstat b p) st) <-> unpaired)
      /\ (In (msgMissingMeta p) (printed (addPass p4fstat rangeOrder b) st) -> unpaired)
      /\ (fst (addPass p4fstat rangeOrder b st) = Next tt ->
          (In (msgMissingMeta p) (printed (addPass p4fstat rangeOrder b) st) <-> unpaired)))
  /\ (forall st : State,
        let b := markForAdd (markForAdd noFiles "//depot/Assets/Foo.PNG")
                   "//depot/Assets/foo.png.meta" in
        addPass p4fstat rangeOrder b st = (Next tt, st)).
Proof.
  split.
  - intros b p st Hp Hnm unpaired.
    assert (Hbody : In (msgMissingMeta p) (stdout (snd (checkAdded p4fstat b p start)))
                    <-> unpaired).
    { split.
      - intros H. apply checkAdded_missingMeta in H as (_ & _ & H). exact H.
      - intros (H1 & H2 & H3). rewrite checkAdded_asset by assumption.
        replace (_ || _) with false by (symmetry; now apply has_either_false).
        apply depotLookup_violation; [discriminate | exact H3]. }
    destruct (addPass_end b st) as (r & Hend & Hrun & Hpr & _).
    rewrite (printed_framed _ st (framed_checkAdded p4fstat b p)), Hpr.
    assert (Hsound : In (msgMissingMeta p) (stdout (snd r)) -> unpaired).
    { intros H. destruct (LoopEnd_prints _ _ _ _ Hend H) as (x & _ & Hx).
      apply checkAdded_missingMeta in Hx as (_ & _ & Hx). exact Hx. }
    split; [exact Hbody | split; [exact Hsound|]].
    intros Hn. split; [exact Hsound|]. intros Hu. rewrite Hrun in Hn. simpl in Hn.
    apply (LoopEnd_done_prints _ _ _ _ p Hend Hn); [now apply In_rangeOrder | now apply Hbody].
  - intros st b. unfold addPass. apply forEach_silent. intros x Hx st'.
    apply In_rangeOrder in Hx.
    assert (Hcases : x = "//depot/Assets/foo.png.meta" \/ x = "//depot/Assets/Foo.PNG").
    { unfold b, markForAdd, add in Hx. simpl in Hx.
      apply elem_of_union in Hx as [Hx|Hx]; [left; now apply elem_of_singleton in Hx|].
      apply elem_of_union in Hx as [Hx|Hx]; [right; now apply elem_of_singleton in Hx|].
      now apply not_elem_of_empty in Hx. }
    apply silent_anywhere; [apply framed_checkAdded|].
    destruct Hcases as [-> | ->].
    + change "//depot/Assets/foo.png.meta" with ("//depot/Assets/foo.png" +:+ ".meta").
      rewrite checkAdded_meta. now vm_compute.
    + rewrite checkAdded_asset
        by (intros H; apply Ext_meta_iff in H; vm_compute in H; discriminate H).
      now vm_compute.
Qed.

(** C3. Delete-pass, orphaned metadata.  For a path [p] of the deleted set
    that does not end in [.meta]: the step for [p] prints the
    orphaned-metadata violation for [p] if and only if [p.meta] is neither
    in the exact-case deleted set nor, lower-cased, in the case-insensitive
    one, and the oracle reports [p.meta] as existing; the whole pass, in
    any iteration order, prints it only under these conditions, and under
    exactly these when the pass runs to its end.  When the oracle reports
    [p.meta] absent, no violation is printed for [p]. *)
Theorem delete_pass_orphaned_meta (b : Buckets) (p : string) (st : State) :
  p ∈ filesBeingDeleted b -> ~ endsIn p ".meta" ->
  let orphaned :=
    ((p +:+ ".meta") ∉ filesBeingDeleted b)
    /\ (ToLower (p +:+ ".meta") ∉ filesBeingDeletedIgnoringCase b)
    /\ oraclePresent p4fstat (p +:+ ".meta") in
  (In (msgOrphanedMeta p) (printed (checkDeleted p4fstat b p) st) <-> orphaned)
  /\ (In (msgOrphanedMeta p) (printed (deletePass p4fstat rangeOrder b) st) -> orphaned)
  /\ (fst (deletePass p4fstat rangeOrder b st) = Next tt ->
      (In (msgOrphanedMeta p) (printed (deletePass p4fstat rangeOrder b) st) <-> orphaned))
  /\ (oracleAbsent p4fstat (p +:+ ".meta") ->
      ~ In (msgOrphanedMeta p) (printed (deletePass p4fstat rangeOrder b) st)).
Proof.
  intros Hp Hnm orphaned.
  assert (Hbody : In (msgOrphanedMeta p) (stdout (snd (checkDeleted p4fstat b p start)))
                  <-> orphaned).
  { split.
    - intros H. apply checkDeleted_orphanedMeta in H as (_ & _ & H). exact H.
    - intros (H1 & H2 & H3). rewrite checkDeleted_asset by assumption.
      replace (_ || _) with false by (symmetry; now apply has_either_false).
      apply depotLookup_violation; [discriminate | exact H3]. }
  destruct (deletePass_end b st) as (r & Hend & Hrun & Hpr & _).
  rewrite (printed_framed _ st (framed_checkDeleted p4fstat b p)), Hpr.
  assert (Hsound : In (msgOrphanedMeta p) (stdout (snd r)) -> orphaned).
  { intros H. destruct (LoopEnd_prints _ _ _ _ Hend H) as (x & _ & Hx).
    apply checkDeleted_orphanedMeta in Hx as (_ & _ & Hx). exact Hx. }
  split; [exact Hbody | split; [exact Hsound | split]].
  - intros Hn. split; [exact Hsound|]. intros Hu. rewrite Hrun in Hn. simpl in Hn.
    apply (LoopEnd_done_prints _ _ _ _ p Hend Hn); [now apply In_rangeOrder | now apply Hbody].
  - intros Habs Hin. apply Hsound in Hin as (_ & _ & Hpres).
    unfold oracleAbsent, oraclePresent in *. congruence.
Qed.

(** C4. Directory metadata.  For an added path [base.meta] whose [base]
    has no extension left, whatever the oracle would answer: the step of
    the add-pass for it prints nothing, asks the oracle nothing and
    changes nothing; no text printed by the whole pass is a violation for
    that path; and the pass asks the oracle neither for [base] nor for the
    path itself. *)
Theorem directory_meta_exempt (b : Buckets) (base : string) (st : State) :
  (base +:+ ".meta") ∈ filesBeingAdded b -> Ext base = "" ->
  checkAdded p4fstat b (base +:+ ".meta") st = (Next tt, st)
  /\ ~ In (msgMissingAsset (base +:+ ".meta")) (printed (addPass p4fstat rangeOrder b) st)
  /\ ~ In (msgMissingMeta (base +:+ ".meta")) (printed (addPass p4fstat rangeOrder b) st)
  /\ ~ In base (asked (addPass p4fstat rangeOrder b) st)
  /\ ~ In (base +:+ ".meta") (asked (addPass p4fstat rangeOrder b) st).
Proof.
  intros Hp Hext.
  destruct (addPass_end b st) as (r & Hend & Hrun & Hpr & Hask).
  rewrite Hpr, Hask. repeat split.
  - apply silent_anywhere; [apply framed_checkAdded|].
    rewrite checkAdded_meta, Hext. reflexivity.
  - intros H. destruct (LoopEnd_prints _ _ _ _ Hend H) as (x & _ & Hx).
    apply checkAdded_missingAsset in Hx as (_ & base' & Heq & Hne & _).
    apply app_cancel_r in Heq as ->. contradiction.
  - intros H. destruct (LoopEnd_prints _ _ _ _ Hend H) as (x & _ & Hx).
    apply checkAdded_missingMeta in Hx as (_ & Hnm & _).
    apply Hnm. now exists base.
  - intros H. destruct (LoopEnd_asks _ _ _ _ Hend H) as (x & _ & Hx).
    apply checkAdded_asks in Hx as [(_ & Heq & _) | (_ & Hne & _)]; [|contradiction].
    assert (Hm : Ext base = ".meta") by (apply Ext_meta_iff; now exists x).
    rewrite Hext in Hm. discriminate.
  - intros H. destruct (LoopEnd_asks _ _ _ _ Hend H) as (x & _ & Hx).
    apply checkAdded_asks in Hx as [(_ & _ & Hn) | (_ & _ & Hn)]; contradiction.
Qed.

(** C5. Deleted metadata.  For a path of the deleted set that ends in
    [.meta]: the step of the delete-pass for it prints nothing, asks the
    oracle nothing and changes nothing; the whole pass prints no
    orphaned-metadata violation for it and never asks the oracle about
    it. *)
Theorem deleted_meta_never_flagged (b : Buckets) (p : string) (st : State) :
  p ∈ filesBeingDeleted b -> endsIn p ".meta" ->
  checkDeleted p4fstat b p st = (Next tt, st)
  /\ ~ In (msgOrphanedMeta p) (printed (deletePass p4fstat rangeOrder b) st)
  /\ ~ In p (asked (deletePass p4fstat rangeOrder b) st).
Proof.
  intros Hp [base ->].
  destruct (deletePass_end b st) as (r & Hend & Hrun & Hpr & Hask).
  rewrite Hpr, Hask. repeat split.
  - apply checkDeleted_meta.
  - intros H. destruct (LoopEnd_prints _ _ _ _ Hend H) as (x & _ & Hx).
    apply checkDeleted_orphanedMeta in Hx as (_ & Hnm & _).
    apply Hnm. now exists base.
  - intros H. destruct (LoopEnd_asks _ _ _ _ Hend H) as (x & _ & Hx).
    apply checkDeleted_asks in Hx as (_ & _ & Hn). contradiction.
Qed.

End Passes.

(** ** The whole run *)

Lemma wellFormed_dec item : {wellFormed item} + {~ wellFormed item}.
Proof. unfold wellFormed. apply Nat.eq_dec. Qed.

Section Run.

Variable AppConfig : tomlConfig.
Variable p4fstat : string -> string * option string.
Variable rangeOrder : stringSet -> list string.

Lemma appBody_cases changelist p4outString :
  appBody AppConfig p4fstat rangeOrder changelist p4outString start =
    if notFound p4outString then
      (Return p4ExitErrorUsage, onlyPrinted (msgNoChangelist changelist))
    else if (length (p4textOf p4outString) =? 0)%nat then
      (Return p4ExitErrorEmpty, onlyPrinted (msgEmptyOutput changelist))
    else if (length (p4infoOf p4outString) =? 0)%nat then
      (Return p4ExitErrorEmpty, onlyPrinted (msgNoFileRecords changelist))
    else if bypassed AppConfig p4outString then
      (Return p4ExitBypass, onlyPrinted msgBypass)
    else
      match forEachWith (p4infoOf p4outString) noFiles (classifyItem AppConfig) start with
      | (Next b, st) => pairingChecks p4fstat rangeOrder b st
      | (Return c, st) => (Return c, st)
      end.
Proof.
  unfold appBody, notFound, bypassed, p4textOf, p4infoOf.
  repeat match goal with |- (if ?c then _ else _) _ = _ => destruct c end; reflexivity.
Qed.

(** *** Parsing and filtering the file records *)

Lemma classifyItem_malformed b item st :
  ~ wellFormed item ->
  classifyItem AppConfig b item st
  = (Return p4ExitErrorException, snd (Printf (msgParseFailed item) st)).
Proof.
  unfold wellFormed, classifyItem. intros H.
  apply Nat.eqb_neq in H. now rewrite H.
Qed.

Lemma classifyItem_wellFormed b item st :
  wellFormed item -> exists b', classifyItem AppConfig b item st = (Next b', st).
Proof.
  unfold wellFormed, classifyItem. intros H. apply Nat.eqb_eq in H. rewrite H. cbn [negb].
  destruct (Split _) as [itemDirectory itemFilename].
  repeat match goal with |- context [if ?c then _ else _] => destruct c end;
    eexists; reflexivity.
Qed.

(** With an empty whitelist a well-formed record leaves the sets as they
    are. *)
Lemma classifyItem_no_whitelist b item st :
  PathWhitelist AppConfig = [] -> wellFormed item ->
  classifyItem AppConfig b item st = (Next b, st).
Proof.
  unfold wellFormed, classifyItem. intros Hw H. apply Nat.eqb_eq in H.
  rewrite H, Hw. cbn [negb existsb].
  destruct (Split _) as [itemDirectory itemFilename].
  destruct (Contains itemDirectory "~/"); [reflexivity|].
  destruct (HasPrefix itemFilename "."); reflexivity.
Qed.

(** The loop over the file records stops at the first malformed one, and
    otherwise leaves the state as it is. *)
Lemma classify_cases l b st :
  (Forall wellFormed l
   /\ exists b', forEachWith l b (classifyItem AppConfig) st = (Next b', st))
  \/ (exists l1 item l2, l = l1 ++ item :: l2 /\ Forall wellFormed l1 /\ ~ wellFormed item
      /\ forEachWith l b (classifyItem AppConfig) st
         = (Return p4ExitErrorException, snd (Printf (msgParseFailed item) st))).
Proof.
  revert b. induction l as [|item l IH]; intros b; simpl.
  - left. split; [constructor | now exists b].
  - destruct (wellFormed_dec item) as [Hw|Hw].
    + destruct (classifyItem_wellFormed b item st Hw) as [b1 Hb1].
      unfold bind. rewrite Hb1.
      destruct (IH b1) as [[Hall [b' Hb']] | (l1 & bad & l2 & -> & Hall & Hbad & Hrun)].
      * left. split; [now constructor | now exists b'].
      * right. exists (item :: l1), bad, l2. repeat split; auto.
    + right. exists [], item, l. unfold bind.
      rewrite (classifyItem_malformed b item st Hw). repeat split; auto.
Qed.

Lemma classify_no_whitelist l b st :
  PathWhitelist AppConfig = [] -> Forall wellFormed l ->
  forEachWith l b (classifyItem AppConfig) st = (Next b, st).
Proof.
  intros Hw Hall. induction Hall as [|item l Hi Hall IH]; simpl; [reflexivity|].
  unfold bind. now rewrite (classifyItem_no_whitelist b item st Hw Hi).
Qed.

(** *** The two passes and the verdict *)

Lemma pairingChecks_cases b :
  pairingChecks p4fstat rangeOrder b start =
    match addPass p4fstat rangeOrder b start with
    | (Return c, e1) => (Return c, e1)
    | (Next _, e1) =>
        match deletePass p4fstat rangeOrder b start with
        | (Return c, e2) => (Return c, extend e1 e2)
        | (Next _, e2) =>
            if allowCommitToContinue (extend e1 e2)
            then (Next p4ExitSuccess, extend (extend e1 e2) (onlyPrinted msgSuccess))
            else (Next p4ExitProblems, extend e1 e2)
        end
    end.
Proof.
  unfold pairingChecks, bind. change (setAllowCommitToContinue true start) with (Next tt, start).
  cbv iota beta.
  destruct (addPass p4fstat rangeOrder b start) as [[[]|c] e1]; [|reflexivity].
  assert (Hf : framed (deletePass p4fstat rangeOrder b))
    by (apply framed_forEach, framed_checkDeleted).
  rewrite (Hf e1).
  destruct (deletePass p4fstat rangeOrder b start) as [[[]|c] e2]; [|reflexivity].
  unfold getAllowCommitToContinue. cbn [fst snd].
  destruct (allowCommitToContinue (extend e1 e2)) eqn:Ea; [|reflexivity].
  unfold Printf, ret, extend, onlyPrinted. cbn.
  now rewrite app_nil_r, andb_true_r.
Qed.

Lemma length_eqb_0 {A} (l : list A) : l <> [] -> (length l =? 0)%nat = false.
Proof. now destruct l. Qed.

Lemma bypassed_header p4outString :
  bypassed AppConfig p4outString = true -> p4textOf p4outString <> [].
Proof. unfold bypassed. now destruct (p4textOf p4outString). Qed.

Ltac run_app := unfold app; cbv zeta; rewrite appBody_cases.

Lemma bypass_after_empty_checks_aux changelist p4outString :
  notFound p4outString = false ->
  bypassed AppConfig p4outString = true ->
  p4infoOf p4outString <> [] ->
  app AppConfig p4fstat rangeOrder changelist p4outString
  = (p4ExitBypass, onlyPrinted msgBypass).
Proof.
  intros Hf Hb Hi. pose proof (bypassed_header _ Hb) as Hh.
  run_app. rewrite Hf.
  now rewrite (length_eqb_0 _ Hh), (length_eqb_0 _ Hi), Hb.
Qed.

(** *** The claims about the run as a whole *)

(** C1, as amended.  The empty-report checks come before the bypass
    check.  When the report is that of an existing changelist, its
    file-record block is not empty and some header line after the first
    contains the bypass key-phrase, the run ends with [p4ExitBypass] (exit
    status 0), having printed the bypass notice only: no record is parsed,
    no violation printed, no lookup made.  When the file-record block is
    empty the run is a hard error, [p4ExitErrorEmpty], bypass phrase or
    not. *)
Theorem bypass_after_empty_checks (changelist : Z) (p4outString : string) :
  notFound p4outString = false ->
  bypassed AppConfig p4outString = true ->
  (p4infoOf p4outString <> [] ->
     app AppConfig p4fstat rangeOrder changelist p4outString
     = (p4ExitBypass, onlyPrinted msgBypass)
     /\ exitStatus p4ExitBypass = 0%Z)
  /\ (p4infoOf p4outString = [] ->
     app AppConfig p4fstat rangeOrder changelist p4outString
     = (p4ExitErrorEmpty, onlyPrinted (msgNoFileRecords changelist))
     /\ exitStatus p4ExitErrorEmpty = 1%Z).
Proof.
  intros Hf Hb. pose proof (bypassed_header _ Hb) as Hh.
  split; intros Hi; (split; [|reflexivity]); run_app; rewrite Hf.
  - now rewrite (length_eqb_0 _ Hh), (length_eqb_0 _ Hi), Hb.
  - now rewrite (length_eqb_0 _ Hh), Hi.
Qed.

(** C6, as amended.  In a run that gets as far as parsing (existing
    changelist, non-empty header, no bypass phrase in the header lines
    after the first), a file record that [reFileRecordUnpack] does not
    take apart ends the run with [p4ExitErrorException]: the only text
    printed is the parse failure of the first such record, no violation
    is printed and no lookup is made. *)
Theorem malformed_record_is_fatal (changelist : Z) (p4outString : string) :
  notFound p4outString = false ->
  p4textOf p4outString <> [] ->
  bypassed AppConfig p4outString = false ->
  Exists (fun item => ~ wellFormed item) (p4infoOf p4outString) ->
  exists l1 item l2,
    p4infoOf p4outString = l1 ++ item :: l2
    /\ Forall wellFormed l1 /\ ~ wellFormed item
    /\ app AppConfig p4fstat rangeOrder changelist p4outString
       = (p4ExitErrorException, onlyPrinted (msgParseFailed item)).
Proof.
  intros Hf Hh Hb Hbad.
  assert (Hi : p4infoOf p4outString <> []) by (intros E; rewrite E in Hbad; inversion Hbad).
  destruct (classify_cases (p4infoOf p4outString) noFiles start)
    as [[Hall _] | (l1 & item & l2 & Heq & Hall & Hitem & Hrun)].
  - exfalso. apply Exists_exists in Hbad as (item & Hin & Hitem).
    rewrite Forall_forall in Hall. now apply Hitem, Hall.
  - exists l1, item, l2. repeat split; auto.
    run_app. rewrite Hf, (length_eqb_0 _ Hh), (length_eqb_0 _ Hi), Hb, Hrun.
    reflexivity.
Qed.

(** C10, as amended.  With the empty string as bypass key-phrase, every
    report of an existing changelist whose header block has at least two
    lines and whose file-record block is not empty is bypassed, whatever
    the file records are. *)
Theorem empty_keyphrase_bypasses (changelist : Z) (p4outString : string) :
  BypassKeyphrase AppConfig = "" ->
  (2 <= length (p4textOf p4outString))%nat ->
  notFound p4outString = false ->
  p4infoOf p4outString <> [] ->
  bypassed AppConfig p4outString = true
  /\ app AppConfig p4fstat rangeOrder changelist p4outString
     = (p4ExitBypass, onlyPrinted msgBypass).
Proof.
  intros Hk Hlen Hf Hi.
  assert (Hb : bypassed AppConfig p4outString = true).
  { unfold bypassed. rewrite Hk.
    destruct (p4textOf p4outString) as [|l0 [|l1 rest]]; simpl in Hlen; try lia.
    simpl. now rewrite Contains_empty. }
  split; [exact Hb|].
  now apply (bypass_after_empty_checks_aux changelist p4outString).
Qed.

Lemma allAnswered_extend e1 e2 :
  allAnswered p4fstat e1 -> allAnswered p4fstat e2 -> allAnswered p4fstat (extend e1 e2).
Proof.
  intros H1 H2 q Hq. simpl in Hq. apply in_app_or in Hq as [Hq|Hq]; auto.
Qed.

Lemma stoppedAtFailure_extend e1 e2 :
  allAnswered p4fstat e1 -> stoppedAtFailure p4fstat e2 -> stoppedAtFailure p4fstat (extend e1 e2).
Proof.
  intros H1 (calls & out & path & reported & e & He & Hc & Hq & Ho).
  exists (fstatCalls e1 ++ calls), (stdout e1 ++ out), path, reported, e.
  simpl. rewrite Hc, Ho, <- !app_assoc. repeat split; auto.
  intros q Hin. apply in_app_or in Hin as [Hin|Hin]; auto.
Qed.

Lemma allAnswered_effects {A} (body : A -> M unit) l :
  (forall x, ItemShape p4fstat (body x start)) ->
  (forall x, In x l -> fst (body x start) = Next tt) ->
  allAnswered p4fstat (effects body l).
Proof.
  intros Hs Hn q Hq. rewrite fstatCalls_effects, in_flat_map in Hq.
  destruct Hq as (x & Hx & Hq). exact (shape_Next p4fstat _ (Hs x) (Hn x Hx) q Hq).
Qed.

(** A loop of either pass ends with all lookups answered, or is left with
    [p4ExitErrorException] right after the first failed lookup. *)
Lemma LoopEnd_lookups {A} (body : A -> M unit) l r :
  (forall x, ItemShape p4fstat (body x start)) ->
  LoopEnd body l r ->
  (fst r = Next tt /\ allAnswered p4fstat (snd r))
  \/ (fst r = Return p4ExitErrorException /\ stoppedAtFailure p4fstat (snd r)).
Proof.
  intros Hs [Hall | l1 x l2 c -> Hall Hx].
  - left. split; [reflexivity | now apply allAnswered_effects].
  - right. destruct (shape_Return p4fstat _ c (Hs x) Hx) as (-> & path & reported & e & He & Hst).
    split; [reflexivity|]. apply stoppedAtFailure_extend; [now apply allAnswered_effects|].
    rewrite Hst. exists [], [msgLaunchFailed e (fst (p4fstat path))], path, reported, e.
    repeat split; auto. intros q [].
Qed.

Lemma pairingChecks_lookups b :
  let r := pairingChecks p4fstat rangeOrder b start in
  (exists c, fst r = Next c /\ allAnswered p4fstat (snd r))
  \/ (fst r = Return p4ExitErrorException /\ stoppedAtFailure p4fstat (snd r)).
Proof.
  cbv zeta. rewrite pairingChecks_cases.
  pose proof (forEach_start (checkAdded p4fstat b) (rangeOrder (filesBeingAdded b))
                (framed_checkAdded p4fstat b)) as H1.
  pose proof (forEach_start (checkDeleted p4fstat b) (rangeOrder (filesBeingDeleted b))
                (framed_checkDeleted p4fstat b)) as H2.
  apply (LoopEnd_lookups _ _ _ (checkAdded_shape p4fstat b)) in H1.
  apply (LoopEnd_lookups _ _ _ (checkDeleted_shape p4fstat b)) in H2.
  fold (addPass p4fstat rangeOrder b) in H1. fold (deletePass p4fstat rangeOrder b) in H2.
  destruct (addPass p4fstat rangeOrder b start) as [[[]|c1] e1]; simpl in H1;
    destruct H1 as [[H1 A1]|[H1 A1]]; try discriminate.
  - destruct (deletePass p4fstat rangeOrder b start) as [[[]|c2] e2]; simpl in H2;
      destruct H2 as [[H2 A2]|[H2 A2]]; try discriminate.
    + left. pose proof (allAnswered_extend _ _ A1 A2) as A.
      destruct (allowCommitToContinue (extend e1 e2)).
      * exists p4ExitSuccess. split; [reflexivity|].
        apply allAnswered_extend; [exact A | intros q []].
      * exists p4ExitProblems. now split.
    + right. injection H2 as ->. split; [reflexivity|].
      now apply stoppedAtFailure_extend.
  - right. injection H1 as ->. now split.
Qed.

Lemma app_lookups changelist p4outString :
  let r := app AppConfig p4fstat rangeOrder changelist p4outString in
  allAnswered p4fstat (snd r) \/ (fst r = p4ExitErrorException /\ stoppedAtFailure p4fstat (snd r)).
Proof.
  cbv zeta. run_app.
  repeat match goal with |- context [if ?c then _ else _] => destruct c end;
    try (left; intros q []).
  destruct (classify_cases (p4infoOf p4outString) noFiles start)
    as [[_ [b ->]] | (l1 & item & l2 & _ & _ & _ & ->)].
  - destruct (pairingChecks_lookups b) as [(c & Hc & Ha) | [Hc Hs]].
    + left. exact Ha.
    + right. unfold exitCodeOf. cbn [fst snd]. rewrite Hc. now split.
  - left. intros q [].
Qed.

Lemma effects_allow {A} (body : A -> M unit) l :
  (forall x, ItemShape p4fstat (body x start)) ->
  allowCommitToContinue (effects body l) = false
  <-> exists text, In text (stdout (effects body l)) /\ isViolation text.
Proof.
  intros Hs. induction l as [|x l IH]; simpl.
  - split; [discriminate | intros [? [[] _]]].
  - rewrite andb_false_iff, IH, (shape_allow p4fstat _ (Hs x)). split.
    + intros [[t [Hin Ht]] | [t [Hin Ht]]]; exists t; (split; [|exact Ht]);
        apply in_or_app; auto.
    + intros [t [Hin Ht]]. apply in_app_or in Hin as [Hin|Hin]; [left | right]; eauto.
Qed.

Lemma msgSuccess_not_violation : ~ isViolation msgSuccess.
Proof. intros [p [H | [H | H]]]; apply (f_equal (sliceTo 9)) in H; discriminate H. Qed.

(** The exit code agrees with what was printed: [p4ExitProblems] goes with
    at least one violation text, [p4ExitSuccess] with none. *)
Lemma verdict_reflects_violations changelist p4outString :
  let r := app AppConfig p4fstat rangeOrder changelist p4outString in
  (fst r = p4ExitProblems -> exists text, In text (stdout (snd r)) /\ isViolation text)
  /\ (fst r = p4ExitSuccess -> forall text, In text (stdout (snd r)) -> ~ isViolation text).
Proof.
  cbv zeta. run_app.
  repeat match goal with |- context [if ?c then _ else _] => destruct c end;
    try (split; discriminate).
  destruct (classify_cases (p4infoOf p4outString) noFiles start)
    as [[_ [b ->]] | (l1 & item & l2 & _ & _ & _ & ->)]; [|split; discriminate].
  rewrite pairingChecks_cases.
  pose proof (forEach_start (checkAdded p4fstat b) (rangeOrder (filesBeingAdded b))
                (framed_checkAdded p4fstat b)) as H1.
  pose proof (forEach_start (checkDeleted p4fstat b) (rangeOrder (filesBeingDeleted b))
                (framed_checkDeleted p4fstat b)) as H2.
  fold (addPass p4fstat rangeOrder b) in H1. fold (deletePass p4fstat rangeOrder b) in H2.
  destruct (addPass p4fstat rangeOrder b start) as [[[]|c1] e1].
  - destruct (deletePass p4fstat rangeOrder b start) as [[[]|c2] e2].
    + inversion H1 as [_ E1|]; subst e1. inversion H2 as [_ E2|]; subst e2.
      pose proof (effects_allow (checkAdded p4fstat b) (rangeOrder (filesBeingAdded b))
                    (checkAdded_shape p4fstat b)) as V1.
      pose proof (effects_allow (checkDeleted p4fstat b) (rangeOrder (filesBeingDeleted b))
                    (checkDeleted_shape p4fstat b)) as V2.
      destruct (allowCommitToContinue (extend _ _)) eqn:Ea; cbn [fst snd exitCodeOf];
        (split; [|]); try discriminate; intros _.
      * simpl in Ea. apply andb_true_iff in Ea as [Ea1 Ea2].
        intros text Hin Hv. simpl in Hin.
        apply in_app_or in Hin as [Hin | [<- | []]]; [|now apply msgSuccess_not_violation].
        apply in_app_or in Hin as [Hin|Hin].
        -- assert (Hf : allowCommitToContinue
                         (effects (checkAdded p4fstat b) (rangeOrder (filesBeingAdded b))) = false)
             by (apply V1; eauto).
           rewrite Hf in Ea1. discriminate.
        -- assert (Hf : allowCommitToContinue
                         (effects (checkDeleted p4fstat b) (rangeOrder (filesBeingDeleted b))) = false)
             by (apply V2; eauto).
           rewrite Hf in Ea2. discriminate.
      * simpl in Ea. apply andb_false_iff in Ea as [Ea|Ea].
        -- apply V1 in Ea as [t [Hin Ht]]. exists t. split; [|exact Ht].
           simpl. apply in_or_app. now left.
        -- apply V2 in Ea as [t [Hin Ht]]. exists t. split; [|exact Ht].
           simpl. apply in_or_app. now right.
    + destruct (LoopEnd_lookups _ _ _ (checkDeleted_shape p4fstat b) H2) as [[H _]|[H _]];
        simpl in H; [discriminate|]. injection H as ->. split; discriminate.
  - destruct (LoopEnd_lookups _ _ _ (checkAdded_shape p4fstat b) H1) as [[H _]|[H _]];
      simpl in H; [discriminate|]. injection H as ->. split; discriminate.
Qed.

(** [range] visits every element of the map, once. *)
Hypothesis rangeOrder_lists : forall s, Permutation (rangeOrder s) (elements s).

Lemma pass_left_on_failure {A} (body : A -> M unit) l x st :
  (forall y, framed (body y)) ->
  (forall y, ItemShape p4fstat (body y start)) ->
  In x l -> fst (body x start) <> Next tt ->
  fst (forEach l body st) = Return p4ExitErrorException.
Proof.
  intros Hf Hs Hx Hn. rewrite (framed_forEach l body Hf st). cbn [fst].
  destruct (LoopEnd_lookups body l _ Hs (forEach_start body l Hf)) as [[H _]|[H _]];
    [|exact H].
  exfalso. pose proof (forEach_start body l Hf) as He.
  inversion He as [Hall Heq | l1 y l2 c Hl Hall Hy Heq].
  - now apply Hn, Hall.
  - rewrite <- Heq in H. discriminate.
Qed.

(** C7. A failed lookup is fatal.  Whenever a path handed to the oracle
    during a run is one for which the lookup fails, the run ends with
    [p4ExitErrorException], that lookup is the last one made, and the last
    text printed reports the failed lookup (so neither [success] nor a
    violation closes the run).  In the add-pass as in the delete-pass, a
    path whose partner is missing from the changelist and whose lookup
    fails makes the pass leave [app] with that exit code, in any
    iteration order. *)
Theorem lookup_failure_is_fatal :
  (forall (changelist : Z) (p4outString path : string),
      let r := app AppConfig p4fstat rangeOrder changelist p4outString in
      In path (fstatCalls (snd r)) -> oracleFails p4fstat path ->
      fst r = p4ExitErrorException
      /\ last (fstatCalls (snd r)) = Some path
      /\ exists reported e,
           snd (fstatAnswer p4fstat path) = Some e
           /\ last (stdout (snd r)) = Some (msgFstatFailed reported e))
  /\ (forall (b : Buckets) (p : string) (st : State),
        p ∈ filesBeingAdded b -> ~ endsIn p ".meta" ->
        (p +:+ ".meta") ∉ filesBeingAdded b ->
        ToLower (p +:+ ".meta") ∉ filesBeingAddedIgnoringCase b ->
        oracleFails p4fstat (p +:+ ".meta") ->
        fst (addPass p4fstat rangeOrder b st) = Return p4ExitErrorException)
  /\ (forall (b : Buckets) (p : string) (st : State),
        p ∈ filesBeingDeleted b -> ~ endsIn p ".meta" ->
        (p +:+ ".meta") ∉ filesBeingDeleted b ->
        ToLower (p +:+ ".meta") ∉ filesBeingDeletedIgnoringCase b ->
        oracleFails p4fstat (p +:+ ".meta") ->
        fst (deletePass p4fstat rangeOrder b st) = Return p4ExitErrorException).
Proof.
  split; [|split].
  - intros changelist p4outString path r Hin Hfail. subst r.
    destruct (app_lookups changelist p4outString) as [Ha | [Hc Hs]].
    + exfalso. apply Hfail. now apply Ha.
    + split; [exact Hc|].
      destruct Hs as (calls & out & q & reported & e & He & Hcalls & Hq & Hout).
      assert (path = q) as ->.
      { rewrite Hcalls in Hin. apply in_app_or in Hin as [Hin | [<- | []]]; [|reflexivity].
        exfalso. apply Hfail. now apply Hq. }
      rewrite Hcalls, Hout, !last_snoc. split; [reflexivity|]. now exists reported, e.
  - intros b p st Hp Hnm H1 H2 Hfail.
    apply (pass_left_on_failure (checkAdded p4fstat b) _ p);
      [apply framed_checkAdded | apply checkAdded_shape
      | now apply (In_rangeOrder rangeOrder rangeOrder_lists) |].
    rewrite checkAdded_asset by assumption.
    replace (_ || _) with false by (symmetry; now apply has_either_false).
    intros Hn. apply depotLookup_Next in Hn. contradiction.
  - intros b p st Hp Hnm H1 H2 Hfail.
    apply (pass_left_on_failure (checkDeleted p4fstat b) _ p);
      [apply framed_checkDeleted | apply checkDeleted_shape
      | now apply (In_rangeOrder rangeOrder rangeOrder_lists) |].
    rewrite checkDeleted_asset by assumption.
    replace (_ || _) with false by (symmetry; now apply has_either_false).
    intros Hn. apply depotLookup_Next in Hn. contradiction.
Qed.

Lemma rangeOrder_empty : rangeOrder ∅ = [].
Proof.
  apply Permutation_nil. symmetry. rewrite <- (elements_empty (C:=stringSet)).
  apply rangeOrder_lists.
Qed.

(** C8. Empty whitelist.  With no whitelist entry, every well-formed
    record leaves the four sets untouched (none passes the whitelist
    test), so a report that is valid (existing changelist, non-empty
    header, non-empty file-record block of well-formed records) and not
    bypassed ends with [p4ExitSuccess]: [success] is the only text
    printed, no violation, and no lookup is made. *)
Theorem empty_whitelist_validates_nothing (changelist : Z) (p4outString : string) :
  PathWhitelist AppConfig = [] ->
  notFound p4outString = false ->
  p4textOf p4outString <> [] ->
  p4infoOf p4outString <> [] ->
  Forall wellFormed (p4infoOf p4outString) ->
  bypassed AppConfig p4outString = false ->
  (forall b item st, In item (p4infoOf p4outString) ->
     classifyItem AppConfig b item st = (Next b, st))
  /\ app AppConfig p4fstat rangeOrder changelist p4outString
     = (p4ExitSuccess, onlyPrinted msgSuccess)
  /\ exitStatus p4ExitSuccess = 0%Z.
Proof.
  intros Hw Hf Hh Hi Hall Hb. split; [|split; [|reflexivity]].
  - intros b item st Hin. apply classifyItem_no_whitelist; [exact Hw|].
    rewrite Forall_forall in Hall. now apply Hall, list_elem_of_In.
  - run_app. rewrite Hf, (length_eqb_0 _ Hh), (length_eqb_0 _ Hi), Hb.
    rewrite (classify_no_whitelist _ noFiles start Hw Hall), pairingChecks_cases.
    unfold addPass, deletePass. cbn [filesBeingAdded filesBeingDeleted noFiles].
    rewrite rangeOrder_empty. reflexivity.
Qed.

End Run.

(** ** Two runs on the same report *)

Section TwoRuns.

Variable AppConfig : tomlConfig.
Variable p4fstat : string -> string * option string.

(** The iteration orders met by two runs. *)
Variables order1 order2 : stringSet -> list string.
Hypothesis order1_lists : forall s, Permutation (order1 s) (elements s).
Hypothesis order2_lists : forall s, Permutation (order2 s) (elements s).

Lemma orders_agree s : Permutation (order1 s) (order2 s).
Proof. rewrite order1_lists, order2_lists. reflexivity. Qed.

Lemma forallb_Permutation {A} (f : A -> bool) l l' :
  Permutation l l' -> forallb f l = forallb f l'.
Proof.
  induction 1 as [|x l l' _ IH|x y l|l l' l'' _ IH1 _ IH2]; simpl.
  - reflexivity.
  - now rewrite IH.
  - now rewrite !andb_assoc, (andb_comm (f y)).
  - now rewrite IH1.
Qed.

Lemma stoppedAtFailure_not_answered st :
  stoppedAtFailure p4fstat st -> ~ allAnswered p4fstat st.
Proof.
  intros (calls & out & path & reported & e & He & Hc & _) Ha.
  rewrite (Ha path) in He; [discriminate|].
  rewrite Hc. apply in_or_app. right. now left.
Qed.

(** The same loop walked in two orders: it is left in both or in
    neither; when it is not left, the same texts are printed, the same
    paths asked and the flag ends the same. *)
Lemma LoopEnd_two_orders {A} (body : A -> M unit) l l' r r' :
  (forall x, ItemShape p4fstat (body x start)) ->
  Permutation l l' -> LoopEnd body l r -> LoopEnd body l' r' ->
  (fst r = Next tt /\ fst r' = Next tt
   /\ Permutation (stdout (snd r)) (stdout (snd r'))
   /\ Permutation (fstatCalls (snd r)) (fstatCalls (snd r'))
   /\ allowCommitToContinue (snd r) = allowCommitToContinue (snd r')
   /\ allAnswered p4fstat (snd r) /\ allAnswered p4fstat (snd r'))
  \/ (fst r = Return p4ExitErrorException /\ fst r' = Return p4ExitErrorException
      /\ stoppedAtFailure p4fstat (snd r) /\ stoppedAtFailure p4fstat (snd r')).
Proof.
  intros Hs Hp Hr Hr'.
  destruct (LoopEnd_lookups p4fstat body l r Hs Hr) as [[Hn Ha]|[Hn Ha]];
    destruct (LoopEnd_lookups p4fstat body l' r' Hs Hr') as [[Hn' Ha']|[Hn' Ha']].
  - left. repeat split; auto.
    + destruct Hr as [Hall|]; [|discriminate]. destruct Hr' as [Hall'|]; [|discriminate].
      simpl. rewrite !stdout_effects. now apply Permutation_flat_map.
    + destruct Hr as [Hall|]; [|discriminate]. destruct Hr' as [Hall'|]; [|discriminate].
      simpl. rewrite !fstatCalls_effects. now apply Permutation_flat_map.
    + destruct Hr as [Hall|]; [|discriminate]. destruct Hr' as [Hall'|]; [|discriminate].
      simpl. rewrite !allow_effects. now apply forallb_Permutation.
  - exfalso. destruct Hr as [Hall|]; [|discriminate].
    destruct Hr' as [|l1 x l2 c -> Hall' Hx]; [discriminate|].
    rewrite (Hall x) in Hx; [discriminate|].
    apply (Permutation_in x (Permutation_sym Hp)), in_or_app. right. now left.
  - exfalso. destruct Hr' as [Hall'|]; [|discriminate].
    destruct Hr as [|l1 x l2 c -> Hall Hx]; [discriminate|].
    rewrite (Hall' x) in Hx; [discriminate|].
    apply (Permutation_in x Hp), in_or_app. right. now left.
  - right. auto.
Qed.

Lemma pairingChecks_two_orders b :
  let r1 := pairingChecks p4fstat order1 b start in
  let r2 := pairingChecks p4fstat order2 b start in
  exitCodeOf r1 = exitCodeOf r2
  /\ (allAnswered p4fstat (snd r1) ->
      Permutation (stdout (snd r1)) (stdout (snd r2))
      /\ Permutation (fstatCalls (snd r1)) (fstatCalls (snd r2))).
Proof.
  cbv zeta. rewrite !pairingChecks_cases.
  pose proof (LoopEnd_two_orders (checkAdded p4fstat b) _ _ _ _
                (checkAdded_shape p4fstat b) (orders_agree (filesBeingAdded b))
                (forEach_start _ _ (framed_checkAdded p4fstat b))
                (forEach_start _ _ (framed_checkAdded p4fstat b))) as HA.
  pose proof (LoopEnd_two_orders (checkDeleted p4fstat b) _ _ _ _
                (checkDeleted_shape p4fstat b) (orders_agree (filesBeingDeleted b))
                (forEach_start _ _ (framed_checkDeleted p4fstat b))
                (forEach_start _ _ (framed_checkDeleted p4fstat b))) as HD.
  fold (addPass p4fstat order1 b) (addPass p4fstat order2 b) in HA.
  fold (deletePass p4fstat order1 b) (deletePass p4fstat order2 b) in HD.
  destruct (addPass p4fstat order1 b start) as [f1 e1].
  destruct (addPass p4fstat order2 b start) as [f1' e1'].
  destruct (deletePass p4fstat order1 b start) as [f2 e2].
  destruct (deletePass p4fstat order2 b start) as [f2' e2'].
  cbn [fst snd] in HA, HD.
  destruct HA as [(-> & -> & Po1 & Pc1 & Ea1 & A1 & A1') | (-> & -> & S1 & S1')].
  - destruct HD as [(-> & -> & Po2 & Pc2 & Ea2 & A2 & A2') | (-> & -> & S2 & S2')].
    + replace (allowCommitToContinue (extend e1' e2'))
        with (allowCommitToContinue (extend e1 e2)) by (simpl; now rewrite Ea1, Ea2).
      destruct (allowCommitToContinue (extend e1 e2)); (split; [reflexivity|]); intros _; simpl.
      * split; repeat apply Permutation_app; auto.
      * split; apply Permutation_app; auto.
    + split; [reflexivity|]. intros Ha. exfalso.
      apply (stoppedAtFailure_not_answered (extend e1 e2)); [|exact Ha].
      now apply stoppedAtFailure_extend.
  - split; [reflexivity|]. intros Ha. exfalso.
    now apply (stoppedAtFailure_not_answered e1).
Qed.

(** C9. Same report, same verdict.  Two runs of [app] on the same
    configuration, oracle and report text start from the same empty sets
    and differ only in the order in which Go walks its maps.  They end
    with the same exit code; and when no lookup fails they print the same
    texts (so the same violations) and ask the oracle for the same paths,
    up to that order. *)
Theorem same_report_same_verdict (changelist : Z) (p4outString : string) :
  let r1 := app AppConfig p4fstat order1 changelist p4outString in
  let r2 := app AppConfig p4fstat order2 changelist p4outString in
  fst r1 = fst r2
  /\ (allAnswered p4fstat (snd r1) ->
      Permutation (stdout (snd r1)) (stdout (snd r2))
      /\ Permutation (fstatCalls (snd r1)) (fstatCalls (snd r2))).
Proof.
  cbv zeta. unfold app. cbv zeta. rewrite !appBody_cases. cbn [fst snd].
  repeat match goal with |- context [if ?c then _ else _] => destruct c end;
    try (split; [reflexivity | intros _; split; reflexivity]).
  destruct (classify_cases AppConfig (p4infoOf p4outString) noFiles start)
    as [[_ [b ->]] | (l1 & item & l2 & _ & _ & _ & ->)].
  - apply pairingChecks_two_orders.
  - split; [reflexivity | intros _; split; reflexivity].
Qed.

End TwoRuns.

(** * Further properties of the code *)

(** ** String sets and the operation vocabularies *)

(** X1. [add], [remove] and [has] of [stringSet] behave as a set of strings:
    [has] after [add] or [remove] is decided by the value added or removed
    and the set before, the empty set has no member, adding or removing twice
    is adding or removing once, and [remove] undoes [add] (and conversely)
    when the value was not (was) a member. *)
Theorem stringSet_laws (s : stringSet) (v w : string) :
  has (add s v) w = String.eqb v w || has s w
  /\ has (remove s v) w = negb (String.eqb v w) && has s w
  /\ has (∅ : stringSet) w = false
  /\ add (add s v) v = add s v
  /\ remove (remove s v) v = remove s v
  /\ (has s v = false -> remove (add s v) v = s)
  /\ (has s v = true -> add (remove s v) v = s).
Proof.
  unfold add, remove.
  split; [|split; [|split; [|split; [|split; [|split]]]]].
  - apply eq_true_iff_eq.
    rewrite orb_true_iff, String.eqb_eq, !has_true, elem_of_union, elem_of_singleton.
    split; intros [H|H]; auto.
  - apply eq_true_iff_eq.
    rewrite andb_true_iff, negb_true_iff, String.eqb_neq, !has_true,
      elem_of_difference, elem_of_singleton.
    split; intros [H1 H2]; split; auto.
  - apply has_false, not_elem_of_empty.
  - apply set_eq. intros x. rewrite !elem_of_union, elem_of_singleton. tauto.
  - apply set_eq. intros x. rewrite !elem_of_difference, elem_of_singleton. tauto.
  - intros H. apply has_false in H. apply set_eq. intros x.
    rewrite elem_of_difference, elem_of_union, elem_of_singleton.
    split; [tauto|]. intros Hx. split; [now right|]. intros ->. contradiction.
  - intros H. apply has_true in H. apply set_eq. intros x.
    rewrite elem_of_union, elem_of_difference, elem_of_singleton.
    destruct (decide (x = v)) as [->|Hne]; tauto.
Qed.

Lemma opsAdd_cases op :
  has opsAdd op = true <-> op = "move/add" \/ op = "add" \/ op = "import".
Proof.
  rewrite has_true. unfold opsAdd. rewrite elem_of_list_to_set, !elem_of_cons, elem_of_nil.
  tauto.
Qed.

Lemma opsDel_cases op :
  has opsDel op = true <-> op = "move/delete" \/ op = "delete" \/ op = "purge" \/ op = "archive".
Proof.
  rewrite has_true. unfold opsDel. rewrite elem_of_list_to_set, !elem_of_cons, elem_of_nil.
  tauto.
Qed.

Lemma opsExists_cases op :
  has opsExists op = true <-> op = "edit" \/ op = "move/add" \/ op = "add" \/ op = "import".
Proof.
  rewrite has_true. unfold opsExists. rewrite elem_of_list_to_set, !elem_of_cons, elem_of_nil.
  tauto.
Qed.

Lemma opsAdd_not_opsDel op : has opsAdd op = true -> has opsDel op = false.
Proof.
  intros H. apply opsAdd_cases in H. apply not_true_is_false. intros H'.
  apply opsDel_cases in H'. destruct H as [-> | [-> | ->]];
    destruct H' as [H' | [H' | [H' | H']]]; discriminate H'.
Qed.

(** X2. The three operation vocabularies: no operation is both an add and a
    delete operation, none is both a delete operation and one that makes a
    file exist, and the operations that make a file exist are the add
    operations and [edit]. *)
Theorem operation_vocabularies (op : string) :
  has opsAdd op && has opsDel op = false
  /\ has opsDel op && has opsExists op = false
  /\ has opsExists op = has opsAdd op || String.eqb op "edit".
Proof.
  split; [|split].
  - destruct (has opsAdd op) eqn:E; [|reflexivity]. now apply opsAdd_not_opsDel.
  - destruct (has opsDel op) eqn:E; [|reflexivity]. simpl.
    apply opsDel_cases in E. apply not_true_is_false. intros H'.
    apply opsExists_cases in H'. destruct E as [-> | [-> | [-> | ->]]];
      destruct H' as [H' | [H' | [H' | H']]]; discriminate H'.
  - apply eq_true_iff_eq.
    rewrite orb_true_iff, String.eqb_eq, opsExists_cases, opsAdd_cases. tauto.
Qed.

(** ** More about the library functions *)

Lemma allBytes_app p s t : allBytes p (s +:+ t) = allBytes p s && allBytes p t.
Proof.
  induction s as [|c s IH]; [reflexivity|].
  change (p c && allBytes p (s +:+ t) = p c && allBytes p s && allBytes p t).
  now rewrite IH, andb_assoc.
Qed.

(** [span] splits its argument, the first part satisfies the predicate and
    the second does not start with a byte that does. *)
Lemma span_spec p s a b :
  span p s = (a, b) ->
  s = a +:+ b /\ allBytes p a = true
  /\ match b with "" => True | String c _ => p c = false end.
Proof.
  revert a b. induction s as [|c s IH]; intros a b H; simpl in H.
  - injection H as <- <-. auto.
  - destruct (p c) eqn:Hc.
    + destruct (span p s) as [a' b'] eqn:E. injection H as <- <-.
      destruct (IH a' b' eq_refl) as (-> & Ha & Hb). repeat split; auto.
      simpl. now rewrite Hc, Ha.
    + injection H as <- <-. repeat split; auto.
Qed.

Lemma span_app p a b :
  allBytes p a = true ->
  match b with "" => True | String c _ => p c = false end ->
  span p (a +:+ b) = (a, b).
Proof.
  intros Ha Hb. induction a as [|c a IH].
  - destruct b as [|d b]; [reflexivity|]. simpl. now rewrite Hb.
  - simpl in Ha. apply andb_true_iff in Ha as [Hc Ha].
    change (span p (String c (a +:+ b)) = (String c a, b)). simpl.
    now rewrite Hc, (IH Ha).
Qed.

Lemma span_all p a : allBytes p a = true -> span p a = (a, "").
Proof.
  induction a as [|c a IH]; simpl; [reflexivity|].
  intros H. apply andb_true_iff in H as [Hc Ha]. now rewrite Hc, (IH Ha).
Qed.

Lemma append_assoc (s t u : string) : (s +:+ t) +:+ u = s +:+ (t +:+ u).
Proof.
  induction s as [|c s IH]; [reflexivity|].
  change (String c ((s +:+ t) +:+ u) = String c (s +:+ (t +:+ u))). now rewrite IH.
Qed.

Lemma append_nil_r (s : string) : s +:+ "" = s.
Proof.
  induction s as [|c s IH]; [reflexivity|].
  change (String c (s +:+ "") = String c s). now rewrite IH.
Qed.

Lemma findLeftmost_hit matchAt s :
  matchAt s <> [] -> findLeftmost matchAt s = matchAt s.
Proof. intros H. destruct s; simpl; destruct (matchAt _); congruence. Qed.

Lemma fileRecordAt_round_trip path rev op after :
  path <> "" -> allBytes notHash path = true ->
  rev <> "" -> allBytes isDigit rev = true ->
  op <> "" -> allBytes isOpChar op = true ->
  after = "" \/ (exists t, after = String LF t) ->
  fileRecordAt (recordText path rev op +:+ after) = [recordText path rev op; path; rev; op].
Proof.
  intros Hp Hpa Hr Hra Ho Hoa Hafter. unfold fileRecordAt, recordText.
  rewrite !append_assoc.
  rewrite (span_app (fun c => negb (Ascii.eqb c "#")) path
             ("#" +:+ rev +:+ " " +:+ op +:+ after) Hpa eq_refl).
  destruct path as [|c path]; [contradiction|].
  change ("#" +:+ rev +:+ " " +:+ op +:+ after)
    with (String "#" (rev +:+ " " +:+ op +:+ after)). cbv iota.
  rewrite (span_app isDigit rev (" " +:+ op +:+ after) Hra eq_refl).
  destruct rev as [|d rev]; [contradiction|].
  change (" " +:+ op +:+ after) with (String " " (op +:+ after)). cbv iota.
  change (Ascii.eqb " " " ") with true. cbv iota.
  assert (Hspan : span isOpChar (op +:+ after) = (op, after)).
  { apply span_app; [exact Hoa|]. destruct Hafter as [-> | [t ->]]; reflexivity. }
  rewrite Hspan. destruct op as [|e op]; [contradiction|].
  destruct Hafter as [-> | [t ->]]; reflexivity.
Qed.

(** X3. Round trip of [reFileRecordUnpack]: on the text [path#rev op], with a
    non-empty path free of [#], a non-empty revision of digits and a
    non-empty operation of word bytes and slashes, it returns the whole text
    followed by the path, the revision and the operation. *)
Theorem reFileRecordUnpack_round_trip (path rev op : string) :
  path <> "" -> allBytes notHash path = true ->
  rev <> "" -> allBytes isDigit rev = true ->
  op <> "" -> allBytes isOpChar op = true ->
  reFileRecordUnpack (recordText path rev op) = [recordText path rev op; path; rev; op].
Proof.
  intros Hp Hpa Hr Hra Ho Hoa.
  pose proof (fileRecordAt_round_trip path rev op "" Hp Hpa Hr Hra Ho Hoa (or_introl eq_refl)) as H.
  rewrite append_nil_r in H.
  unfold reFileRecordUnpack. rewrite findLeftmost_hit; rewrite H; [reflexivity | discriminate].
Qed.

Lemma fileRecordAt_sound s :
  fileRecordAt s = []
  \/ exists path rev op after,
       s = recordText path rev op +:+ after
       /\ fileRecordAt s = [recordText path rev op; path; rev; op]
       /\ path <> "" /\ allBytes notHash path = true
       /\ rev <> "" /\ allBytes isDigit rev = true
       /\ op <> "" /\ allBytes isOpChar op = true
       /\ (after = "" \/ exists t, after = String LF t).
Proof.
  unfold fileRecordAt.
  destruct (span (fun c => negb (Ascii.eqb c "#")) s) as [path r1] eqn:E1.
  apply span_spec in E1 as (Hs & Hpa & Hh).
  destruct path as [|c path]; [now left|].
  destruct r1 as [|h r2]; [now left|].
  apply negb_false_iff, Ascii.eqb_eq in Hh. subst h.
  destruct (span isDigit r2) as [rev r3] eqn:E2.
  apply span_spec in E2 as (Hr2 & Hra & _).
  destruct rev as [|d rev]; [now left|].
  destruct r3 as [|sp r4]; [now left|].
  destruct (Ascii.eqb sp " ") eqn:Esp; [|now left].
  apply Ascii.eqb_eq in Esp. subst sp.
  destruct (span isOpChar r4) as [op r5] eqn:E3.
  apply span_spec in E3 as (Hr4 & Hoa & _).
  destruct op as [|e op]; [now left|].
  assert (Hshape : s = recordText (String c path) (String d rev) (String e op) +:+ r5).
  { unfold recordText. rewrite !append_assoc. rewrite Hs. f_equal.
    change ("#" +:+ String d rev +:+ " " +:+ String e op +:+ r5)
      with (String "#" (String d rev +:+ String " " (String e op +:+ r5))).
    now rewrite Hr2, Hr4. }
  destruct r5 as [|x r5].
  - right. exists (String c path), (String d rev), (String e op), "".
    repeat split; auto; discriminate.
  - destruct (Ascii.eqb x LF) eqn:Ex; [|now left].
    apply Ascii.eqb_eq in Ex. subst x.
    right. exists (String c path), (String d rev), (String e op), (String LF r5).
    repeat split; eauto; discriminate.
Qed.

(** X4. What [reFileRecordUnpack] returns: nothing, or four strings, the match
    [path#rev op] and its three groups, where the match is a part of the
    item, the path is non-empty and free of [#], the revision is a non-empty
    run of digits, the operation a non-empty run of word bytes and slashes,
    and the match runs to the end of the item or of its line. *)
Theorem reFileRecordUnpack_sound (item : string) :
  reFileRecordUnpack item = []
  \/ exists before path rev op after,
       item = before +:+ recordText path rev op +:+ after
       /\ reFileRecordUnpack item = [recordText path rev op; path; rev; op]
       /\ path <> "" /\ allBytes notHash path = true
       /\ rev <> "" /\ allBytes isDigit rev = true
       /\ op <> "" /\ allBytes isOpChar op = true
       /\ (after = "" \/ exists t, after = String LF t).
Proof.
  unfold reFileRecordUnpack. induction item as [|c item IH].
  - left. reflexivity.
  - destruct (fileRecordAt_sound (String c item))
      as [E | (path & rev & op & after & Hs & E & H)].
    + simpl. rewrite E.
      destruct IH as [IH | (before & path & rev & op & after & Hs & E' & H)].
      * now left.
      * right. exists (String c before), path, rev, op, after. split; [|split; [exact E' | exact H]].
        change (String c item = String c (before +:+ recordText path rev op +:+ after)).
        now rewrite Hs.
    + right. exists "", path, rev, op, after. split; [exact Hs|]. split; [|exact H].
      rewrite findLeftmost_hit; rewrite E; [reflexivity | discriminate].
Qed.

Lemma scanRight_None stop s :
  scanRight stop s = None -> allBytes (fun c => negb (stop c)) s = true.
Proof.
  induction s as [|c s IH]; simpl; [reflexivity|].
  destruct (scanRight stop s) as [[[b x] a]|]; [discriminate|].
  destruct (stop c); [discriminate|]. intros _. now rewrite IH.
Qed.

Lemma scanRight_after stop s b x a :
  scanRight stop s = Some (b, x, a) -> allBytes (fun c => negb (stop c)) a = true.
Proof.
  revert b. induction s as [|c s IH]; intros b H; simpl in H; [discriminate|].
  destruct (scanRight stop s) as [[[b' x'] a']|] eqn:E.
  - injection H as <- <- <-. now apply (IH b').
  - destruct (stop c); [|discriminate]. injection H as <- <- <-.
    now apply scanRight_None.
Qed.

Lemma scanRight_free stop s :
  allBytes (fun c => negb (stop c)) s = true -> scanRight stop s = None.
Proof.
  induction s as [|c s IH]; simpl; [reflexivity|].
  intros H. apply andb_true_iff in H as [Hc Hs]. rewrite (IH Hs).
  now apply negb_true_iff in Hc as ->.
Qed.

Lemma scanRight_last stop b x t :
  stop x = true -> allBytes (fun c => negb (stop c)) t = true ->
  scanRight stop (b +:+ String x t) = Some (b, x, t).
Proof.
  intros Hx Ht.
  rewrite (scanRight_app stop b (String x t) "" x t).
  - now rewrite append_nil_r.
  - simpl. now rewrite (scanRight_free stop t Ht), Hx.
Qed.

Lemma Split_parts (path : string) :
  path = fst (Split path) +:+ snd (Split path)
  /\ allBytes notSeparator (snd (Split path)) = true
  /\ (fst (Split path) = "" \/ endsIn (fst (Split path)) "/").
Proof.
  unfold Split.
  destruct (scanRight IsPathSeparator path) as [[[b x] a]|] eqn:E; simpl.
  - pose proof (scanRight_after _ _ _ _ _ E) as Ha.
    apply scanRight_Some in E as [-> Hx].
    apply Ascii.eqb_eq in Hx. subst x. repeat split.
    + now rewrite append_assoc.
    + exact Ha.
    + right. now exists b.
  - split; [reflexivity|]. split; [now apply scanRight_None | now left].
Qed.

(** [Split] cuts a path after its last slash: the two parts joined give the
    path back, the file part has no slash, the directory part is empty or
    ends in a slash; a directory ending in a slash followed by a slash-free
    name is split into these two, and a slash-free name has an empty
    directory part. *)
Theorem Split_spec :
  (forall path : string,
      path = fst (Split path) +:+ snd (Split path)
      /\ allBytes notSeparator (snd (Split path)) = true
      /\ (fst (Split path) = "" \/ endsIn (fst (Split path)) "/"))
  /\ (forall dir file : string,
        allBytes notSeparator file = true ->
        Split ((dir +:+ "/") +:+ file) = (dir +:+ "/", file))
  /\ (forall file : string, allBytes notSeparator file = true -> Split file = ("", file)).
Proof.
  split; [exact Split_parts | split].
  - intros dir file Hf. unfold Split.
    rewrite append_assoc.
    change ("/" +:+ file) with (String "/" file).
    now rewrite (scanRight_last IsPathSeparator dir "/" file eq_refl Hf).
  - intros file Hf. unfold Split. now rewrite (scanRight_free IsPathSeparator file Hf).
Qed.

Lemma allBytes_weaken (p q : ascii -> bool) s :
  (forall c, p c = true -> q c = true) -> allBytes p s = true -> allBytes q s = true.
Proof.
  intros Hpq. induction s as [|c s IH]; simpl; [reflexivity|].
  intros H. apply andb_true_iff in H as [Hc Hs]. now rewrite (Hpq c Hc), IH.
Qed.

(** [Ext] is a suffix of the path; it is empty or a dot followed by bytes
    that are neither dots nor slashes; it is the extension of the file part
    given by [Split]; and it is empty exactly when that file part has no
    dot. *)
Theorem Ext_spec (path : string) :
  endsIn path (Ext path)
  /\ (Ext path = "" \/ exists rest, Ext path = String "." rest
                                   /\ allBytes notDotOrSeparator rest = true)
  /\ Ext path = Ext (snd (Split path))
  /\ (Ext path = "" <-> allBytes (fun c => negb (Ascii.eqb c ".")) (snd (Split path)) = true).
Proof.
  assert (Hshape : forall s,
             endsIn s (Ext s)
             /\ (Ext s = "" \/ exists rest, Ext s = String "." rest
                                          /\ allBytes notDotOrSeparator rest = true)).
  { intros s. unfold Ext.
    destruct (scanRight _ s) as [[[b x] a]|] eqn:E.
    - pose proof (scanRight_after _ _ _ _ _ E) as Ha.
      apply scanRight_Some in E as [-> Hx].
      destruct (IsPathSeparator x) eqn:Hs.
      + split; [|now left]. exists (b +:+ String x a). now rewrite append_nil_r.
      + simpl in Hx. apply Ascii.eqb_eq in Hx. subst x.
        split; [now exists b|]. right. now exists a.
    - split; [|now left]. exists s. now rewrite append_nil_r. }
  assert (Hfile : Ext path = Ext (snd (Split path))).
  { unfold Split.
    destruct (scanRight IsPathSeparator path) as [[[b x] a]|] eqn:E; [|reflexivity].
    pose proof (scanRight_after _ _ _ _ _ E) as Ha.
    apply scanRight_Some in E as [-> Hx]. simpl. unfold Ext.
    destruct (scanRight (fun c => IsPathSeparator c || Ascii.eqb c ".") a)
      as [[[b' y] a']|] eqn:E'.
    - replace (b +:+ String x a) with ((b +:+ String x "") +:+ a)
        by (now rewrite append_assoc).
      now rewrite (scanRight_app _ (b +:+ String x "") a b' y a' E').
    - rewrite (scanRight_last _ b x a); [now rewrite Hx | now rewrite Hx |].
      now apply scanRight_None. }
  destruct (Hshape path) as [H1 H2]. repeat split; auto.
  - intros He. rewrite Hfile in He. unfold Ext in He.
    destruct (scanRight _ (snd (Split path))) as [[[b x] a]|] eqn:E.
    + destruct (Split_parts path) as (_ & Hfree & _).
      apply scanRight_Some in E as [Heq Hx]. rewrite Heq, allBytes_app in Hfree.
      apply andb_true_iff in Hfree as [_ Hfree]. simpl in Hfree.
      apply andb_true_iff in Hfree as [Hfree _]. unfold notSeparator in Hfree.
      apply negb_true_iff in Hfree. rewrite Hfree in He. discriminate.
    + apply scanRight_None in E. revert E. apply allBytes_weaken.
      intros c Hc. apply negb_true_iff, orb_false_iff in Hc as [_ Hc]. now rewrite Hc.
  - intros Hd. rewrite Hfile. unfold Ext.
    destruct (scanRight _ (snd (Split path))) as [[[b x] a]|] eqn:E; [|reflexivity].
    destruct (IsPathSeparator x) eqn:Hs; [reflexivity|].
    apply scanRight_Some in E as [Heq Hx]. simpl in Hx. rewrite Hs in Hx. simpl in Hx.
    rewrite Heq, allBytes_app in Hd. apply andb_true_iff in Hd as [_ Hd]. simpl in Hd.
    rewrite Hx in Hd. discriminate.
Qed.

Lemma SplitCRLF_cons c rest :
  SplitCRLF (String c rest) =
    let glue := match SplitCRLF rest with
                | h :: t => String c h :: t
                | [] => [String c ""]
                end in
    if Ascii.eqb c CR then
      match rest with
      | String d rest' => if Ascii.eqb d LF then "" :: SplitCRLF rest' else glue
      | "" => glue
      end
    else glue.
Proof. reflexivity. Qed.

Lemma SplitCRLF_nonempty s : SplitCRLF s <> [].
Proof.
  destruct s as [|c rest]; [discriminate|]. rewrite SplitCRLF_cons. cbv zeta.
  destruct (Ascii.eqb c CR); [destruct rest as [|d rest']; [|destruct (Ascii.eqb d LF)]|];
    try discriminate; destruct (SplitCRLF _); discriminate.
Qed.

Lemma JoinCRLF_glue c h t : JoinCRLF (String c h :: t) = String c (JoinCRLF (h :: t)).
Proof. destruct t; reflexivity. Qed.

Lemma SplitCRLF_head s h t :
  SplitCRLF s = h :: t -> h = "" \/ exists c s' h', s = String c s' /\ h = String c h'.
Proof.
  destruct s as [|c rest]; [intros H; injection H as <- _; now left|].
  rewrite SplitCRLF_cons. cbv zeta.
  assert (Hglue : match SplitCRLF rest with
                  | h0 :: t0 => String c h0 :: t0
                  | [] => [String c ""]
                  end = h :: t -> h = "" \/ exists c0 s' h', String c rest = String c0 s' /\ h = String c0 h').
  { destruct (SplitCRLF rest) as [|h0 t0]; intros H; injection H as <- _; right; eauto. }
  destruct (Ascii.eqb c CR); [|exact Hglue].
  destruct rest as [|d rest']; [exact Hglue|].
  destruct (Ascii.eqb d LF); [|exact Hglue].
  intros H. injection H as <- _. now left.
Qed.

Lemma SplitCRLF_spec_bounded n :
  forall s, (String.length s <= n)%nat ->
    JoinCRLF (SplitCRLF s) = s
    /\ Forall (fun piece => Contains piece CRLF = false) (SplitCRLF s).
Proof.
  induction n as [|n IH]; intros s Hn.
  - destruct s; [|simpl in Hn; lia]. split; [reflexivity | repeat constructor].
  - destruct s as [|c rest]; [split; [reflexivity | repeat constructor]|].
    simpl in Hn. assert (Hrest : (String.length rest <= n)%nat) by lia.
    destruct (IH rest Hrest) as [Hj Hf].
    assert (Hglue :
              forall (Hok : Ascii.eqb c CR = false \/ rest = ""
                            \/ exists d r, rest = String d r /\ Ascii.eqb d LF = false),
              let glue := match SplitCRLF rest with
                          | h :: t => String c h :: t
                          | [] => [String c ""]
                          end in
              JoinCRLF glue = String c rest
              /\ Forall (fun piece => Contains piece CRLF = false) glue).
    { intros Hok glue. subst glue.
      destruct (SplitCRLF rest) as [|h t] eqn:E; [now apply SplitCRLF_nonempty in E|].
      rewrite ?E in Hj, Hf.
      split; [rewrite JoinCRLF_glue; f_equal; exact Hj|].
      pose proof (Forall_inv Hf) as Hh. pose proof (Forall_inv_tail Hf) as Ht.
      constructor; [|exact Ht]. cbv beta in Hh.
      change (Contains (String c h) CRLF)
        with (Ascii.eqb c CR && HasPrefix h (String LF "") || Contains h CRLF).
      rewrite Hh, orb_false_r.
      destruct Hok as [Hc | [-> | (d & r & -> & Hd)]].
      - now rewrite Hc.
      - injection E as <- <-. now rewrite andb_false_r.
      - apply SplitCRLF_head in E as [-> | (c0 & s' & h' & Heq & ->)].
        + now rewrite andb_false_r.
        + injection Heq as <- <-. simpl. rewrite Hd. now rewrite andb_false_r. }
    rewrite SplitCRLF_cons. cbv zeta.
    destruct (Ascii.eqb c CR) eqn:Ec; [|apply Hglue; now left].
    destruct rest as [|d rest']; [apply Hglue; right; now left|].
    destruct (Ascii.eqb d LF) eqn:Ed; [|apply Hglue; right; right; eauto].
    apply Ascii.eqb_eq in Ec, Ed. subst c d.
    simpl in Hrest. destruct (IH rest' ltac:(lia)) as [Hj' Hf'].
    split; [|constructor; [reflexivity | exact Hf']].
    destruct (SplitCRLF rest') as [|h t] eqn:E; [now apply SplitCRLF_nonempty in E|].
    rewrite ?E in Hj'.
    change (JoinCRLF ("" :: h :: t)) with (String CR (String LF (JoinCRLF (h :: t)))).
    now rewrite Hj'.
Qed.

(** Splitting at CR LF loses nothing: joining the pieces of [SplitCRLF]
    with CR LF gives the text back, there is always at least one piece, and
    no piece contains CR LF. *)
Theorem SplitCRLF_round_trip (s : string) :
  JoinCRLF (SplitCRLF s) = s
  /\ SplitCRLF s <> []
  /\ Forall (fun piece => Contains piece CRLF = false) (SplitCRLF s).
Proof.
  destruct (SplitCRLF_spec_bounded (String.length s) s (le_n _)) as [H1 H2].
  split; [exact H1 | split; [apply SplitCRLF_nonempty | exact H2]].
Qed.

Lemma TrimRight_cons c t :
  TrimRight (String c t) =
    if isSpaceRune (String c (TrimRight t)) then "" else String c (TrimRight t).
Proof. reflexivity. Qed.

Lemma TrimLeft_fixed s : startsWithSpace s = false -> TrimLeft s = s.
Proof.
  destruct s as [|a t]; [reflexivity|]. unfold startsWithSpace. intros H.
  apply orb_false_iff in H as [Ha H]. cbn [TrimLeft]. rewrite Ha.
  destruct t as [|b t]; [reflexivity|].
  apply orb_false_iff in H as [Hb H]. rewrite Hb.
  destruct t as [|c t]; [reflexivity|]. now rewrite H.
Qed.

Lemma TrimLeft_spec_bounded n : forall s, (String.length s <= n)%nat ->
  startsWithSpace (TrimLeft s) = false
  /\ exists left, s = left +:+ TrimLeft s /\ whiteSpace left.
Proof.
  assert (Hstop : forall s, startsWithSpace s = false ->
                  startsWithSpace (TrimLeft s) = false
                  /\ exists left, s = left +:+ TrimLeft s /\ whiteSpace left).
  { intros s H. rewrite (TrimLeft_fixed s H). split; [exact H|].
    exists "". split; [reflexivity | constructor]. }
  induction n as [|n IH]; intros s Hl.
  - destruct s; [|simpl in Hl; lia]. now apply Hstop.
  - assert (Hone : forall r rest, s = r +:+ rest -> isSpaceRune r = true ->
                   (String.length rest <= n)%nat -> TrimLeft s = TrimLeft rest ->
                   startsWithSpace (TrimLeft s) = false
                   /\ exists left, s = left +:+ TrimLeft s /\ whiteSpace left).
    { intros r rest Hs Hr Hlen Ht. destruct (IH rest Hlen) as [H1 (left & H2 & H3)].
      rewrite Ht. split; [exact H1|]. exists (r +:+ left). split.
      - rewrite Hs. rewrite H2 at 1. clear. induction r as [|x r IHr]; [reflexivity|].
        change (String x (r +:+ left +:+ TrimLeft rest) = String x ((r +:+ left) +:+ TrimLeft rest)).
        now rewrite IHr.
      - now constructor. }
    destruct (startsWithSpace s) eqn:Hw; [|now apply Hstop].
    destruct s as [|a t]; [discriminate|]. simpl in Hl. unfold startsWithSpace in Hw.
    destruct (asciiSpace a) eqn:Ha.
    { apply (Hone (String a "") t); [reflexivity | exact Ha | lia | cbn [TrimLeft]; now rewrite Ha]. }
    destruct t as [|b t]; [discriminate|]. simpl in Hl.
    destruct (isSpace2 a b) eqn:Hb.
    { apply (Hone (String a (String b "")) t); [reflexivity | exact Hb | lia |].
      cbn [TrimLeft]. now rewrite Ha, Hb. }
    destruct t as [|c t]; [discriminate|]. simpl in Hl.
    destruct (isSpace3 a b c) eqn:Hc; [|discriminate].
    apply (Hone (String a (String b (String c ""))) t); [reflexivity | exact Hc | lia |].
    cbn [TrimLeft]. now rewrite Ha, Hb, Hc.
Qed.

Lemma TrimLeft_spec s :
  startsWithSpace (TrimLeft s) = false
  /\ exists left, s = left +:+ TrimLeft s /\ whiteSpace left.
Proof. apply (TrimLeft_spec_bounded (String.length s)). lia. Qed.

Lemma startsWithSpace_app x y : startsWithSpace x = true -> startsWithSpace (x +:+ y) = true.
Proof.
  destruct x as [|a t]; [discriminate|].
  change (String a t +:+ y) with (String a (t +:+ y)).
  unfold startsWithSpace.
  destruct (asciiSpace a); [reflexivity|]. cbn [orb].
  destruct t as [|b t]; [discriminate|].
  change (String b t +:+ y) with (String b (t +:+ y)). cbv iota.
  destruct (isSpace2 a b); [reflexivity|]. cbn [orb].
  destruct t as [|c t]; [discriminate|]. intros H. exact H.
Qed.

Lemma whiteSpace_app x y : whiteSpace x -> whiteSpace y -> whiteSpace (x +:+ y).
Proof.
  intros Hx Hy. induction Hx as [|r s Hr Hs IH]; [exact Hy|].
  replace ((r +:+ s) +:+ y) with (r +:+ (s +:+ y)); [now constructor|].
  clear. induction r as [|c r IHr]; [reflexivity|].
  change (String c (r +:+ s +:+ y) = String c ((r +:+ s) +:+ y)). now rewrite IHr.
Qed.

Lemma TrimRight_spec t :
  TrimRight (TrimRight t) = TrimRight t
  /\ (forall x r, TrimRight t = x +:+ r -> isSpaceRune r = false)
  /\ exists right, t = TrimRight t +:+ right /\ whiteSpace right.
Proof.
  induction t as [|c t (IH1 & IH2 & right & IH3 & IH4)].
  - split; [reflexivity|]. split.
    + intros x r H. destruct x; [|discriminate]. change ("" = r) in H. now subst r.
    + exists "". split; [reflexivity | constructor].
  - rewrite TrimRight_cons. destruct (isSpaceRune (String c (TrimRight t))) eqn:E.
    + split; [reflexivity|]. split.
      * intros x r H. destruct x; [|discriminate]. change ("" = r) in H. now subst r.
      * exists (String c (TrimRight t) +:+ right). split.
        -- change (String c t = String c (TrimRight t +:+ right)). now rewrite <- IH3.
        -- now constructor.
    + split; [|split].
      * now rewrite TrimRight_cons, IH1, E.
      * intros x r H. destruct x as [|d x].
        -- change (String c (TrimRight t) = r) in H. now subst r.
        -- change (String c (TrimRight t) = String d (x +:+ r)) in H.
           injection H as _ H. now apply (IH2 x r).
      * exists right. split; [|exact IH4].
        change (String c t = String c (TrimRight t +:+ right)). now rewrite <- IH3.
Qed.

Lemma TrimRight_keeps_start t :
  startsWithSpace t = false -> startsWithSpace (TrimRight t) = false.
Proof.
  intros H. destruct (TrimRight_spec t) as (_ & _ & right & Ht & _).
  destruct (startsWithSpace (TrimRight t)) eqn:E; [|reflexivity].
  apply (startsWithSpace_app _ right) in E. rewrite <- Ht in E. congruence.
Qed.

Lemma TrimSpace_idem s : TrimSpace (TrimSpace s) = TrimSpace s.
Proof.
  unfold TrimSpace.
  destruct (TrimLeft_spec s) as [Hn _].
  destruct (TrimRight_spec (TrimLeft s)) as (Hi & _).
  now rewrite (TrimLeft_fixed _ (TrimRight_keeps_start _ Hn)).
Qed.

(** A white-space rune at the start is dropped. *)
Lemma TrimLeft_rune r s : isSpaceRune r = true -> TrimLeft (r +:+ s) = TrimLeft s.
Proof.
  destruct r as [|a [|b [|c [|d r]]]]; simpl; intros H; try discriminate.
  - now rewrite H.
  - destruct (asciiSpace a) eqn:Ha.
    + exfalso. unfold isSpace2 in H. apply andb_true_iff in H as [H _].
      apply Ascii.eqb_eq in H. subst a. discriminate Ha.
    + now rewrite H.
  - destruct (asciiSpace a) eqn:Ha.
    + exfalso. unfold isSpace3 in H.
      repeat (apply orb_true_iff in H as [H|H]);
        repeat (apply andb_true_iff in H as [H ?]);
        apply Ascii.eqb_eq in H; subst a; discriminate Ha.
    + destruct (isSpace2 a b) eqn:Hb.
      * exfalso. unfold isSpace2 in Hb. apply andb_true_iff in Hb as [Hb _].
        apply Ascii.eqb_eq in Hb. subst a. unfold isSpace3 in H. simpl in H. discriminate H.
      * now rewrite H.
Qed.

Lemma TrimLeft_whiteSpace s : whiteSpace s -> TrimLeft s = "".
Proof. induction 1 as [|r s Hr Hs IH]; [reflexivity|]. now rewrite TrimLeft_rune. Qed.

(** [TrimSpace] is idempotent, its result is left unchanged by [TrimLeft]
    and [TrimRight], it is empty exactly when the string is a run of
    white-space runes, its result neither starts nor ends with such a rune,
    and the string is its result between two runs of them. *)
Theorem TrimSpace_spec (s : string) :
  TrimSpace (TrimSpace s) = TrimSpace s
  /\ TrimLeft (TrimSpace s) = TrimSpace s
  /\ TrimRight (TrimSpace s) = TrimSpace s
  /\ (TrimSpace s = "" <-> whiteSpace s)
  /\ startsWithSpace (TrimSpace s) = false
  /\ (forall x r, TrimSpace s = x +:+ r -> isSpaceRune r = false)
  /\ exists left right,
       s = left +:+ TrimSpace s +:+ right /\ whiteSpace left /\ whiteSpace right.
Proof.
  unfold TrimSpace.
  destruct (TrimLeft_spec s) as [Hn (left & Hs & Hl)].
  destruct (TrimRight_spec (TrimLeft s)) as (Hi & He & right & Hr & Hrs).
  pose proof (TrimRight_keeps_start _ Hn) as Hk.
  assert (Hfix : TrimLeft (TrimRight (TrimLeft s)) = TrimRight (TrimLeft s))
    by (now apply TrimLeft_fixed).
  split; [now rewrite Hfix|]. split; [exact Hfix|]. split; [exact Hi|].
  split; [|split; [exact Hk | split; [exact He|]]].
  - split.
    + intros H0. rewrite H0 in Hr. simpl in Hr. rewrite Hs, Hr. now apply whiteSpace_app.
    + intros Hw. now rewrite (TrimLeft_whiteSpace s Hw).
  - exists left, right. split; [|split; assumption]. now rewrite <- Hr.
Qed.

Lemma filterStringsByType_cons str rest p4type :
  filterStringsByType (str :: rest) p4type =
    if HasPrefix str p4type then
      if String.eqb (TrimSpace (sliceFrom (String.length p4type) str)) ""
      then filterStringsByType rest p4type
      else TrimSpace (sliceFrom (String.length p4type) str) :: filterStringsByType rest p4type
    else filterStringsByType rest p4type.
Proof. reflexivity. Qed.

Lemma filterStringsByType_In s p4type r :
  In r (filterStringsByType s p4type) <->
  r <> "" /\ exists str, In str s /\ HasPrefix str p4type = true
                        /\ r = TrimSpace (sliceFrom (String.length p4type) str).
Proof.
  induction s as [|str rest IH].
  - simpl. split; [intros [] | intros [_ (str & [] & _)]].
  - rewrite filterStringsByType_cons.
    assert (Hrest : In r (filterStringsByType rest p4type) ->
                    r <> "" /\ exists x, In x (str :: rest) /\ HasPrefix x p4type = true
                                        /\ r = TrimSpace (sliceFrom (String.length p4type) x)).
    { intros Hr. apply IH in Hr as [Hne (x & Hx & Hpx & Heq)].
      split; [exact Hne|]. exists x. split; [now right | now split]. }
    assert (Hback : forall x, r <> "" -> In x rest -> HasPrefix x p4type = true ->
                              r = TrimSpace (sliceFrom (String.length p4type) x) ->
                              In r (filterStringsByType rest p4type)).
    { intros x Hne Hx Hpx Heq. apply IH. split; [exact Hne|]. now exists x. }
    destruct (HasPrefix str p4type) eqn:Hp;
      [destruct (String.eqb (TrimSpace _) "") eqn:He|].
    + apply String.eqb_eq in He. split; [exact Hrest|].
      intros [Hne (x & [<-|Hx] & Hpx & Heq)]; [|now apply (Hback x)].
      rewrite He in Heq. contradiction.
    + apply String.eqb_neq in He. split.
      * intros [<-|Hr]; [|now apply Hrest].
        split; [exact He|]. exists str. split; [now left | now split].
      * intros [Hne (x & [<-|Hx] & Hpx & Heq)]; [left; now symmetry|].
        right. now apply (Hback x).
    + split; [exact Hrest|].
      intros [Hne (x & [<-|Hx] & Hpx & Heq)]; [congruence | now apply (Hback x)].
Qed.

Lemma filterStringsByType_app s s' p4type :
  filterStringsByType (s ++ s') p4type
  = filterStringsByType s p4type ++ filterStringsByType s' p4type.
Proof.
  induction s as [|str rest IH]; [reflexivity|].
  change ((str :: rest) ++ s') with (str :: (rest ++ s')).
  rewrite !filterStringsByType_cons, IH.
  destruct (HasPrefix str p4type); [|reflexivity].
  now destruct (String.eqb _ "").
Qed.

Lemma filterStringsByType_length s p4type :
  (length (filterStringsByType s p4type) <= length s)%nat.
Proof.
  induction s as [|str rest IH]; [reflexivity|].
  rewrite filterStringsByType_cons.
  destruct (HasPrefix str p4type); [destruct (String.eqb _ "")|]; simpl; lia.
Qed.

(** X5. [filterStringsByType] returns exactly the non-empty trimmed remainders
    of the lines that start with the given tag; what it returns is already
    trimmed; it returns no more strings than it was given lines; and it
    works line by line, so that it distributes over concatenation. *)
Theorem filterStringsByType_spec (s : list string) (p4type : string) :
  (forall r, In r (filterStringsByType s p4type) <->
             r <> "" /\ exists str, In str s /\ HasPrefix str p4type = true
                                   /\ r = TrimSpace (sliceFrom (String.length p4type) str))
  /\ (forall r, In r (filterStringsByType s p4type) -> TrimSpace r = r)
  /\ (length (filterStringsByType s p4type) <= length s)%nat
  /\ (forall s', filterStringsByType (s ++ s') p4type
                 = filterStringsByType s p4type ++ filterStringsByType s' p4type).
Proof.
  split; [|split; [|split]].
  - intros r. apply filterStringsByType_In.
  - intros r Hr. apply filterStringsByType_In in Hr as [_ (str & _ & _ & ->)].
    apply TrimSpace_idem.
  - apply filterStringsByType_length.
  - intros s'. apply filterStringsByType_app.
Qed.

(** ** The depot lookup *)

Lemma HasPrefix_spec s p : HasPrefix s p = true <-> exists t, s = p +:+ t.
Proof.
  revert s. induction p as [|c p IH]; intros s.
  - rewrite HasPrefix_empty. split; [intros _; now exists s | reflexivity].
  - destruct s as [|d s]; simpl.
    + split; [discriminate | intros [t Ht]; discriminate].
    + rewrite andb_true_iff, Ascii.eqb_eq, IH. split.
      * intros [-> [t ->]]. now exists t.
      * intros [t Ht]. change (String d s = String c (p +:+ t)) in Ht.
        injection Ht as -> ->. split; [reflexivity | now exists t].
Qed.

Lemma headActionAt_sound s :
  headActionAt s = []
  \/ exists ws op after,
       s = "headAction" +:+ ws +:+ op +:+ after
       /\ headActionAt s = ["headAction" +:+ ws +:+ op; op]
       /\ ws <> "" /\ allBytes isReSpace ws = true
       /\ op <> "" /\ allBytes isOpChar op = true.
Proof.
  unfold headActionAt. destruct (HasPrefix s "headAction") eqn:Hp; [|now left].
  apply HasPrefix_spec in Hp as [t ->].
  change (sliceFrom 10 ("headAction" +:+ t)) with t.
  destruct (span isReSpace t) as [ws r1] eqn:E1.
  apply span_spec in E1 as (-> & Hws & _).
  destruct (span isOpChar r1) as [op after] eqn:E2.
  apply span_spec in E2 as (-> & Hop & _).
  destruct ws as [|w ws]; [now left|]. destruct op as [|o op]; [now left|].
  right. exists (String w ws), (String o op), after. repeat split; auto; discriminate.
Qed.

Lemma reFindHeadActionOp_sound s :
  reFindHeadActionOp s = []
  \/ exists before ws op after,
       s = before +:+ "headAction" +:+ ws +:+ op +:+ after
       /\ reFindHeadActionOp s = ["headAction" +:+ ws +:+ op; op]
       /\ ws <> "" /\ allBytes isReSpace ws = true
       /\ op <> "" /\ allBytes isOpChar op = true.
Proof.
  unfold reFindHeadActionOp. induction s as [|c s IH].
  - now left.
  - destruct (headActionAt_sound (String c s)) as [E | (ws & op & after & Hs & E & H)].
    + simpl findLeftmost. rewrite E.
      destruct IH as [IH | (before & ws & op & after & Hs & E' & H)]; [now left|].
      right. exists (String c before), ws, op, after. split; [|split; [exact E' | exact H]].
      change (String c s = String c (before +:+ "headAction" +:+ ws +:+ op +:+ after)).
      now rewrite Hs.
    + right. exists "", ws, op, after. split; [exact Hs|]. split; [|exact H].
      rewrite findLeftmost_hit; rewrite E; [reflexivity | discriminate].
Qed.

Lemma reFindHeadActionOp_none s :
  Contains s "headAction" = false -> reFindHeadActionOp s = [].
Proof.
  unfold reFindHeadActionOp. induction s as [|c s IH]; [reflexivity|].
  intros H.
  change (Contains (String c s) "headAction")
    with (HasPrefix (String c s) "headAction" || Contains s "headAction") in H.
  apply orb_false_iff in H as [Hp Hc].
  simpl findLeftmost. unfold headActionAt at 1. rewrite Hp. now apply IH.
Qed.

(** X6. [fileExistsInDepot] always returns to its caller: it runs [p4 fstat]
    once on the path, prints one text, and only when the command failed,
    hands the error of the command back, and leaves the verdict flag alone.
    It answers [false] when the command failed and when the output has no
    [headAction]; when it answers [true] the output holds [headAction],
    white space and an operation that makes a file exist. *)
Theorem fileExistsInDepot_spec (p4fstat : string -> string * option string)
    (depotPath : string) (st : State) :
  exists found,
    fileExistsInDepot p4fstat depotPath st
    = (Next (found, snd (p4fstat depotPath)),
       {| stdout := stdout st ++ match snd (p4fstat depotPath) with
                                 | Some e => [msgLaunchFailed e (fst (p4fstat depotPath))]
                                 | None => []
                                 end;
          fstatCalls := fstatCalls st ++ [depotPath];
          allowCommitToContinue := allowCommitToContinue st |})
    /\ (snd (p4fstat depotPath) <> None -> found = false)
    /\ (Contains (fst (p4fstat depotPath)) "headAction" = false -> found = false)
    /\ (found = true ->
        exists before ws op after,
          fst (p4fstat depotPath) = before +:+ "headAction" +:+ ws +:+ op +:+ after
          /\ ws <> "" /\ allBytes isReSpace ws = true
          /\ op <> "" /\ allBytes isOpChar op = true
          /\ has opsExists op = true).
Proof.
  unfold fileExistsInDepot, bind, launchedFstat, Printf, ret.
  destruct (p4fstat depotPath) as [out [e|]]; cbn [fst snd stdout fstatCalls allowCommitToContinue].
  - exists false. split; [reflexivity|]. split; [reflexivity|]. split; [reflexivity | discriminate].
  - destruct (reFindHeadActionOp_sound out)
      as [E | (before & ws & op & after & Hs & E & Hws & Hwa & Hop & Hoa)].
    + rewrite E. cbn [length Nat.eqb]. exists false. rewrite app_nil_r.
      split; [reflexivity|]. split; [reflexivity|]. split; [reflexivity | discriminate].
    + rewrite E. cbn [length Nat.eqb nth]. destruct (has opsExists op) eqn:Ho; cbn [negb].
      * exists true. rewrite app_nil_r. split; [reflexivity|]. split; [congruence|]. split.
        -- intros Hc. apply reFindHeadActionOp_none in Hc. rewrite Hc in E. discriminate.
        -- intros _. exists before, ws, op, after. repeat split; auto.
      * exists false. rewrite app_nil_r.
        split; [reflexivity|]. split; [reflexivity|]. split; [reflexivity | discriminate].
Qed.

(** ** The loop over the file records *)

Lemma classifyItem_step cfg b item st :
  wellFormed item ->
  classifyItem cfg b item st =
    (Next (classified cfg b (nth 1 (reFileRecordUnpack item) "")
                      (nth 3 (reFileRecordUnpack item) "")), st).
Proof.
  intros Hw. unfold classifyItem, classified, passesFilters.
  unfold wellFormed in Hw. apply Nat.eqb_eq in Hw. rewrite Hw. cbn [negb].
  destruct (Split _) as [itemDirectory itemFilename].
  destruct (Contains itemDirectory "~/"); [reflexivity|].
  destruct (HasPrefix itemFilename "."); [reflexivity|].
  destruct (existsb _ (PathWhitelist cfg)); [|reflexivity].
  destruct (Contains itemDirectory "/Assets/"); [|reflexivity]. cbn [negb andb].
  destruct (has opsAdd _) eqn:Ea; [|reflexivity].
  now rewrite (opsAdd_not_opsDel _ Ea).
Qed.

Lemma classified_sets cfg b fp op :
  (forall p, p ∈ filesBeingAdded (classified cfg b fp op) <->
             p ∈ filesBeingAdded b
             \/ (passesFilters cfg fp = true /\ has opsAdd op = true /\ p = fp))
  /\ (forall q, q ∈ filesBeingAddedIgnoringCase (classified cfg b fp op) <->
                q ∈ filesBeingAddedIgnoringCase b
                \/ (passesFilters cfg fp = true /\ has opsAdd op = true /\ q = ToLower fp))
  /\ (forall p, p ∈ filesBeingDeleted (classified cfg b fp op) <->
                p ∈ filesBeingDeleted b
                \/ (passesFilters cfg fp = true /\ has opsDel op = true /\ p = fp))
  /\ (forall q, q ∈ filesBeingDeletedIgnoringCase (classified cfg b fp op) <->
                q ∈ filesBeingDeletedIgnoringCase b
                \/ (passesFilters cfg fp = true /\ has opsDel op = true /\ q = ToLower fp)).
Proof.
  unfold classified. pose proof (opsAdd_not_opsDel op) as Hd.
  destruct (passesFilters cfg fp); [|repeat split; intros; intuition discriminate].
  destruct (has opsAdd op) eqn:Ea; [rewrite (Hd eq_refl)|destruct (has opsDel op)];
    unfold markForAdd, markForDelete, add; cbn [filesBeingAdded filesBeingAddedIgnoringCase
      filesBeingDeleted filesBeingDeletedIgnoringCase];
    repeat split; intros; rewrite ?elem_of_union, ?elem_of_singleton in *;
    intuition (try discriminate; auto).
Qed.

Lemma classify_sets cfg l :
  forall b0 st b st',
    forEachWith l b0 (classifyItem cfg) st = (Next b, st') ->
    st' = st /\ Forall wellFormed l
    /\ (forall p, p ∈ filesBeingAdded b <->
                  p ∈ filesBeingAdded b0 \/ exists item, In item l /\ recordOf cfg opsAdd item p)
    /\ (forall q, q ∈ filesBeingAddedIgnoringCase b <->
                  q ∈ filesBeingAddedIgnoringCase b0
                  \/ exists item p, In item l /\ recordOf cfg opsAdd item p /\ q = ToLower p)
    /\ (forall p, p ∈ filesBeingDeleted b <->
                  p ∈ filesBeingDeleted b0 \/ exists item, In item l /\ recordOf cfg opsDel item p)
    /\ (forall q, q ∈ filesBeingDeletedIgnoringCase b <->
                  q ∈ filesBeingDeletedIgnoringCase b0
                  \/ exists item p, In item l /\ recordOf cfg opsDel item p /\ q = ToLower p).
Proof.
  induction l as [|item l IH]; intros b0 st b st' H; simpl in H.
  - injection H as <- <-. split; [reflexivity|]. split; [constructor|].
    split; [|split; [|split]]; intros x;
      (split; [now left | intros [H|H]; [exact H|]]).
    + destruct H as (? & [] & _).
    + destruct H as (? & ? & [] & _).
    + destruct H as (? & [] & _).
    + destruct H as (? & ? & [] & _).
  - unfold bind in H. destruct (wellFormed_dec item) as [Hw|Hw].
    + rewrite (classifyItem_step cfg b0 item st Hw) in H.
      set (fp := nth 1 (reFileRecordUnpack item) "") in *.
      set (op := nth 3 (reFileRecordUnpack item) "") in *.
      destruct (IH _ _ _ _ H) as (-> & Hall & HA & HAl & HD & HDl).
      destruct (classified_sets cfg b0 fp op) as (SA & SAl & SD & SDl).
      split; [reflexivity|]. split; [now constructor|].
      assert (Hrec : forall ops p, recordOf cfg ops item p <->
                       passesFilters cfg fp = true /\ has ops op = true /\ p = fp).
      { intros ops p. unfold recordOf. fold fp op. split.
        - intros (_ & <- & Hp & Ho). auto.
        - intros (Hp & Ho & ->). auto. }
      split; [|split; [|split]].
      * intros p. rewrite HA, SA, <- (Hrec opsAdd). split.
        -- intros [[H1|H1]|(x & Hx & H1)]; [now left | right; exists item; split; [now left|exact H1]
                                          | right; exists x; split; [now right|exact H1]].
        -- intros [H1|(x & [<-|Hx] & H1)]; [left; now left | left; now right | right; now exists x].
      * intros q. rewrite HAl, SAl. split.
        -- intros [[H1|(Hp & Ho & ->)]|(x & p & Hx & H1 & ->)].
           ++ now left.
           ++ right. exists item, fp. split; [now left|]. split; [now apply Hrec | reflexivity].
           ++ right. exists x, p. split; [now right | now split].
        -- intros [H1|(x & p & [<-|Hx] & H1 & ->)].
           ++ left. now left.
           ++ left. right. apply Hrec in H1 as (Hp & Ho & ->). auto.
           ++ right. now exists x, p.
      * intros p. rewrite HD, SD, <- (Hrec opsDel). split.
        -- intros [[H1|H1]|(x & Hx & H1)]; [now left | right; exists item; split; [now left|exact H1]
                                          | right; exists x; split; [now right|exact H1]].
        -- intros [H1|(x & [<-|Hx] & H1)]; [left; now left | left; now right | right; now exists x].
      * intros q. rewrite HDl, SDl. split.
        -- intros [[H1|(Hp & Ho & ->)]|(x & p & Hx & H1 & ->)].
           ++ now left.
           ++ right. exists item, fp. split; [now left|]. split; [now apply Hrec | reflexivity].
           ++ right. exists x, p. split; [now right | now split].
        -- intros [H1|(x & p & [<-|Hx] & H1 & ->)].
           ++ left. now left.
           ++ left. right. apply Hrec in H1 as (Hp & Ho & ->). auto.
           ++ right. now exists x, p.
    + rewrite (classifyItem_malformed cfg b0 item st Hw) in H. discriminate.
Qed.

Lemma classify_from_noFiles cfg l st0 b st :
  forEachWith l noFiles (classifyItem cfg) st0 = (Next b, st) ->
  st = st0 /\ Forall wellFormed l
  /\ (forall p, p ∈ filesBeingAdded b <-> exists item, In item l /\ recordOf cfg opsAdd item p)
  /\ (forall p, p ∈ filesBeingDeleted b <-> exists item, In item l /\ recordOf cfg opsDel item p)
  /\ (forall q, q ∈ filesBeingAddedIgnoringCase b <->
                exists p, p ∈ filesBeingAdded b /\ q = ToLower p)
  /\ (forall q, q ∈ filesBeingDeletedIgnoringCase b <->
                exists p, p ∈ filesBeingDeleted b /\ q = ToLower p).
Proof.
  intros H. apply classify_sets in H as (-> & Hall & HA & HAl & HD & HDl).
  assert (HA' : forall p, p ∈ filesBeingAdded b <->
                          exists item, In item l /\ recordOf cfg opsAdd item p).
  { intros p. rewrite HA. cbn [filesBeingAdded noFiles]. split; [|now right].
    intros [H|H]; [now apply not_elem_of_empty in H | exact H]. }
  assert (HD' : forall p, p ∈ filesBeingDeleted b <->
                          exists item, In item l /\ recordOf cfg opsDel item p).
  { intros p. rewrite HD. cbn [filesBeingDeleted noFiles]. split; [|now right].
    intros [H|H]; [now apply not_elem_of_empty in H | exact H]. }
  split; [reflexivity|]. split; [exact Hall|]. split; [exact HA'|]. split; [exact HD'|]. split.
  - intros q. rewrite HAl. cbn [filesBeingAddedIgnoringCase noFiles]. split.
    + intros [H|(item & p & Hin & Hr & ->)]; [now apply not_elem_of_empty in H|].
      exists p. split; [|reflexivity]. apply HA'. now exists item.
    + intros (p & Hp & ->). apply HA' in Hp as (item & Hin & Hr). right. now exists item, p.
  - intros q. rewrite HDl. cbn [filesBeingDeletedIgnoringCase noFiles]. split.
    + intros [H|(item & p & Hin & Hr & ->)]; [now apply not_elem_of_empty in H|].
      exists p. split; [|reflexivity]. apply HD'. now exists item.
    + intros (p & Hp & ->). apply HD' in Hp as (item & Hin & Hr). right. now exists item, p.
Qed.

Lemma classify_mirrored cfg l st0 b st :
  forEachWith l noFiles (classifyItem cfg) st0 = (Next b, st) -> mirrored b.
Proof.
  intros H. apply classify_from_noFiles in H as (_ & _ & _ & _ & HAl & HDl).
  split; intros p Hp; [apply HAl | apply HDl]; now exists p.
Qed.


(** ** How many lookups a run makes *)

Lemma size_add_le (s : stringSet) x : (size (add s x) <= S (size s))%nat.
Proof.
  unfold add. rewrite size_union_alt, size_singleton.
  apply le_n_S, subseteq_size. intros y Hy. now apply elem_of_difference in Hy as [Hy _].
Qed.

Lemma classified_size cfg b fp op :
  (size (filesBeingAdded (classified cfg b fp op))
   + size (filesBeingDeleted (classified cfg b fp op))
   <= S (size (filesBeingAdded b) + size (filesBeingDeleted b)))%nat.
Proof.
  unfold classified.
  destruct (passesFilters cfg fp); [|lia].
  destruct (has opsAdd op); [|destruct (has opsDel op); [|lia]];
    cbn [markForAdd markForDelete filesBeingAdded filesBeingDeleted].
  - pose proof (size_add_le (filesBeingAdded b) fp). lia.
  - pose proof (size_add_le (filesBeingDeleted b) fp). lia.
Qed.

Lemma classify_size cfg l :
  forall b0 st b st',
    forEachWith l b0 (classifyItem cfg) st = (Next b, st') ->
    (size (filesBeingAdded b) + size (filesBeingDeleted b)
     <= size (filesBeingAdded b0) + size (filesBeingDeleted b0) + length l)%nat.
Proof.
  induction l as [|item l IH]; intros b0 st b st' H; simpl in H.
  - injection H as <- <-. simpl. lia.
  - unfold bind in H. destruct (wellFormed_dec item) as [Hw|Hw].
    + rewrite (classifyItem_step cfg b0 item st Hw) in H. apply IH in H.
      pose proof (classified_size cfg b0 (nth 1 (reFileRecordUnpack item) "")
                    (nth 3 (reFileRecordUnpack item) "")).
      simpl. lia.
    + rewrite (classifyItem_malformed cfg b0 item st Hw) in H. discriminate.
Qed.

Lemma shape_asks_once p4fstat r :
  ItemShape p4fstat r -> (length (fstatCalls (snd r)) <= 1)%nat.
Proof.
  intros [|path reported violation bad _]; [simpl; lia|].
  rewrite depotLookup_asks. simpl. lia.
Qed.

Lemma effects_asks p4fstat {A} (body : A -> M unit) l :
  (forall x, ItemShape p4fstat (body x start)) ->
  (length (fstatCalls (effects body l)) <= length l)%nat.
Proof.
  intros Hs. induction l as [|x l IH]; simpl; [lia|].
  rewrite List.length_app. pose proof (shape_asks_once p4fstat _ (Hs x)). lia.
Qed.

Lemma LoopEnd_asks_bound p4fstat {A} (body : A -> M unit) l r :
  (forall x, ItemShape p4fstat (body x start)) ->
  LoopEnd body l r -> (length (fstatCalls (snd r)) <= length l)%nat.
Proof.
  intros Hs [Hall | l1 x l2 c -> Hall Hx]; simpl.
  - now apply (effects_asks p4fstat).
  - rewrite !List.length_app. simpl.
    pose proof (effects_asks p4fstat body l1 Hs).
    pose proof (shape_asks_once p4fstat _ (Hs x)). lia.
Qed.

Section Bound.

Variable AppConfig : tomlConfig.
Variable p4fstat : string -> string * option string.
Variable rangeOrder : stringSet -> list string.
Hypothesis rangeOrder_lists : forall s, Permutation (rangeOrder s) (elements s).

Lemma length_rangeOrder s : length (rangeOrder s) = size s.
Proof. rewrite (Permutation_length (rangeOrder_lists s)). reflexivity. Qed.

Lemma pairingChecks_asks_bound b :
  (length (fstatCalls (snd (pairingChecks p4fstat rangeOrder b start)))
   <= size (filesBeingAdded b) + size (filesBeingDeleted b))%nat.
Proof.
  rewrite pairingChecks_cases.
  pose proof (LoopEnd_asks_bound p4fstat _ _ _ (checkAdded_shape p4fstat b)
                (forEach_start (checkAdded p4fstat b) (rangeOrder (filesBeingAdded b))
                   (framed_checkAdded p4fstat b))) as H1.
  pose proof (LoopEnd_asks_bound p4fstat _ _ _ (checkDeleted_shape p4fstat b)
                (forEach_start (checkDeleted p4fstat b) (rangeOrder (filesBeingDeleted b))
                   (framed_checkDeleted p4fstat b))) as H2.
  rewrite length_rangeOrder in H1, H2.
  fold (addPass p4fstat rangeOrder b) in H1. fold (deletePass p4fstat rangeOrder b) in H2.
  destruct (addPass p4fstat rangeOrder b start) as [[[]|c1] e1]; cbn [snd] in *; [|lia].
  destruct (deletePass p4fstat rangeOrder b start) as [[[]|c2] e2]; cbn [snd] in *.
  - destruct (allowCommitToContinue (extend e1 e2)); simpl;
      rewrite ?List.length_app; simpl; lia.
  - simpl. rewrite List.length_app. lia.
Qed.

(** X8. A run asks the depot at most once per file record of the report. *)
Theorem one_lookup_per_record (changelist : Z) (p4outString : string) :
  (length (fstatCalls (snd (app AppConfig p4fstat rangeOrder changelist p4outString)))
   <= length (p4infoOf p4outString))%nat.
Proof.
  unfold app. cbv zeta. rewrite appBody_cases. cbn [snd].
  repeat match goal with |- context [if ?c then _ else _] => destruct c end;
    try (simpl; lia).
  destruct (forEachWith (p4infoOf p4outString) noFiles (classifyItem AppConfig) start)
    as [[b|c] st] eqn:E.
  - pose proof (classify_size _ _ _ _ _ _ E) as Hs.
    apply classify_sets in E as (-> & _).
    pose proof (pairingChecks_asks_bound b) as Hb.
    cbn [filesBeingAdded filesBeingDeleted noFiles] in Hs. rewrite !size_empty in Hs. lia.
  - destruct (classify_cases AppConfig (p4infoOf p4outString) noFiles start)
      as [[_ [b' Hb']] | (l1 & item & l2 & _ & _ & _ & Hr)]; rewrite E in *; [discriminate|].
    injection Hr as -> ->. simpl. lia.
Qed.

End Bound.

(** ** More about the two passes *)

Section MorePasses.

Variable p4fstat : string -> string * option string.
Variable rangeOrder : stringSet -> list string.
Hypothesis rangeOrder_lists : forall s, Permutation (rangeOrder s) (elements s).


(** X10. Pairing ignores case: with sets as the classification builds them,
    an asset and a metadata file are a pair as soon as the lower-cased name
    of the metadata file is the lower-cased name of the asset followed by
    [.meta]; the add pass prints no violation for either of them, and the
    delete pass none for the asset. *)
Theorem case_insensitive_pairing (b : Buckets) (p q : string) (st : State) :
  mirrored b ->
  (q ∈ filesBeingAdded b -> ToLower q = ToLower (p +:+ ".meta") ->
     ~ In (msgMissingMeta p) (printed (addPass p4fstat rangeOrder b) st))
  /\ (p ∈ filesBeingAdded b -> ToLower p = ToLower q ->
     ~ In (msgMissingAsset (q +:+ ".meta")) (printed (addPass p4fstat rangeOrder b) st))
  /\ (q ∈ filesBeingDeleted b -> ToLower q = ToLower (p +:+ ".meta") ->
     ~ In (msgOrphanedMeta p) (printed (deletePass p4fstat rangeOrder b) st)).
Proof.
  intros [Ma Md].
  split; [|split].
  - intros Hq Hlow H.
    destruct (addPass_end p4fstat rangeOrder b st) as (r & Hend & _ & Hpr & _).
    rewrite Hpr in H. destruct (LoopEnd_prints _ _ _ _ Hend H) as (x & _ & Hx).
    apply checkAdded_missingMeta in Hx as (_ & _ & _ & Hn & _).
    apply Hn. rewrite <- Hlow. now apply Ma.
  - intros Hp Hlow H.
    destruct (addPass_end p4fstat rangeOrder b st) as (r & Hend & _ & Hpr & _).
    rewrite Hpr in H. destruct (LoopEnd_prints _ _ _ _ Hend H) as (x & _ & Hx).
    apply checkAdded_missingAsset in Hx as (_ & base & Hb & _ & _ & Hn & _).
    apply app_cancel_r in Hb as <-.
    apply Hn. rewrite <- Hlow. now apply Ma.
  - intros Hq Hlow H.
    destruct (deletePass_end p4fstat rangeOrder b st) as (r & Hend & _ & Hpr & _).
    rewrite Hpr in H. destruct (LoopEnd_prints _ _ _ _ Hend H) as (x & _ & Hx).
    apply checkDeleted_orphanedMeta in Hx as (_ & _ & _ & Hn & _).
    apply Hn. rewrite <- Hlow. now apply Md.
Qed.

Lemma checkAdded_asks_unpaired b x path :
  In path (fstatCalls (snd (checkAdded p4fstat b x start))) ->
  (path ∉ filesBeingAdded b) /\ (ToLower path ∉ filesBeingAddedIgnoringCase b)
  /\ (path = x +:+ ".meta" \/ x = path +:+ ".meta").
Proof.
  destruct (endsIn_dec x) as [[base ->]|Hx].
  - rewrite checkAdded_meta.
    destruct (String.eqb (Ext base) ""); [intros []|].
    destruct (_ || _) eqn:E; [intros []|].
    apply has_either_false in E as [E1 E2].
    rewrite depotLookup_asks. intros [<-|[]]. auto.
  - rewrite checkAdded_asset by assumption.
    destruct (_ || _) eqn:E; [intros []|].
    apply has_either_false in E as [E1 E2].
    rewrite depotLookup_asks. intros [<-|[]]. auto.
Qed.

Lemma checkDeleted_asks_unpaired b x path :
  In path (fstatCalls (snd (checkDeleted p4fstat b x start))) ->
  (path ∉ filesBeingDeleted b) /\ (ToLower path ∉ filesBeingDeletedIgnoringCase b)
  /\ path = x +:+ ".meta".
Proof.
  destruct (endsIn_dec x) as [[base ->]|Hx].
  - rewrite checkDeleted_meta. intros [].
  - rewrite checkDeleted_asset by assumption.
    destruct (_ || _) eqn:E; [intros []|].
    apply has_either_false in E as [E1 E2].
    rewrite depotLookup_asks. intros [<-|[]]. auto.
Qed.

(** X11. The passes ask the depot about a path only when the path is in neither
    set of the pass and is the partner of a path of the pass: the metadata
    of an added or deleted asset, or the asset of an added metadata file. *)
Theorem lookups_only_for_missing_partners (b : Buckets) (st : State) (path : string) :
  (In path (asked (addPass p4fstat rangeOrder b) st) ->
     (path ∉ filesBeingAdded b) /\ (ToLower path ∉ filesBeingAddedIgnoringCase b)
     /\ exists x, x ∈ filesBeingAdded b /\ (path = x +:+ ".meta" \/ x = path +:+ ".meta"))
  /\ (In path (asked (deletePass p4fstat rangeOrder b) st) ->
     (path ∉ filesBeingDeleted b) /\ (ToLower path ∉ filesBeingDeletedIgnoringCase b)
     /\ exists x, x ∈ filesBeingDeleted b /\ path = x +:+ ".meta").
Proof.
  split; intros H.
  - destruct (addPass_end p4fstat rangeOrder b st) as (r & Hend & _ & _ & Hask).
    rewrite Hask in H. destruct (LoopEnd_asks _ _ _ _ Hend H) as (x & Hin & Hx).
    apply checkAdded_asks_unpaired in Hx as (H1 & H2 & H3).
    split; [exact H1 | split; [exact H2|]]. exists x. split; [|exact H3].
    now apply (In_rangeOrder rangeOrder rangeOrder_lists).
  - destruct (deletePass_end p4fstat rangeOrder b st) as (r & Hend & _ & _ & Hask).
    rewrite Hask in H. destruct (LoopEnd_asks _ _ _ _ Hend H) as (x & Hin & Hx).
    apply checkDeleted_asks_unpaired in Hx as (H1 & H2 & H3).
    split; [exact H1 | split; [exact H2|]]. exists x. split; [|exact H3].
    now apply (In_rangeOrder rangeOrder rangeOrder_lists).
Qed.

End MorePasses.

(** ** What each exit code goes with *)

Section Outcomes.

Variable AppConfig : tomlConfig.
Variable p4fstat : string -> string * option string.
Variable rangeOrder : stringSet -> list string.

(** An item that goes on prints violation texts only. *)
Lemma shape_Next_texts r :
  ItemShape p4fstat r -> fst r = Next tt -> Forall isViolation (stdout (snd r)).
Proof.
  intros [|path reported violation bad Hv] Hn; [constructor|].
  unfold depotLookup in *. destruct (fstatAnswer p4fstat path) as [found [e|]]; [discriminate|].
  destruct (Bool.eqb found bad); repeat constructor. exact Hv.
Qed.

Lemma effects_texts {A} (body : A -> M unit) l :
  (forall x, ItemShape p4fstat (body x start)) ->
  (forall x, In x l -> fst (body x start) = Next tt) ->
  Forall isViolation (stdout (effects body l)).
Proof.
  intros Hs Hn. induction l as [|x l IH]; simpl; [constructor|].
  apply Forall_app. split.
  - apply shape_Next_texts; [apply Hs | apply Hn; now left].
  - apply IH. intros y Hy. apply Hn. now right.
Qed.

Lemma LoopEnd_done_texts {A} (body : A -> M unit) l e :
  (forall x, ItemShape p4fstat (body x start)) ->
  LoopEnd body l (Next tt, e) -> Forall isViolation (stdout e).
Proof.
  intros Hs H. inversion H as [Hall Heq|]; subst. now apply effects_texts.
Qed.

Lemma LoopEnd_done_allow {A} (body : A -> M unit) l e :
  (forall x, ItemShape p4fstat (body x start)) ->
  LoopEnd body l (Next tt, e) -> allowCommitToContinue e = true -> stdout e = [].
Proof.
  intros Hs H Ha. pose proof (LoopEnd_done_texts body l e Hs H) as Hv.
  inversion H as [Hall Heq|]; subst.
  destruct (stdout (effects body l)) as [|text rest] eqn:E; [reflexivity|].
  assert (Hf : allowCommitToContinue (effects body l) = false).
  { apply (effects_allow p4fstat body l Hs). exists text. rewrite E. split; [now left|].
    now inversion Hv. }
  rewrite Hf in Ha. discriminate.
Qed.

Lemma LoopEnd_done_blocked {A} (body : A -> M unit) l e :
  (forall x, ItemShape p4fstat (body x start)) ->
  LoopEnd body l (Next tt, e) -> allowCommitToContinue e = false -> stdout e <> [].
Proof.
  intros Hs H Ha. inversion H as [Hall Heq|]; subst.
  apply (effects_allow p4fstat body l Hs) in Ha as (text & Hin & _).
  intros E. rewrite E in Hin. destruct Hin.
Qed.

(** The end of a run whose records were all parsed. *)
Lemma pairingChecks_texts b :
  let r := pairingChecks p4fstat rangeOrder b start in
  (fst r = Next p4ExitSuccess /\ stdout (snd r) = [msgSuccess])
  \/ (fst r = Next p4ExitProblems /\ stdout (snd r) <> []
      /\ Forall isViolation (stdout (snd r)))
  \/ (fst r = Return p4ExitErrorException /\ stoppedAtFailure p4fstat (snd r)).
Proof.
  cbv zeta.
  destruct (pairingChecks_lookups p4fstat rangeOrder b) as [(c & Hc & _) | H];
    [|right; right; exact H].
  revert Hc. rewrite pairingChecks_cases.
  pose proof (forEach_start (checkAdded p4fstat b) (rangeOrder (filesBeingAdded b))
                (framed_checkAdded p4fstat b)) as H1.
  pose proof (forEach_start (checkDeleted p4fstat b) (rangeOrder (filesBeingDeleted b))
                (framed_checkDeleted p4fstat b)) as H2.
  fold (addPass p4fstat rangeOrder b) in H1. fold (deletePass p4fstat rangeOrder b) in H2.
  destruct (addPass p4fstat rangeOrder b start) as [[[]|c1] e1]; [|discriminate].
  destruct (deletePass p4fstat rangeOrder b start) as [[[]|c2] e2]; [|discriminate].
  pose proof (LoopEnd_done_texts _ _ _ (checkAdded_shape p4fstat b) H1) as V1.
  pose proof (LoopEnd_done_texts _ _ _ (checkDeleted_shape p4fstat b) H2) as V2.
  destruct (allowCommitToContinue (extend e1 e2)) eqn:Ea; intros _.
  - left. split; [reflexivity|]. simpl in Ea. apply andb_true_iff in Ea as [Ea1 Ea2].
    simpl.
    rewrite (LoopEnd_done_allow _ _ _ (checkAdded_shape p4fstat b) H1 Ea1).
    now rewrite (LoopEnd_done_allow _ _ _ (checkDeleted_shape p4fstat b) H2 Ea2).
  - right. left. split; [reflexivity|]. simpl. split; [|apply Forall_app; now split].
    simpl in Ea. apply andb_false_iff in Ea as [Ea|Ea]; intros E;
      apply app_eq_nil in E as [E1 E2].
    + now apply (LoopEnd_done_blocked _ _ _ (checkAdded_shape p4fstat b) H1 Ea).
    + now apply (LoopEnd_done_blocked _ _ _ (checkDeleted_shape p4fstat b) H2 Ea).
Qed.

Lemma not_violation_head text : sliceTo 9 text = "[p4unity]" -> ~ isViolation text.
Proof. intros H Hv. now apply isViolation_head in Hv. Qed.

(** The ways a run can end. *)
Lemma app_outcomes changelist p4outString :
  let r := app AppConfig p4fstat rangeOrder changelist p4outString in
  (exists text, sliceTo 9 text = "[p4unity]" /\ snd r = onlyPrinted text
                /\ (fst r = p4ExitErrorUsage \/ fst r = p4ExitErrorEmpty
                    \/ (fst r = p4ExitBypass /\ text = msgBypass
                        /\ bypassed AppConfig p4outString = true)
                    \/ (fst r = p4ExitErrorException
                        /\ ~ Forall wellFormed (p4infoOf p4outString))))
  \/ (notFound p4outString = false /\ p4textOf p4outString <> []
      /\ p4infoOf p4outString <> [] /\ bypassed AppConfig p4outString = false
      /\ Forall wellFormed (p4infoOf p4outString)
      /\ ((fst r = p4ExitSuccess /\ stdout (snd r) = [msgSuccess])
          \/ (fst r = p4ExitProblems /\ stdout (snd r) <> []
              /\ Forall isViolation (stdout (snd r)))
          \/ (fst r = p4ExitErrorException /\ stoppedAtFailure p4fstat (snd r)))).
Proof.
  cbv zeta. unfold app. cbv zeta. rewrite appBody_cases.
  destruct (notFound p4outString);
    [left; exists (msgNoChangelist changelist); repeat split; auto|].
  destruct (p4textOf p4outString) as [|t0 text] eqn:Et;
    [left; exists (msgEmptyOutput changelist); repeat split; auto|].
  destruct (p4infoOf p4outString) as [|i0 info] eqn:Ei;
    [left; exists (msgNoFileRecords changelist); repeat split; auto|].
  cbn [length Nat.eqb].
  destruct (bypassed AppConfig p4outString) eqn:Eb;
    [left; exists msgBypass; repeat split; auto 6|].
  destruct (classify_cases AppConfig (i0 :: info) noFiles start)
    as [[Hall [b ->]] | (l1 & item & l2 & Heq & _ & Hbad & ->)].
  - right. repeat (split; [first [reflexivity | discriminate | exact Hall]|]).
    destruct (pairingChecks_texts b) as [[Hc H] | [[Hc H] | [Hc H]]];
      unfold exitCodeOf; cbn [fst snd]; rewrite Hc; auto.
  - left. exists (msgParseFailed item). split; [reflexivity|]. split; [reflexivity|].
    right. right. right. split; [reflexivity|]. intros Hall. apply Hbad.
    rewrite Forall_forall in Hall. apply Hall. rewrite Heq.
    apply list_elem_of_In, in_or_app. right. now left.
Qed.

Lemma stoppedAtFailure_last st :
  stoppedAtFailure p4fstat st ->
  exists out text, stdout st = out ++ [text] /\ sliceTo 9 text = "[p4unity]"
                   /\ fstatCalls st <> [].
Proof.
  intros (calls & out & path & reported & e & _ & Hc & _ & Ho).
  exists out, (msgFstatFailed reported e). split; [exact Ho|]. split; [reflexivity|].
  rewrite Hc. now destruct calls.
Qed.

(** X12. Exit code and output of a run agree: something is always printed; the
    code is success exactly when the success text alone was printed, and
    problems exactly when violations alone were printed; a bypass prints the
    bypass text alone; a run with exit status 0 printed no violation; and a
    run with exit status 1 ends with problems or printed last a diagnostic
    of the program itself. *)
Theorem exit_code_and_texts (changelist : Z) (p4outString : string) :
  let r := app AppConfig p4fstat rangeOrder changelist p4outString in
  stdout (snd r) <> []
  /\ (fst r = p4ExitSuccess <-> stdout (snd r) = [msgSuccess])
  /\ (fst r = p4ExitProblems <-> Forall isViolation (stdout (snd r)))
  /\ (fst r = p4ExitBypass -> snd r = onlyPrinted msgBypass)
  /\ (exitStatus (fst r) = 0%Z ->
      forall text, In text (stdout (snd r)) -> ~ isViolation text)
  /\ (exitStatus (fst r) = 1%Z ->
      fst r = p4ExitProblems
      \/ exists out text, stdout (snd r) = out ++ [text] /\ sliceTo 9 text = "[p4unity]").
Proof.
  pose proof (app_outcomes changelist p4outString) as H. cbv zeta in *.
  destruct (app AppConfig p4fstat rangeOrder changelist p4outString) as [code st].
  cbn [fst snd] in *.
  assert (Hhead : forall text, sliceTo 9 text = "[p4unity]" ->
                    text <> msgSuccess /\ ~ isViolation text)
    by (intros text Hh; split; [intros ->; discriminate Hh | now apply not_violation_head]).
  assert (Hlast : forall (P : string -> Prop) out text, Forall P (out ++ [text]) -> P text).
  { intros P out text HP. apply Forall_app in HP as [_ HP]. now apply Forall_inv in HP. }
  destruct H as [(text & Hh & -> & Hc) | (_ & _ & _ & _ & _ & [[-> Hs] | [(-> & Hne & Hv) | [-> Hs]]])].
  - destruct (Hhead text Hh) as [Hts Htv]. cbn [stdout onlyPrinted].
    assert (Hcode : code <> p4ExitSuccess /\ code <> p4ExitProblems
                    /\ (code = p4ExitBypass -> text = msgBypass)).
    { destruct Hc as [-> | [-> | [(-> & -> & _) | [-> _]]]];
        repeat split; try discriminate; auto. }
    destruct Hcode as (Hn1 & Hn2 & Hb).
    split; [discriminate|].
    split; [split; [contradiction | intros E; injection E as E; contradiction]|].
    split; [split; [contradiction | intros E; apply Forall_inv in E; contradiction]|].
    split; [intros E; now rewrite (Hb E)|].
    split; [intros _ t [<-|[]]; exact Htv|].
    intros _. right. now exists [], text.
  - rewrite Hs.
    split; [discriminate|]. split; [tauto|].
    split; [split; [discriminate|]|].
    + intros E. apply Forall_inv in E. now apply msgSuccess_not_violation in E.
    + split; [discriminate|].
      split; [intros _ t [<-|[]]; apply msgSuccess_not_violation | discriminate].
  - split; [exact Hne|].
    split; [split; [discriminate|]|].
    + intros E. rewrite E in Hv. apply Forall_inv in Hv.
      now apply msgSuccess_not_violation in Hv.
    + split; [tauto|]. split; [discriminate|]. split; [discriminate | now left].
  - apply stoppedAtFailure_last in Hs as (out & text & Hs & Hh & _).
    destruct (Hhead text Hh) as [Hts Htv]. rewrite Hs.
    split; [now destruct out|].
    split; [split; [discriminate|]|].
    + intros E. exfalso. apply Hts. apply (Hlast (fun t => t = msgSuccess) out text).
      rewrite E. now constructor.
    + split; [split; [discriminate
                     | intros E; exfalso; apply Htv; now apply (Hlast isViolation out text)]|].
      split; [discriminate|]. split; [discriminate|].
      intros _. right. now exists out, text.
Qed.

(** X13. The depot is asked, and violations are reported, only after the
    report was accepted: the changelist was found, header and file-record
    blocks are not empty, the bypass key-phrase is absent and every record
    is well formed. *)
Theorem checks_need_a_parsed_report (changelist : Z) (p4outString : string) :
  let r := app AppConfig p4fstat rangeOrder changelist p4outString in
  fstatCalls (snd r) <> [] \/ (exists text, In text (stdout (snd r)) /\ isViolation text) ->
  notFound p4outString = false
  /\ p4textOf p4outString <> []
  /\ p4infoOf p4outString <> []
  /\ bypassed AppConfig p4outString = false
  /\ Forall wellFormed (p4infoOf p4outString).
Proof.
  intros r H.
  destruct (app_outcomes changelist p4outString)
    as [(text & Hh & Hs & _) | (H1 & H2 & H3 & H4 & H5 & _)].
  - exfalso. change (snd r = onlyPrinted text) in Hs. rewrite Hs in H.
    destruct H as [H | (t & [<-|[]] & Ht)]; [now apply H|].
    now apply isViolation_head in Ht.
  - repeat split; assumption.
Qed.

End Outcomes.

(** ** From the report to the verdict *)

Section EndToEnd.

Variable AppConfig : tomlConfig.
Variable p4fstat : string -> string * option string.
Variable rangeOrder : stringSet -> list string.
Hypothesis rangeOrder_lists : forall s, Permutation (rangeOrder s) (elements s).









End EndToEnd.

(** ** The whole of [app], and [main] *)

Ltac framed_part :=
  match goal with
  | |- framed (bind _ _) => apply framed_bind; [|intros]
  | |- framed (if ?c then _ else _) => destruct c
  | |- framed (let '(_, _) := ?x in _) => destruct x
  | |- framed _ => solve [auto with framed]
  end.

Section WholeRun.

Variable AppConfig : tomlConfig.
Variable p4fstat : string -> string * option string.
Variable rangeOrder : stringSet -> list string.

Lemma framed_classifyItem b item : framed (classifyItem AppConfig b item).
Proof. unfold classifyItem. cbv zeta. repeat framed_part. Qed.

Lemma framed_forEachWith {A B} (l : list A) (acc : B) (body : B -> A -> M B) :
  (forall b x, framed (body b x)) -> framed (forEachWith l acc body).
Proof.
  intros Hb. revert acc. induction l as [|x l IH]; intros acc; simpl.
  - apply framed_ret.
  - apply framed_bind; auto.
Qed.

(** From a state in which the flag is still set, the end of [app] does
    what it does from [start]. *)
Lemma pairingChecks_after b st :
  allowCommitToContinue st = true ->
  pairingChecks p4fstat rangeOrder b st
  = (fst (pairingChecks p4fstat rangeOrder b start),
     extend st (snd (pairingChecks p4fstat rangeOrder b start))).
Proof.
  intros Ha. unfold pairingChecks, bind.
  assert (Hs : setAllowCommitToContinue true st = (Next tt, st)).
  { destruct st as [o c a]. simpl in Ha. subst a. reflexivity. }
  rewrite Hs. change (setAllowCommitToContinue true start) with (Next tt, start).
  cbv iota beta.
  assert (Hf1 : framed (addPass p4fstat rangeOrder b))
    by (apply framed_forEach, framed_checkAdded).
  assert (Hf2 : framed (deletePass p4fstat rangeOrder b))
    by (apply framed_forEach, framed_checkDeleted).
  rewrite (Hf1 st).
  destruct (addPass p4fstat rangeOrder b start) as [[[]|c] e1]; cbn [fst snd]; [|reflexivity].
  rewrite (Hf2 (extend st e1)), (Hf2 e1).
  destruct (deletePass p4fstat rangeOrder b start) as [[[]|c] e2]; cbn [fst snd];
    [|now rewrite extend_assoc].
  unfold getAllowCommitToContinue.
  replace (allowCommitToContinue (extend (extend st e1) e2))
    with (allowCommitToContinue (extend e1 e2))
    by (simpl; now rewrite Ha).
  destruct (allowCommitToContinue (extend e1 e2)).
  - unfold Printf, ret, extend. simpl. now rewrite <- !app_assoc, Ha.
  - unfold ret. simpl. now rewrite extend_assoc.
Qed.

Lemma appBody_after changelist p4outString st :
  allowCommitToContinue st = true ->
  appBody AppConfig p4fstat rangeOrder changelist p4outString st
  = (fst (appBody AppConfig p4fstat rangeOrder changelist p4outString start),
     extend st (snd (appBody AppConfig p4fstat rangeOrder changelist p4outString start))).
Proof.
  intros Ha. unfold appBody. cbv zeta.
  repeat match goal with
         | |- (if ?c then _ else _) st = _ =>
             destruct c;
             [match goal with
              | |- ?m st = _ => assert (Hf : framed m) by (repeat framed_part); apply Hf
              end|]
         end.
  unfold bind.
  rewrite (framed_forEachWith _ noFiles _ framed_classifyItem st).
  destruct (classify_cases AppConfig
              (filterStringsByType (SplitCRLF p4outString) "info1:") noFiles start)
    as [[_ [b ->]] | (l1 & item & l2 & _ & _ & _ & ->)]; cbn [fst snd].
  - rewrite extend_start_r. now apply pairingChecks_after.
  - reflexivity.
Qed.

(** The exit status can be read off the last text printed. *)
Lemma app_last_text changelist p4outString :
  let r := app AppConfig p4fstat rangeOrder changelist p4outString in
  stdout (snd r) <> []
  /\ (exitStatus (fst r) = 0%Z <->
      last (stdout (snd r)) = Some msgSuccess \/ last (stdout (snd r)) = Some msgBypass).
Proof.
  cbv zeta. unfold app. cbv zeta. rewrite appBody_cases.
  assert (Hone : forall c text,
             sliceTo 11 text <> "[p4unity] b" -> sliceTo 1 text <> "s" ->
             exitStatus c = 1%Z ->
             stdout (onlyPrinted text) <> []
             /\ (exitStatus c = 0%Z <->
                 last (stdout (onlyPrinted text)) = Some msgSuccess
                 \/ last (stdout (onlyPrinted text)) = Some msgBypass)).
  { intros c text Ht Hs Hc. split; [discriminate|]. rewrite Hc. split; [discriminate|].
    intros [H|H]; injection H as H; subst text; exfalso; [now apply Hs | now apply Ht]. }
  destruct (notFound p4outString); [now apply Hone|].
  destruct (length (p4textOf p4outString) =? 0)%nat; [now apply Hone|].
  destruct (length (p4infoOf p4outString) =? 0)%nat; [now apply Hone|].
  destruct (bypassed AppConfig p4outString).
  { split; [discriminate|]. split; [now right | reflexivity]. }
  destruct (classify_cases AppConfig (p4infoOf p4outString) noFiles start)
    as [[_ [b ->]] | (l1 & item & l2 & _ & _ & _ & ->)]; [|now apply Hone].
  destruct (pairingChecks_texts p4fstat rangeOrder b) as [[Hc H] | [(Hc & Hn & H) | [Hc H]]];
    unfold exitCodeOf; cbn [fst snd]; rewrite Hc.
  - rewrite H. split; [discriminate|]. split; [now left | reflexivity].
  - split; [exact Hn|]. split; [discriminate|].
    intros Hl. exfalso.
    assert (Hv : exists text, last (stdout (snd (pairingChecks p4fstat rangeOrder b start)))
                              = Some text /\ isViolation text).
    { revert Hn H. generalize (stdout (snd (pairingChecks p4fstat rangeOrder b start))).
      intros l Hn H. destruct (exists_last Hn) as (l' & x & ->).
      exists x. split; [apply last_snoc|].
      rewrite Forall_forall in H. apply H, list_elem_of_In, in_or_app. right. now left. }
    destruct Hv as (text & Ht & Hv). rewrite Ht in Hl.
    apply isViolation_head in Hv as Hh.
    destruct Hl as [Hl|Hl]; injection Hl as ->.
    + destruct Hv as [p [Hv | [Hv | Hv]]]; discriminate Hv.
    + now apply Hh.
  - destruct H as (calls & out & path & reported & e & _ & _ & _ & Ho).
    rewrite Ho. split; [now destruct out|]. rewrite last_snoc.
    split; [discriminate|]. intros [Hl|Hl]; injection Hl as Hl; discriminate Hl.
Qed.

(** X17. [app] before the report is read: only the first argument counts; with
    no argument, with one that is not a number, or when [p4 describe]
    cannot be launched, the run prints the blank lines and one text, asks
    the depot nothing and ends with the usage code; otherwise it is the run
    on the changelist and the output of the command, with the blank lines
    printed first. *)
Theorem appFromArgs_spec (Atoi : string -> Z + string)
    (p4describe : Z -> string * option string) (argsWithoutProg : list string) :
  let r := appFromArgs AppConfig p4fstat rangeOrder Atoi p4describe argsWithoutProg start in
  let usage text :=
    r = (Return p4ExitErrorUsage,
         {| stdout := [msgBlank; text]; fstatCalls := []; allowCommitToContinue := true |}) in
  match hd_error argsWithoutProg with
  | None => usage msgUsage
  | Some arg0 =>
      match Atoi arg0 with
      | inr err => usage (msgNotANumber arg0 err)
      | inl changelist =>
          match snd (p4describe changelist) with
          | Some err => usage (msgLaunchFailed err (fst (p4describe changelist)))
          | None =>
              let core := app AppConfig p4fstat rangeOrder changelist
                            (fst (p4describe changelist)) in
              exitCodeOf r = fst core
              /\ stdout (snd r) = msgBlank :: stdout (snd core)
              /\ fstatCalls (snd r) = fstatCalls (snd core)
          end
      end
  end.
Proof.
  cbv zeta. unfold appFromArgs, bind.
  change (Printf msgBlank start) with (Next tt, onlyPrinted msgBlank). cbv iota beta.
  destruct argsWithoutProg as [|arg0 rest]; [reflexivity|]. cbn [hd_error].
  destruct (Atoi arg0) as [changelist|err]; [|reflexivity].
  destruct (p4describe changelist) as [p4out [err|]]; cbn [fst snd]; [reflexivity|].
  rewrite appBody_after by reflexivity. unfold app, exitCodeOf. cbn [fst snd].
  repeat split.
Qed.

End WholeRun.

(** What [main] hands to [os.Exit] can be read off the last text printed. *)
Lemma appFromArgs_last_text AppConfig p4fstat rangeOrder Atoi p4describe argsWithoutProg :
  let r := appFromArgs AppConfig p4fstat rangeOrder Atoi p4describe argsWithoutProg start in
  hd_error (stdout (snd r)) = Some msgBlank
  /\ (exitStatus (exitCodeOf r) = 0%Z <->
      last (stdout (snd r)) = Some msgSuccess \/ last (stdout (snd r)) = Some msgBypass).
Proof.
  cbv zeta. unfold appFromArgs, bind.
  change (Printf msgBlank start) with (Next tt, onlyPrinted msgBlank). cbv iota beta.
  assert (Husage : forall text,
             text <> msgSuccess -> text <> msgBypass ->
             let r := (Printf text ;; @exit ExitCode p4ExitErrorUsage)%run
                        (onlyPrinted msgBlank) in
             hd_error (stdout (snd r)) = Some msgBlank
             /\ (exitStatus (exitCodeOf r) = 0%Z <->
                 last (stdout (snd r)) = Some msgSuccess
                 \/ last (stdout (snd r)) = Some msgBypass)).
  { intros text H1 H2. split; [reflexivity|]. split; [discriminate|].
    intros [H|H]; injection H as H; contradiction. }
  destruct argsWithoutProg as [|arg0 rest]; [apply Husage; discriminate|].
  destruct (Atoi arg0) as [changelist|err]; [|apply Husage; discriminate].
  destruct (p4describe changelist) as [p4out [err|]]; [apply Husage; discriminate|].
  rewrite appBody_after by reflexivity.
  destruct (app_last_text AppConfig p4fstat rangeOrder changelist p4out) as [Hn Hl].
  unfold app in Hn, Hl. cbv zeta in Hn, Hl. cbn [fst snd] in *.
  set (core := appBody AppConfig p4fstat rangeOrder changelist p4out start) in *.
  change (stdout (extend (onlyPrinted msgBlank) (snd core)))
    with (msgBlank :: stdout (snd core)).
  split; [reflexivity|]. rewrite Hl.
  destruct (stdout (snd core)) as [|t l]; [contradiction | reflexivity].
Qed.

(** X18. How [main] ends.  When it exits, the configuration was loaded and the
    log, if asked for, was opened, the blank lines were printed first, and
    the exit status is 0 exactly when the last text printed is the success
    text or the bypass text.  Otherwise it panicked loading the
    configuration, or opening the log that the configuration asks for. *)
Theorem main_exit_status (readFile : string -> string + string)
    (decode : string -> tomlConfig + string) (getenv : string -> string)
    (VerboseLogger : option string)
    (p4fstat : tomlConfig -> string -> string * option string)
    (rangeOrder : stringSet -> list string)
    (Atoi : string -> Z + string)
    (p4describe : tomlConfig -> Z -> string * option string)
    (argsWithoutProg : list string) :
  match main readFile decode getenv VerboseLogger p4fstat rangeOrder Atoi p4describe
          argsWithoutProg with
  | Exited exitCode st =>
      (exists AppConfig,
          LoadConfig readFile decode getenv = ConfigLoaded AppConfig
          /\ (VerboseLogs AppConfig = true -> VerboseLogger = None))
      /\ hd_error (stdout st) = Some msgBlank
      /\ (exitStatus exitCode = 0%Z <->
          last (stdout st) = Some msgSuccess \/ last (stdout st) = Some msgBypass)
  | PanickedLoadingConfig how =>
      LoadConfig readFile decode getenv = how
      /\ (forall AppConfig, how <> ConfigLoaded AppConfig)
  | PanickedOpeningLog err =>
      VerboseLogger = Some err
      /\ exists AppConfig,
           LoadConfig readFile decode getenv = ConfigLoaded AppConfig
           /\ VerboseLogs AppConfig = true
  end.
Proof.
  unfold main.
  destruct (LoadConfig readFile decode getenv) as [AppConfig|err|err|err] eqn:E;
    try (split; [reflexivity | discriminate]).
  cbv zeta.
  pose proof (appFromArgs_last_text AppConfig (p4fstat AppConfig) rangeOrder Atoi
                (p4describe AppConfig) argsWithoutProg) as H. cbv zeta in H.
  destruct (VerboseLogs AppConfig) eqn:Ev; [destruct VerboseLogger as [err|]|].
  - split; [reflexivity|]. now exists AppConfig.
  - split; [|exact H]. exists AppConfig. now split.
  - split; [|exact H]. exists AppConfig. split; [reflexivity | congruence].
Qed.

(** ** The configuration overrides *)

Lemma existsb_eqb_In (str : string) (l : list string) :
  existsb (String.eqb str) l = true <-> In str l.
Proof.
  rewrite existsb_exists. split.
  - intros (x & Hx & He). apply String.eqb_eq in He. now subst.
  - intros H. exists str. split; [exact H | apply String.eqb_refl].
Qed.

Lemma ParseBool_error str : snd (ParseBool str) <> None <-> ~ In str boolSpellings.
Proof.
  unfold ParseBool, boolSpellings.
  destruct (existsb (String.eqb str) ["1"; "t"; "T"; "TRUE"; "true"; "True"]) eqn:E1;
    [|destruct (existsb (String.eqb str) ["0"; "f"; "F"; "FALSE"; "false"; "False"]) eqn:E2].
  - apply existsb_eqb_In in E1. simpl in *. split; [intros H; now contradiction H|].
    intros H. exfalso. apply H. tauto.
  - apply existsb_eqb_In in E2. simpl in *. split; [intros H; now contradiction H|].
    intros H. exfalso. apply H. tauto.
  - simpl snd. split; [|discriminate]. intros _ H.
    apply not_true_iff_false in E1, E2. rewrite existsb_eqb_In in E1, E2.
    simpl in *. tauto.
Qed.

Lemma overrideString_idem getenv env v :
  overrideString getenv env (overrideString getenv env v) = overrideString getenv env v.
Proof.
  unfold overrideString. destruct (String.eqb env ""); [reflexivity|].
  now destruct (String.eqb (getenv env) "").
Qed.

Lemma overrideString_empty getenv env v :
  env <> "" ->
  (overrideString getenv env v = "" <-> v = "" /\ getenv env = "").
Proof.
  intros He. unfold overrideString. apply String.eqb_neq in He. rewrite He.
  destruct (String.eqb (getenv env) "") eqn:E.
  - apply String.eqb_eq in E. tauto.
  - apply String.eqb_neq in E. tauto.
Qed.

Lemma overrideBool_idem getenv env v b :
  overrideBool getenv env v = (b, None) -> overrideBool getenv env b = (b, None).
Proof.
  unfold overrideBool. destruct (String.eqb env ""); [reflexivity|].
  destruct (String.eqb (getenv env) ""); [reflexivity|].
  destruct (ParseBool (getenv env)) as [b' [e|]]; [discriminate|].
  intros H. now injection H as ->.
Qed.

(** X19. [checkOverrides] with no variable set changes nothing; applying it a
    second time changes nothing more; when it fails it has changed nothing;
    and it never touches [PathWhitelist]. *)
Theorem checkOverrides_stable (getenv : string -> string) (c : tomlConfig) :
  ((forall name, getenv name = "") -> checkOverrides getenv c = (c, None))
  /\ (snd (checkOverrides getenv c) = None ->
      checkOverrides getenv (fst (checkOverrides getenv c)) = checkOverrides getenv c)
  /\ (snd (checkOverrides getenv c) <> None -> fst (checkOverrides getenv c) = c)
  /\ PathWhitelist (fst (checkOverrides getenv c)) = PathWhitelist c.
Proof.
  split; [|split; [|split]].
  - intros Hno. unfold checkOverrides, overrideBool, overrideString.
    rewrite !Hno. simpl. now destruct c.
  - unfold checkOverrides.
    destruct (overrideBool getenv "P4U_VERBOSE" (VerboseLogs c)) as [b [e|]] eqn:E;
      [discriminate|].
    intros _. cbn [fst VerboseLogs PerforceServer PerforceUser PerforcePass
                     BypassKeyphrase PathWhitelist].
    now rewrite (overrideBool_idem _ _ _ _ E), !overrideString_idem.
  - unfold checkOverrides.
    destruct (overrideBool getenv "P4U_VERBOSE" (VerboseLogs c)) as [b [e|]];
      [reflexivity | intros H; now contradiction H].
  - unfold checkOverrides.
    now destruct (overrideBool getenv "P4U_VERBOSE" (VerboseLogs c)) as [b [e|]].
Qed.

(** X20. [checkOverrides] fails exactly when [P4U_VERBOSE] is set to something
    [strconv.ParseBool] rejects.  Otherwise [P4U_BYPASS], when
    set, replaces the key-phrase of the file and, when unset, leaves it; the
    environment can set but never blank the bypass key-phrase or the
    server; and [VerboseLogs] is the file's value when [P4U_VERBOSE] is
    unset and the parsed [P4U_VERBOSE] when it is set. *)
Theorem checkOverrides_precedence (getenv : string -> string) (c : tomlConfig) :
  (snd (checkOverrides getenv c) <> None <->
   getenv "P4U_VERBOSE" <> "" /\ ~ In (getenv "P4U_VERBOSE") boolSpellings)
  /\ (snd (checkOverrides getenv c) = None ->
      let c' := fst (checkOverrides getenv c) in
      (getenv "P4U_BYPASS" <> "" -> BypassKeyphrase c' = getenv "P4U_BYPASS")
      /\ (getenv "P4U_BYPASS" = "" -> BypassKeyphrase c' = BypassKeyphrase c)
      /\ (BypassKeyphrase c' = "" <-> BypassKeyphrase c = "" /\ getenv "P4U_BYPASS" = "")
      /\ (PerforceServer c' = "" <-> PerforceServer c = "" /\ getenv "P4U_SERVER" = "")
      /\ (getenv "P4U_VERBOSE" = "" -> VerboseLogs c' = VerboseLogs c)
      /\ (getenv "P4U_VERBOSE" <> "" -> ParseBool (getenv "P4U_VERBOSE") = (VerboseLogs c', None))).
Proof.
  unfold checkOverrides, overrideBool. cbn [String.eqb Ascii.eqb Bool.eqb].
  split.
  - destruct (String.eqb (getenv "P4U_VERBOSE") "") eqn:E.
    + apply String.eqb_eq in E. simpl. split; [intros H; now contradiction H | tauto].
    + apply String.eqb_neq in E. rewrite <- ParseBool_error.
      destruct (ParseBool (getenv "P4U_VERBOSE")) as [b [e|]]; simpl; tauto.
  - destruct (String.eqb (getenv "P4U_VERBOSE") "") eqn:E;
      [|destruct (ParseBool (getenv "P4U_VERBOSE")) as [b [e|]] eqn:Ep; [discriminate|]];
      intros _; cbn [fst BypassKeyphrase PerforceServer VerboseLogs].
    + apply String.eqb_eq in E.
      split; [|split; [|split; [|split; [|split]]]].
      * intros H. unfold overrideString. apply String.eqb_neq in H. now rewrite H.
      * intros H. unfold overrideString. now rewrite H.
      * now apply overrideString_empty.
      * now apply overrideString_empty.
      * reflexivity.
      * intros H. contradiction.
    + apply String.eqb_neq in E.
      split; [|split; [|split; [|split; [|split]]]].
      * intros H. unfold overrideString. apply String.eqb_neq in H. now rewrite H.
      * intros H. unfold overrideString. now rewrite H.
      * now apply overrideString_empty.
      * now apply overrideString_empty.
      * intros H. contradiction.
      * reflexivity.
Qed.

(** X21. The four ways [LoadConfig] ends: with the decoded configuration after
    the overrides, when the file was read and decoded and [P4U_VERBOSE] is
    unset or a boolean; in the panic of a file not read; in that of a file
    not decoded; or in that of an override failure, which is a syntax error
    of [ParseBool] on the value of [P4U_VERBOSE]. *)
Theorem LoadConfig_spec (readFile : string -> string + string)
    (decode : string -> tomlConfig + string) (getenv : string -> string) :
  match LoadConfig readFile decode getenv with
  | ConfigLoaded AppConfig =>
      exists cfgBytes decoded,
        readFile "p4unity.toml" = inl cfgBytes /\ decode cfgBytes = inl decoded
        /\ checkOverrides getenv decoded = (AppConfig, None)
        /\ PathWhitelist AppConfig = PathWhitelist decoded
        /\ (In (getenv "P4U_VERBOSE") boolSpellings \/ getenv "P4U_VERBOSE" = "")
  | PanicNotFound err => readFile "p4unity.toml" = inr err
  | PanicDecodeFailure err =>
      exists cfgBytes, readFile "p4unity.toml" = inl cfgBytes /\ decode cfgBytes = inr err
  | PanicOverrideFailure err =>
      err = syntaxError "ParseBool" (getenv "P4U_VERBOSE")
      /\ getenv "P4U_VERBOSE" <> "" /\ ~ In (getenv "P4U_VERBOSE") boolSpellings
      /\ exists cfgBytes decoded,
           readFile "p4unity.toml" = inl cfgBytes /\ decode cfgBytes = inl decoded
  end.
Proof.
  unfold LoadConfig.
  destruct (readFile "p4unity.toml") as [cfgBytes|err]; [|reflexivity].
  destruct (decode cfgBytes) as [decoded|err] eqn:Ed;
    [|exists cfgBytes; split; [reflexivity | exact Ed]].
  unfold checkOverrides, overrideBool. cbn [String.eqb Ascii.eqb Bool.eqb].
  destruct (String.eqb (getenv "P4U_VERBOSE") "") eqn:E.
  - apply String.eqb_eq in E. exists cfgBytes, decoded.
    split; [reflexivity | split; [exact Ed | split; [reflexivity | split; [reflexivity | now right]]]].
  - apply String.eqb_neq in E.
    pose proof (ParseBool_error (getenv "P4U_VERBOSE")) as Hp.
    destruct (ParseBool (getenv "P4U_VERBOSE")) as [b [e|]] eqn:Ep.
    + split; [|split; [exact E | split; [apply Hp; discriminate
                                        | exists cfgBytes, decoded; now split]]].
      unfold ParseBool in Ep.
      repeat match type of Ep with (if ?c then _ else _) = _ => destruct c end;
        try discriminate. now injection Ep as _ <-.
    + exists cfgBytes, decoded.
      split; [reflexivity | split; [exact Ed | split; [reflexivity | split; [reflexivity|]]]].
      left. destruct (in_dec String.string_dec (getenv "P4U_VERBOSE") boolSpellings) as [Hi|Hi];
        [exact Hi|]. apply Hp in Hi. now contradiction Hi.
Qed.

End Unicode.

(** * The theorems at work on sample runs *)

(** ** The properties of the specification *)

Lemma elements_lists (s : stringSet) : Permutation (elements s) (elements s).
Proof. reflexivity. Defined.

Lemma reversed_lists (s : stringSet) : Permutation (reversed s) (elements s).
Proof. unfold reversed. symmetry. apply Permutation_rev. Defined.

(** Scenario A of the specification: asset and metadata added together. *)
Example scenario_A :
  app noUnicode sampleConfig fstatNoSuchFile elements 9148
    (describeOutput (header ++ ["info1: //depot/Game/Assets/a.png#1 add";
                                "info1: //depot/Game/Assets/a.png.meta#1 add"]))
  = (p4ExitSuccess, onlyPrinted msgSuccess).
Proof. vm_compute. reflexivity. Qed.

(** Scenario B: an asset added alone, its metadata not in the depot. *)
Example scenario_B :
  app noUnicode sampleConfig fstatNoSuchFile elements 9148
    (describeOutput (header ++ ["info1: //depot/Game/Assets/a.png#1 add"]))
  = (p4ExitProblems,
     {| stdout := [msgMissingMeta "//depot/Game/Assets/a.png"];
        fstatCalls := ["//depot/Game/Assets/a.png.meta"];
        allowCommitToContinue := false |}).
Proof. vm_compute. reflexivity. Qed.

(** Scenario C: an asset deleted, its metadata still in the depot. *)
Example scenario_C :
  app noUnicode sampleConfig fstatHeadAdd elements 9148
    (describeOutput (header ++ ["info1: //depot/Game/Assets/b.png#2 delete"]))
  = (p4ExitProblems,
     {| stdout := [msgOrphanedMeta "//depot/Game/Assets/b.png"];
        fstatCalls := ["//depot/Game/Assets/b.png.meta"];
        allowCommitToContinue := false |}).
Proof. vm_compute. reflexivity. Qed.

(** Scenario D: the bypass key-phrase in the commit message. *)
Example scenario_D :
  app noUnicode sampleConfig fstatNoSuchFile elements 9148
    (describeOutput (headerWithBypass ++ ["info1: //depot/Game/Assets/a.png#1 add"]))
  = (p4ExitBypass, onlyPrinted msgBypass).
Proof. vm_compute. reflexivity. Qed.

(** Scenario E: a file under a directory whose name ends in a tilde. *)
Example scenario_E :
  app noUnicode sampleConfig fstatNoSuchFile elements 9148
    (describeOutput (header ++ ["info1: //depot/Game/Assets/Docs~/a.png#1 add"]))
  = (p4ExitSuccess, onlyPrinted msgSuccess).
Proof. vm_compute. reflexivity. Qed.

(** Names that differ in case only are paired. *)
Example scenario_case_insensitive :
  app noUnicode sampleConfig fstatNoSuchFile elements 9148
    (describeOutput (header ++ ["info1: //depot/Game/Assets/Foo.PNG#1 add";
                                "info1: //depot/Game/Assets/foo.png.meta#1 add"]))
  = (p4ExitSuccess, onlyPrinted msgSuccess).
Proof. vm_compute. reflexivity. Qed.

(** A metadata file deleted while its asset stays is not flagged. *)
Example deleted_meta_alone :
  app noUnicode sampleConfig fstatHeadAdd elements 9148
    (describeOutput (header ++ ["info1: //depot/Game/Assets/b.png.meta#2 delete"]))
  = (p4ExitSuccess, onlyPrinted msgSuccess).
Proof. vm_compute. reflexivity. Qed.

(** Names that differ in the case of a letter beyond ASCII are paired as
    well: no violation, no lookup. *)
Example scenario_case_insensitive_unicode :
  app mapToLowerEAcute sampleConfig fstatNoSuchFile elements 9148
    (describeOutput
       (header ++ ["info1: //depot/Game/Assets/" +:+ upperEAcute +:+ ".png#1 add";
                   "info1: //depot/Game/Assets/" +:+ lowerEAcute +:+ ".png.meta#1 add"]))
  = (p4ExitSuccess, onlyPrinted msgSuccess).
Proof. vm_compute. reflexivity. Qed.

(** The same names in a delete: the metadata is in the changelist, the depot
    is not asked although it would answer that the file is there. *)
Example scenario_delete_unicode :
  app mapToLowerEAcute sampleConfig fstatHeadAdd elements 9148
    (describeOutput
       (header ++ ["info1: //depot/Game/Assets/" +:+ upperEAcute +:+ ".png#2 delete";
                   "info1: //depot/Game/Assets/" +:+ lowerEAcute +:+ ".png.meta#2 delete"]))
  = (p4ExitSuccess, onlyPrinted msgSuccess).
Proof. vm_compute. reflexivity. Qed.

(** White space beyond ASCII is trimmed from the lines of the report: a
    header line or a file record that holds a no-break space only is no
    line at all, and a no-break space around a record is not part of it. *)
Example scenario_nbsp_header :
  app noUnicode noWhitelistConfig fstatNoSuchFile elements 9148
    (describeOutput ["text: " +:+ nbsp; "info1: //depot/Game/Assets/a.png#1 add"])
  = (p4ExitErrorEmpty, onlyPrinted (msgEmptyOutput 9148)).
Proof. vm_compute. reflexivity. Qed.

Example scenario_nbsp_record :
  app noUnicode sampleConfig fstatNoSuchFile elements 9148
    (describeOutput (headerWithBypass ++ ["info1: " +:+ nbsp]))
  = (p4ExitErrorEmpty, onlyPrinted (msgNoFileRecords 9148)).
Proof. vm_compute. reflexivity. Qed.

Example scenario_nbsp_around_record :
  app noUnicode sampleConfig fstatNoSuchFile elements 9148
    (describeOutput
       (header ++ ["info1: " +:+ nbsp +:+ "//depot/Game/Assets/a.png#1 add" +:+ nbsp]))
  = (p4ExitProblems,
     {| stdout := [msgMissingMeta "//depot/Game/Assets/a.png"];
        fstatCalls := ["//depot/Game/Assets/a.png.meta"];
        allowCommitToContinue := false |}).
Proof. vm_compute. reflexivity. Qed.

Example filterStringsByType_nbsp :
  filterStringsByType ["text:" +:+ nbsp +:+ "n" +:+ nbsp; "text: " +:+ nbsp] "text:" = ["n"].
Proof. reflexivity. Qed.

(** With an empty key-phrase and a second header line that holds a no-break
    space only, the header block has one line: nothing is bypassed. *)
Example scenario_nbsp_second_line :
  app noUnicode emptyKeyphraseConfig fstatNoSuchFile elements 9148
    (describeOutput ["text: Change 9148"; "text: " +:+ nbsp;
                     "info1: //depot/Game/Assets/a.png#1 add"])
  = (p4ExitProblems,
     {| stdout := [msgMissingMeta "//depot/Game/Assets/a.png"];
        fstatCalls := ["//depot/Game/Assets/a.png.meta"];
        allowCommitToContinue := false |}).
Proof. vm_compute. reflexivity. Qed.

(** C1, the claim as written fails: the key-phrase is in the second header
    line, the file-record block is empty, and the run is a hard error, not
    a bypass. *)
Lemma bypass_does_not_precede_empty_checks :
  let report := describeOutput headerWithBypass in
  bypassed sampleConfig report = true
  /\ p4infoOf report = []
  /\ app noUnicode sampleConfig fstatNoSuchFile elements 9148 report
     = (p4ExitErrorEmpty, onlyPrinted (msgNoFileRecords 9148))
  /\ fst (app noUnicode sampleConfig fstatNoSuchFile elements 9148 report) <> p4ExitBypass
  /\ exitStatus (fst (app noUnicode sampleConfig fstatNoSuchFile elements 9148 report)) <> 0%Z.
Proof.
  cbv zeta. repeat split; try (vm_compute; reflexivity); vm_compute; discriminate.
Qed.

Lemma bypass_after_empty_checks_witness :
  let report := describeOutput (headerWithBypass ++ ["info1: //depot/Game/Assets/a.png#1 add"]) in
  notFound report = false
  /\ bypassed sampleConfig report = true
  /\ app noUnicode sampleConfig fstatNoSuchFile elements 9148 report
     = (p4ExitBypass, onlyPrinted msgBypass).
Proof.
  intros report.
  assert (H1 : notFound report = false) by (vm_compute; reflexivity).
  assert (H2 : bypassed sampleConfig report = true) by (vm_compute; reflexivity).
  assert (H3 : p4infoOf report <> []) by (vm_compute; discriminate).
  split; [exact H1 | split; [exact H2|]].
  exact (proj1 (proj1 (bypass_after_empty_checks noUnicode sampleConfig fstatNoSuchFile elements
                         9148 report H1 H2) H3)).
Defined.

Lemma add_pass_pairing_complete_witness :
  let b := markForAdd noUnicode noFiles "//depot/Game/Assets/a.png" in
  "//depot/Game/Assets/a.png" ∈ filesBeingAdded b
  /\ ~ endsIn "//depot/Game/Assets/a.png" ".meta"
  /\ In (msgMissingMeta "//depot/Game/Assets/a.png")
        (printed (addPass noUnicode fstatNoSuchFile elements b) start).
Proof.
  intros b.
  assert (H1 : "//depot/Game/Assets/a.png" ∈ filesBeingAdded b)
    by (apply has_true; vm_compute; reflexivity).
  assert (H2 : ~ endsIn "//depot/Game/Assets/a.png" ".meta")
    by (intros H; apply Ext_meta_iff in H; vm_compute in H; discriminate H).
  split; [exact H1 | split; [exact H2|]].
  destruct (proj1 (add_pass_pairing_complete noUnicode fstatNoSuchFile elements elements_lists)
              b "//depot/Game/Assets/a.png" start H1 H2) as (_ & _ & H3).
  apply H3; [vm_compute; reflexivity|].
  split; [apply has_false; vm_compute; reflexivity|].
  split; [apply has_false; vm_compute; reflexivity|].
  vm_compute. reflexivity.
Defined.

Lemma delete_pass_orphaned_meta_witness :
  let b := markForDelete noUnicode noFiles "//depot/Game/Assets/b.png" in
  "//depot/Game/Assets/b.png" ∈ filesBeingDeleted b
  /\ ~ endsIn "//depot/Game/Assets/b.png" ".meta"
  /\ In (msgOrphanedMeta "//depot/Game/Assets/b.png")
        (printed (deletePass noUnicode fstatHeadAdd elements b) start).
Proof.
  intros b.
  assert (H1 : "//depot/Game/Assets/b.png" ∈ filesBeingDeleted b)
    by (apply has_true; vm_compute; reflexivity).
  assert (H2 : ~ endsIn "//depot/Game/Assets/b.png" ".meta")
    by (intros H; apply Ext_meta_iff in H; vm_compute in H; discriminate H).
  split; [exact H1 | split; [exact H2|]].
  destruct (delete_pass_orphaned_meta noUnicode fstatHeadAdd elements elements_lists
              b "//depot/Game/Assets/b.png" start H1 H2) as (_ & _ & H3 & _).
  apply H3; [vm_compute; reflexivity|].
  split; [apply has_false; vm_compute; reflexivity|].
  split; [apply has_false; vm_compute; reflexivity|].
  vm_compute. reflexivity.
Defined.

Lemma directory_meta_exempt_witness :
  let b := markForAdd noUnicode noFiles "//depot/Game/Assets/Native.meta" in
  Ext "//depot/Game/Assets/Native" = ""
  /\ checkAdded noUnicode fstatNoSuchFile b "//depot/Game/Assets/Native.meta" start = (Next tt, start)
  /\ ~ In "//depot/Game/Assets/Native" (asked (addPass noUnicode fstatNoSuchFile elements b) start).
Proof.
  intros b.
  assert (H1 : ("//depot/Game/Assets/Native" +:+ ".meta") ∈ filesBeingAdded b)
    by (apply has_true; vm_compute; reflexivity).
  assert (H2 : Ext "//depot/Game/Assets/Native" = "") by reflexivity.
  destruct (directory_meta_exempt noUnicode fstatNoSuchFile elements
              b "//depot/Game/Assets/Native" start H1 H2) as (H3 & _ & _ & H4 & _).
  split; [exact H2 | split; [exact H3 | exact H4]].
Defined.

Lemma deleted_meta_never_flagged_witness :
  let b := markForDelete noUnicode noFiles "//depot/Game/Assets/b.png.meta" in
  endsIn "//depot/Game/Assets/b.png.meta" ".meta"
  /\ checkDeleted noUnicode fstatHeadAdd b "//depot/Game/Assets/b.png.meta" start = (Next tt, start)
  /\ ~ In "//depot/Game/Assets/b.png.meta" (asked (deletePass noUnicode fstatHeadAdd elements b) start).
Proof.
  intros b.
  assert (H1 : "//depot/Game/Assets/b.png.meta" ∈ filesBeingDeleted b)
    by (apply has_true; vm_compute; reflexivity).
  assert (H2 : endsIn "//depot/Game/Assets/b.png.meta" ".meta")
    by (exists "//depot/Game/Assets/b.png"; reflexivity).
  destruct (deleted_meta_never_flagged noUnicode fstatHeadAdd elements
              b "//depot/Game/Assets/b.png.meta" start H1 H2) as (H3 & _ & H4).
  split; [exact H2 | split; [exact H3 | exact H4]].
Defined.

(** C6, the claim as written fails: the only file record has no revision,
    yet the key-phrase is in the header and the run ends as a bypass. *)
Lemma malformed_record_under_bypass :
  let report := describeOutput (headerWithBypass ++ ["info1: //depot/Game/Assets/a.png add"]) in
  p4infoOf report = ["//depot/Game/Assets/a.png add"]
  /\ reFileRecordUnpack "//depot/Game/Assets/a.png add" = []
  /\ ~ wellFormed "//depot/Game/Assets/a.png add"
  /\ app noUnicode sampleConfig fstatNoSuchFile elements 9148 report
     = (p4ExitBypass, onlyPrinted msgBypass)
  /\ fst (app noUnicode sampleConfig fstatNoSuchFile elements 9148 report) <> p4ExitErrorException.
Proof.
  cbv zeta. repeat split; try (vm_compute; reflexivity); vm_compute; discriminate.
Qed.

Lemma malformed_record_is_fatal_witness :
  let report := describeOutput (header ++ ["info1: //depot/Game/Assets/a.png#1 add";
                                          "info1: //depot/Game/Assets/b.png add"]) in
  exists l1 item l2,
    p4infoOf report = l1 ++ item :: l2
    /\ Forall wellFormed l1 /\ ~ wellFormed item
    /\ app noUnicode sampleConfig fstatNoSuchFile elements 9148 report
       = (p4ExitErrorException, onlyPrinted (msgParseFailed item)).
Proof.
  intros report.
  apply (malformed_record_is_fatal noUnicode sampleConfig fstatNoSuchFile elements 9148 report).
  - vm_compute. reflexivity.
  - vm_compute. discriminate.
  - vm_compute. reflexivity.
  - change (p4infoOf report)
      with ["//depot/Game/Assets/a.png#1 add"; "//depot/Game/Assets/b.png add"].
    apply Exists_cons_tl, Exists_cons_hd. vm_compute. discriminate.
Defined.

Lemma lookup_failure_is_fatal_witness :
  let r := app noUnicode sampleConfig fstatUnreachable elements 9148
             (describeOutput (header ++ ["info1: //depot/Game/Assets/a.png#1 add"])) in
  fst r = p4ExitErrorException
  /\ last (fstatCalls (snd r)) = Some "//depot/Game/Assets/a.png.meta"
  /\ exists reported e,
       snd (fstatAnswer fstatUnreachable "//depot/Game/Assets/a.png.meta") = Some e
       /\ last (stdout (snd r)) = Some (msgFstatFailed reported e).
Proof.
  apply (proj1 (lookup_failure_is_fatal noUnicode sampleConfig fstatUnreachable elements elements_lists)).
  - vm_compute. left. reflexivity.
  - intros H. vm_compute in H. discriminate H.
Defined.

Lemma empty_whitelist_validates_nothing_witness :
  let report := describeOutput (header ++ ["info1: //depot/Game/Assets/a.png#1 add"]) in
  PathWhitelist noWhitelistConfig = []
  /\ app noUnicode noWhitelistConfig fstatNoSuchFile elements 9148 report
     = (p4ExitSuccess, onlyPrinted msgSuccess).
Proof.
  intros report. split; [reflexivity|].
  apply (empty_whitelist_validates_nothing noUnicode noWhitelistConfig fstatNoSuchFile elements
           elements_lists 9148 report).
  - reflexivity.
  - vm_compute. reflexivity.
  - vm_compute. discriminate.
  - vm_compute. discriminate.
  - change (p4infoOf report) with ["//depot/Game/Assets/a.png#1 add"].
    constructor; [vm_compute; reflexivity | constructor].
  - vm_compute. reflexivity.
Defined.

Lemma same_report_same_verdict_witness :
  let report := describeOutput (header ++ ["info1: //depot/Game/Assets/a.png#1 add";
                                          "info1: //depot/Game/Assets/b.png#1 add"]) in
  let r1 := app noUnicode sampleConfig fstatNoSuchFile elements 9148 report in
  let r2 := app noUnicode sampleConfig fstatNoSuchFile reversed 9148 report in
  fst r1 = fst r2
  /\ Permutation (stdout (snd r1)) (stdout (snd r2))
  /\ Permutation (fstatCalls (snd r1)) (fstatCalls (snd r2)).
Proof.
  intros report r1 r2.
  destruct (same_report_same_verdict noUnicode sampleConfig fstatNoSuchFile elements reversed
              elements_lists reversed_lists 9148 report) as [H1 H2].
  split; [exact H1|]. apply H2.
  intros q Hq. vm_compute in Hq. destruct Hq as [<- | [<- | []]]; vm_compute; reflexivity.
Defined.

(** C10, the claim as written fails: the key-phrase is empty, the header
    block has three lines, the file-record block is empty, and the run is a
    hard error, not a bypass. *)
Lemma empty_keyphrase_empty_records :
  let report := describeOutput header in
  BypassKeyphrase emptyKeyphraseConfig = ""
  /\ (2 <= length (p4textOf report))%nat
  /\ app noUnicode emptyKeyphraseConfig fstatNoSuchFile elements 9148 report
     = (p4ExitErrorEmpty, onlyPrinted (msgNoFileRecords 9148))
  /\ fst (app noUnicode emptyKeyphraseConfig fstatNoSuchFile elements 9148 report) <> p4ExitBypass.
Proof.
  cbv zeta. repeat split; try (vm_compute; reflexivity).
  - vm_compute. lia.
  - vm_compute. discriminate.
Qed.

Lemma empty_keyphrase_bypasses_witness :
  let report := describeOutput (header ++ ["info1: //depot/Game/Assets/a.png#1 add"]) in
  BypassKeyphrase emptyKeyphraseConfig = ""
  /\ bypassed emptyKeyphraseConfig report = true
  /\ app noUnicode emptyKeyphraseConfig fstatNoSuchFile elements 9148 report
     = (p4ExitBypass, onlyPrinted msgBypass).
Proof.
  intros report. split; [reflexivity|].
  apply (empty_keyphrase_bypasses noUnicode emptyKeyphraseConfig fstatNoSuchFile elements 9148 report).
  - reflexivity.
  - vm_compute. lia.
  - vm_compute. reflexivity.
  - vm_compute. discriminate.
Defined.

(** ** The further properties *)

Lemma reFileRecordUnpack_round_trip_witness :
  reFileRecordUnpack "//depot/Game/Assets/a.png#12 move/add"
  = ["//depot/Game/Assets/a.png#12 move/add"; "//depot/Game/Assets/a.png"; "12"; "move/add"].
Proof.
  apply (reFileRecordUnpack_round_trip "//depot/Game/Assets/a.png" "12" "move/add");
    try discriminate; reflexivity.
Defined.


Lemma one_lookup_per_record_witness :
  let report := describeOutput (header ++ ["info1: //depot/Game/Assets/a.png#1 add";
                                          "info1: //depot/Game/Assets/b.png.meta#1 add"]) in
  (length (fstatCalls (snd (app noUnicode sampleConfig fstatNoSuchFile elements 9148 report)))
   <= length (p4infoOf report))%nat.
Proof.
  intros report.
  apply (one_lookup_per_record noUnicode sampleConfig fstatNoSuchFile elements elements_lists).
Defined.


Lemma case_insensitive_pairing_witness :
  let l := ["//depot/Game/Assets/Foo.PNG#1 add"; "//depot/Game/Assets/foo.png.meta#1 add"] in
  let b := markForAdd noUnicode (markForAdd noUnicode noFiles "//depot/Game/Assets/Foo.PNG")
             "//depot/Game/Assets/foo.png.meta" in
  forEachWith l noFiles (classifyItem noUnicode sampleConfig) start = (Next b, start)
  /\ ~ In (msgMissingMeta "//depot/Game/Assets/Foo.PNG")
          (printed (addPass noUnicode fstatNoSuchFile elements b) start)
  /\ ~ In (msgMissingAsset "//depot/Game/Assets/foo.png.meta")
          (printed (addPass noUnicode fstatNoSuchFile elements b) start).
Proof.
  intros l b.
  assert (H : forEachWith l noFiles (classifyItem noUnicode sampleConfig) start
              = (Next b, start))
    by (vm_compute; reflexivity).
  pose proof (classify_mirrored noUnicode sampleConfig l start b start H) as Hm.
  split; [exact H|]. split.
  - destruct (case_insensitive_pairing noUnicode fstatNoSuchFile elements b
                "//depot/Game/Assets/Foo.PNG" "//depot/Game/Assets/foo.png.meta" start Hm)
      as (H1 & _ & _).
    apply H1; [apply has_true; vm_compute; reflexivity | reflexivity].
  - destruct (case_insensitive_pairing noUnicode fstatNoSuchFile elements b
                "//depot/Game/Assets/Foo.PNG" "//depot/Game/Assets/foo.png" start Hm)
      as (_ & H2 & _).
    apply H2; [apply has_true; vm_compute; reflexivity | reflexivity].
Defined.

Lemma lookups_only_for_missing_partners_witness :
  let b := markForAdd noUnicode noFiles "//depot/Game/Assets/a.png" in
  In "//depot/Game/Assets/a.png.meta" (asked (addPass noUnicode fstatNoSuchFile elements b) start)
  /\ ("//depot/Game/Assets/a.png.meta" ∉ filesBeingAdded b)
  /\ exists x, x ∈ filesBeingAdded b
               /\ ("//depot/Game/Assets/a.png.meta" = x +:+ ".meta"
                   \/ x = "//depot/Game/Assets/a.png.meta" +:+ ".meta").
Proof.
  intros b.
  assert (H : In "//depot/Game/Assets/a.png.meta"
                (asked (addPass noUnicode fstatNoSuchFile elements b) start))
    by (vm_compute; left; reflexivity).
  destruct (proj1 (lookups_only_for_missing_partners noUnicode fstatNoSuchFile elements elements_lists
                     b start "//depot/Game/Assets/a.png.meta") H) as (H1 & _ & H2).
  split; [exact H | split; [exact H1 | exact H2]].
Defined.

Lemma checks_need_a_parsed_report_witness :
  let report := describeOutput (header ++ ["info1: //depot/Game/Assets/a.png#1 add"]) in
  fstatCalls (snd (app noUnicode sampleConfig fstatNoSuchFile elements 9148 report)) <> []
  /\ notFound report = false
  /\ bypassed sampleConfig report = false
  /\ Forall wellFormed (p4infoOf report).
Proof.
  intros report.
  assert (H : fstatCalls (snd (app noUnicode sampleConfig fstatNoSuchFile elements 9148 report)) <> [])
    by (vm_compute; discriminate).
  destruct (checks_need_a_parsed_report noUnicode sampleConfig fstatNoSuchFile elements 9148 report
              (or_introl H)) as (H1 & _ & _ & H2 & H3).
  split; [exact H | split; [exact H1 | split; [exact H2 | exact H3]]].
Defined.



